(** * File-backed note and calculator storage: a shallow embedding

    The development follows the TypeScript sources of the application:

    - [CalculatorManager] embeds [src/managers/calculatorManager.ts];
    - [NoteManager] embeds [src/managers/noteManager.ts];
    - [CalculatorController] and [NoteController] embed the form handlers of
      [src/controllers/calculatorController.ts] and
      [src/controllers/noteController.ts];
    - [CalculatorPages] and [NotePages] embed their other handlers,
      [CalculatorsRouter], [NotesRouter] and [HomeRouter] the route tables;
    - [Auth] embeds [src/middleware/auth.ts] and [HomeController] the
      handlers of the home controller.

    Modelling decisions.

    - JavaScript values read from the storage file are untyped at run time
      (the [Calculator[]] annotation of the source is erased), so the managers
      work on [JValue], the values [JSON.parse] can produce.  The typed
      records [Calculator] and [Note] are related to them by [toJS].
    - Numbers are integers ([Z]): the controller only lets
      [Number.isInteger] values through and the data model of the
      specification says "integer".  Fractions, NaN, infinities and the
      rounding of doubles are outside the model.
    - Strings are [string]s whose characters stand for code units below 256.
    - An element found by [Array.prototype.find] is a reference into the
      array.  The reference is its index: assigning to a property of the found
      element updates the array the element lives in, as in the source.
    - [try]/[catch] and uncaught exceptions are explicit: a computation is a
      function from the state to [Ok] or [Throw].
    - The path a manager owns is in one of the states of [Fs.Disk]: no
      directory, no file, a file with its text, a path that is there and
      can be neither read nor written, which is how a failing read or write
      of an existing path shows, or a missing file that cannot be created,
      because its directory cannot be made or takes no file, which is how a
      failing [mkdirSync] or a failing creating [writeFileSync] shows.  A
      file that can be read can be written.
    - [JSON.parse], [JSON.stringify], [Number] and [String] on a number
      belong to the JavaScript run time, not to the repository.  They are
      the fields of the class [Runtime]; what the proofs need from them are
      the classes [RuntimeLaws] and [NumberLaws].  [String] is left open
      beyond the safe integers, where JavaScript no longer prints the
      decimal numeral.  [Reference.runtime] is an executable run time, with
      its laws proved.
    - A form body has the type the source gives it ([CalculatorFormBody],
      [NoteFormBody]): each field is a string or is absent, which is what
      an HTML form sends.  The source casts [req.body] to this type without
      a check, and the body parsers of the application can deliver an array
      or an object under a name, on which [.trim()] throws a [TypeError]:
      such a body is outside the model.  Every statement about a handler or
      about the requests of a router is about bodies whose fields are
      strings or absent.
    - The properties are stated on stores of records: a disk on which
      [list()] returns the objects of a list of [Calculator]s or [Note]s
      ([lists_calculators], [lists_notes]).
    - A controller keeps, beside its manager, the list of the manager calls
      it has made; the list is not in the source and only serves to say
      that a call was not made. *)

From Stdlib Require Import ZArith List String Ascii Bool Lia.
From Stdlib Require Import DecimalString DecimalFacts DecimalPos DecimalZ.
Import ListNotations.

Local Open Scope string_scope.
Local Open Scope Z_scope.
Local Open Scope list_scope.

Set Implicit Arguments.
Set Warnings "-register-all".

(** ** Monads: pure computations that may throw, and stateful ones *)

Class Monad (m : Type -> Type) : Type := {
  ret : forall {A : Type}, A -> m A;
  bind : forall {A B : Type}, m A -> (A -> m B) -> m B
}.

Notation "x <- c ;; k" := (bind c (fun x => k))
  (at level 61, c at next level, right associativity).
Notation "c ;; k" := (bind c (fun _ => k))
  (at level 61, right associativity).

(** The exceptions the modelled code can meet. *)
Inductive Exn : Type :=
| SyntaxError   (* JSON.parse on malformed text *)
| TypeError     (* property access on null, assignment to a primitive *)
| IOError.      (* a failing node:fs call *)

(** A pure expression: a value, or a thrown exception. *)
Inductive Res (A : Type) : Type :=
| Val (a : A)
| Raise (e : Exn).

Arguments Val {A} a.
Arguments Raise {A} e.

#[export] Instance Res_monad : Monad Res := {
  ret := fun A a => Val a;
  bind := fun A B c k => match c with Val a => k a | Raise e => Raise e end
}.

(** A statement sequence over a mutable state [S]. *)
Inductive Outcome (S A : Type) : Type :=
| Ok (a : A) (s : S)
| Throw (e : Exn) (s : S).

Arguments Ok {S A} a s.
Arguments Throw {S A} e s.

Definition M (S A : Type) : Type := S -> Outcome S A.

#[export] Instance M_monad (S : Type) : Monad (M S) := {
  ret := fun A a s => Ok a s;
  bind := fun A B c k s =>
    match c s with
    | Ok a s' => k a s'
    | Throw e s' => Throw e s'
    end
}.

(** A pure expression evaluated inside a statement sequence. *)
Definition eval {S A : Type} (r : Res A) : M S A :=
  fun s => match r with Val a => Ok a s | Raise e => Throw e s end.

(** [try { body } catch { handler }]; the handler does not look at the
    exception. *)
Definition try_catch {S A : Type} (body handler : M S A) : M S A :=
  fun s => match body s with
           | Ok a s' => Ok a s'
           | Throw _ s' => handler s'
           end.

(** A computation on a component of the state, given its getter and setter. *)
Definition zoom {S T A : Type} (get : S -> T) (set : T -> S -> S)
  (c : M T A) : M S A :=
  fun s => match c (get s) with
           | Ok a t => Ok a (set t s)
           | Throw e t => Throw e (set t s)
           end.

(** ** JavaScript values and the built-ins the sources use *)

Module JS.

(** The values [JSON.parse] returns.  An object is the list of its own
    properties in insertion order. *)
Inductive JValue : Type :=
| JNull
| JBool (b : bool)
| JNum (n : Z)
| JStr (s : string)
| JArr (elements : list JValue)
| JObj (properties : list (string * JValue)).

(** A value or [undefined]. *)
Definition Any : Type := option JValue.

Definition undefined : Any := None.

(** Truthiness, as [if (x)] and [!x] see it. *)
Definition truthy (v : JValue) : bool :=
  match v with
  | JNull => false
  | JBool b => b
  | JNum n => negb (n =? 0)
  | JStr s => negb (s =? "")%string
  | JArr _ => true
  | JObj _ => true
  end.

Definition truthy_any (a : Any) : bool :=
  match a with
  | None => false
  | Some v => truthy v
  end.

(** Own property lookup in an object. *)
Fixpoint lookup (k : string) (ps : list (string * JValue)) : Any :=
  match ps with
  | [] => undefined
  | (k', v) :: ps' => if (k' =? k)%string then Some v else lookup k ps'
  end.

(** [v.k] for one of the property names of the models ([oid], [title], ...):
    reading a property of [null] throws; primitives and arrays have no such
    property. *)
Definition get (v : JValue) (k : string) : Res Any :=
  match v with
  | JNull => Raise TypeError
  | JObj ps => Val (lookup k ps)
  | _ => Val undefined
  end.

(** Property assignment on the list of own properties: an existing property
    keeps its place, a new one goes last. *)
Fixpoint assign (k : string) (x : JValue) (ps : list (string * JValue))
  : list (string * JValue) :=
  match ps with
  | [] => [(k, x)]
  | (k', v) :: ps' =>
      if (k' =? k)%string then (k', x) :: ps' else (k', v) :: assign k x ps'
  end.

(** [v.k = x].  The module is strict code: assigning to a property of a
    primitive throws.  (An array would take the property without JSON ever
    showing it; no array reaches an assignment of the sources, since only an
    object can pass their [find] tests.) *)
Definition set (v : JValue) (k : string) (x : JValue) : Res JValue :=
  match v with
  | JObj ps => Val (JObj (assign k x ps))
  | _ => Raise TypeError
  end.

(** [a === p] for a primitive [p] (a number or a string in the sources).
    An array or an object is never identical to a primitive. *)
Definition strict_eq (a : Any) (p : JValue) : bool :=
  match a, p with
  | Some JNull, JNull => true
  | Some (JBool x), JBool y => Bool.eqb x y
  | Some (JNum x), JNum y => x =? y
  | Some (JStr x), JStr y => (x =? y)%string
  | _, _ => false
  end.

(** [Array.isArray(parsed) ? parsed : []]. *)
Definition array_or_empty (parsed : JValue) : list JValue :=
  match parsed with
  | JArr l => l
  | _ => []
  end.

(** A reference to an element of an array: its index. *)
Definition Ref : Type := nat.

(** [arr.find(p)]: the first element on which [p] holds, as a reference, or
    [undefined]; the elements after it are not visited, and an exception of
    [p] ends the search. *)
Fixpoint find (p : JValue -> Res bool) (arr : list JValue)
  : Res (option Ref) :=
  match arr with
  | [] => Val None
  | x :: arr' =>
      b <- p x ;;
      if (b : bool) then Val (Some O)
      else r <- find p arr' ;; Val (option_map S r)
  end.

(** [arr.filter(p)]: a new array. *)
Fixpoint filter (p : JValue -> Res bool) (arr : list JValue)
  : Res (list JValue) :=
  match arr with
  | [] => Val []
  | x :: arr' =>
      b <- p x ;;
      rest <- filter p arr' ;;
      Val (if (b : bool) then x :: rest else rest)
  end.

(** [arr.push(x)]. *)
Definition push (arr : list JValue) (x : JValue) : list JValue :=
  arr ++ [x].

(** The value behind an optional reference ([undefined] when there is
    none). *)
Definition deref (arr : list JValue) (r : option Ref) : Any :=
  match r with
  | None => undefined
  | Some i => nth_error arr i
  end.

(** Replace the element a reference points to. *)
Fixpoint store (arr : list JValue) (i : Ref) (x : JValue) : list JValue :=
  match arr, i with
  | [], _ => []
  | _ :: arr', O => x :: arr'
  | y :: arr', S i' => y :: store arr' i' x
  end.

(** [arr[i].k = x] through the reference [i]. *)
Definition set_at (arr : list JValue) (i : Ref) (k : string) (x : JValue)
  : Res (list JValue) :=
  match nth_error arr i with
  | None => Raise TypeError
  | Some v => v' <- set v k x ;; Val (store arr i v')
  end.

(** White space of [String.prototype.trim] among the code units below 256:
    TAB, LF, VT, FF, CR, SP and NBSP. *)
Definition is_space (c : ascii) : bool :=
  let n := nat_of_ascii c in
  ((9 <=? n)%nat && (n <=? 13)%nat) || (n =? 32)%nat || (n =? 160)%nat.

Fixpoint trim_start (s : string) : string :=
  match s with
  | EmptyString => EmptyString
  | String c s' => if is_space c then trim_start s' else s
  end.

Fixpoint trim_end (s : string) : string :=
  match s with
  | EmptyString => EmptyString
  | String c s' =>
      match trim_end s' with
      | EmptyString => if is_space c then EmptyString else String c EmptyString
      | t => String c t
      end
  end.

(** [s.trim()]. *)
Definition trim (s : string) : string := trim_start (trim_end s).

(** Truthiness of a string: [!s] holds exactly for the empty string. *)
Definition nonempty (s : string) : bool := negb (s =? "")%string.

(** The decimal numeral of an integer: its digits, after a minus sign when
    it is negative. *)
Definition decimal (n : Z) : string :=
  NilZero.string_of_int (Z.to_int n).

(** A JavaScript number as the controller sees it: an integer, or any other
    number (fraction, NaN, infinity). *)
Inductive JSNumber : Type :=
| NInt (z : Z)
| NOther.

Definition Number_isInteger (n : JSNumber) : bool :=
  match n with
  | NInt _ => true
  | NOther => false
  end.

End JS.

Import JS.

(** ** The run time *)

Class Runtime : Type := {
  (** [JSON.parse(text)]; [None] when it throws a [SyntaxError]. *)
  JSON_parse : string -> option JValue;
  (** [JSON.stringify(value, null, 2)]. *)
  JSON_stringify : JValue -> string;
  (** [Number(text)]. *)
  Number : string -> JSNumber;
  (** [String(n)], and the text a number [n] becomes where a string is
      expected, for a number that is an integer. *)
  String_of_number : Z -> string
}.

(** Keys JavaScript keeps in insertion order: not the canonical form of an
    array index.  (Being safe, every non-empty string of digits is left
    out.) *)
Definition is_digit (c : ascii) : bool :=
  let n := nat_of_ascii c in (48 <=? n)%nat && (n <=? 57)%nat.

Fixpoint all_digits (s : string) : bool :=
  match s with
  | EmptyString => true
  | String c s' => is_digit c && all_digits s'
  end.

Definition ordinary_key (k : string) : bool :=
  match k with
  | EmptyString => true
  | _ => negb (all_digits k)
  end.

Fixpoint distinct (ks : list string) : bool :=
  match ks with
  | [] => true
  | k :: ks' =>
      negb (existsb (fun k' => (k' =? k)%string) ks') && distinct ks'
  end.

(** The values that exist as JavaScript data and whose objects list their
    properties as JavaScript would: property names are pairwise distinct and
    ordinary, at every depth. *)
Fixpoint well_formed (v : JValue) : bool :=
  match v with
  | JArr l => forallb well_formed l
  | JObj ps =>
      distinct (map fst ps)
      && forallb (fun kv => ordinary_key (fst kv)) ps
      && forallb (fun kv => well_formed (snd kv)) ps
  | _ => true
  end.

(** What the proofs assume of [JSON.parse] and [JSON.stringify]. *)
Class RuntimeLaws (R : Runtime) : Prop := {
  parse_stringify :
    forall v, well_formed v = true -> JSON_parse (JSON_stringify v) = Some v;
  parse_empty_array : JSON_parse "[]" = Some (JArr []);
  stringify_not_blank : forall v, trim (JSON_stringify v) <> ""%string
}.

(** The integers a JavaScript number holds exactly
    ([Number.isSafeInteger]). *)
Definition safe_integer (n : Z) : Prop :=
  - (2 ^ 53 - 1) <= n <= 2 ^ 53 - 1.

(** What the proofs assume of [String]: a safe integer is printed as its
    decimal numeral.  (Beyond [1e21] JavaScript prints an exponent, and
    between the two the shortest digits that read back as the same
    double.) *)
Class NumberLaws (R : Runtime) : Prop := {
  String_safe_integer :
    forall n, safe_integer n -> String_of_number n = decimal n
}.

(** ** The storage file, as [node:fs] sees it *)

Module Fs.

(** Why a missing file cannot be created. *)
Inductive Refusal : Type :=
| NoParent  (* the data directory does not exist and cannot be created *)
| NewDir    (* the data directory does not exist and can be created, but
               no file can be created in it *)
| OldDir.   (* the data directory exists and no file can be created in it *)

(** The state of the one path a manager owns. *)
Inductive Disk : Type :=
| NoDir               (* the data directory does not exist; it can be
                         created, and the file in it *)
| NoFile              (* the directory exists, the file does not and can be
                         created *)
| File (raw : string) (* a regular file and its content *)
| Blocked             (* the path exists and can be neither read nor written
                         as a file (a directory, a permission) *)
| Refused (why : Refusal).
                      (* the file does not exist and cannot be created *)

(** [fs.existsSync(dir)]. *)
Definition existsSync_dir : M Disk bool :=
  fun d => match d with
           | NoDir | Refused NoParent | Refused NewDir => Ok false d
           | _ => Ok true d
           end.

(** [fs.mkdirSync(dir, { recursive: true })]: it throws when the
    directory cannot be created. *)
Definition mkdirSync : M Disk unit :=
  fun d => match d with
           | NoDir => Ok tt NoFile
           | Refused NoParent => Throw IOError d
           | Refused NewDir => Ok tt (Refused OldDir)
           | _ => Ok tt d
           end.

(** [fs.existsSync(storagePath)]. *)
Definition existsSync : M Disk bool :=
  fun d => match d with
           | File _ | Blocked => Ok true d
           | _ => Ok false d
           end.

(** [fs.writeFileSync(storagePath, data, "utf8")]: replaces the whole
    content, or creates the file; it throws when the file can be neither
    written nor created. *)
Definition writeFileSync (data : string) : M Disk unit :=
  fun d => match d with
           | NoFile | File _ => Ok tt (File data)
           | _ => Throw IOError d
           end.

(** [fs.readFileSync(storagePath, "utf8")]. *)
Definition readFileSync : M Disk string :=
  fun d => match d with
           | File raw => Ok raw d
           | _ => Throw IOError d
           end.

End Fs.

Import Fs.

(** ** The models ([src/models]) *)

Record Calculator : Type := {
  oid : Z;
  manufacturer : string;
  grade : Z;
  batteryType : Z
}.

Record Note : Type := {
  title : string;
  body : string
}.

(** The object literal [{ oid, manufacturer, grade, batteryType }]. *)
Definition calculator_object (oid : Z) (manufacturer : string)
  (grade batteryType : Z) : JValue :=
  JObj [("oid", JNum oid); ("manufacturer", JStr manufacturer);
        ("grade", JNum grade); ("batteryType", JNum batteryType)].

(** The object literal [{ title, body }]. *)
Definition note_object (title body : string) : JValue :=
  JObj [("title", JStr title); ("body", JStr body)].

(** A record as the JavaScript object it is at run time. *)
Class ToJS (A : Type) : Type := toJS : A -> JValue.

#[export] Instance Calculator_toJS : ToJS Calculator :=
  fun c => calculator_object (oid c) (manufacturer c) (grade c) (batteryType c).

#[export] Instance Note_toJS : ToJS Note :=
  fun n => note_object (title n) (body n).

(** ** [src/managers/calculatorManager.ts] *)

Module CalculatorManager.

Section WithRuntime.
Context {R : Runtime}.

(** The manager has one field, the constant [storagePath]: its state is the
    disk at that path. *)

Definition ensureStorage : M Disk unit :=
  dir_exists <- existsSync_dir ;;
  (if negb dir_exists then mkdirSync else ret tt) ;;
  file_exists <- existsSync ;;
  if negb file_exists then writeFileSync "[]" else ret tt.

Definition readAll : M Disk (list JValue) :=
  ensureStorage ;;
  try_catch
    (raw <- readFileSync ;;
     if negb (nonempty (trim raw)) then ret []
     else
       parsed <- eval (match JSON_parse raw with
                       | Some v => Val v
                       | None => Raise SyntaxError
                       end) ;;
       ret (array_or_empty parsed))
    (ret []).

Definition getCalculators : M Disk (list JValue) := readAll.

(** The test [(calculator) => calculator.oid === oid]. *)
Definition oid_is (oid : Z) (calculator : JValue) : Res bool :=
  p <- get calculator "oid" ;; ret (strict_eq p (JNum oid)).

(** The test [(calculator) => calculator.oid !== oid]. *)
Definition oid_is_not (oid : Z) (calculator : JValue) : Res bool :=
  p <- get calculator "oid" ;; ret (negb (strict_eq p (JNum oid))).

Definition writeAll (calculators : list JValue) : M Disk unit :=
  ensureStorage ;;
  let data := JSON_stringify (JArr calculators) in
  writeFileSync data.

(** [null] is [None]. *)
Definition getCalculatorByOid (oid : Z) : M Disk (option JValue) :=
  calculators <- readAll ;;
  match_ <- eval (find (oid_is oid) calculators) ;;
  ret (deref calculators match_).

Definition addCalculator (oid : Z) (manufacturer : string)
  (grade batteryType : Z) : M Disk (option JValue) :=
  calculators <- readAll ;;
  duplicate <- eval (find (oid_is oid) calculators) ;;
  if truthy_any (deref calculators duplicate) then ret None
  else
    let newCalculator := calculator_object oid manufacturer grade batteryType in
    let calculators := push calculators newCalculator in
    writeAll calculators ;;
    ret (Some newCalculator).

Definition editCalculator (oid : Z) (manufacturer : string)
  (grade batteryType : Z) : M Disk (option JValue) :=
  calculators <- readAll ;;
  calculator <- eval (find (oid_is oid) calculators) ;;
  match calculator with
  | None => ret None
  | Some ref =>
      if negb (truthy_any (nth_error calculators ref)) then ret None
      else
        calculators <- eval (set_at calculators ref "manufacturer"
                               (JStr manufacturer)) ;;
        calculators <- eval (set_at calculators ref "grade" (JNum grade)) ;;
        calculators <- eval (set_at calculators ref "batteryType"
                               (JNum batteryType)) ;;
        writeAll calculators ;;
        ret (nth_error calculators ref)
  end.

Definition deleteCalculator (oid : Z) : M Disk bool :=
  calculators <- readAll ;;
  remaining <- eval (filter (oid_is_not oid) calculators) ;;
  if (List.length remaining =? List.length calculators)%nat then ret false
  else
    writeAll remaining ;;
    ret true.

End WithRuntime.

End CalculatorManager.

(** ** [src/managers/noteManager.ts] *)

Module NoteManager.

(** The mutable fields of a [NoteManager]: the disk at [storagePath] and the
    in-memory cache [this.notes]. *)
Record State : Type := {
  disk : Disk;
  notes : list JValue
}.

Definition set_disk (d : Disk) (s : State) : State :=
  {| disk := d; notes := notes s |}.

(** [this.notes = l]. *)
Definition set_notes (l : list JValue) : M State unit :=
  fun s => Ok tt {| disk := disk s; notes := l |}.

(** [this.notes]. *)
Definition this_notes : M State (list JValue) :=
  fun s => Ok (notes s) s.

(** A [node:fs] call on the manager's path. *)
Definition fs {A : Type} (c : M Disk A) : M State A := zoom disk set_disk c.

Section WithRuntime.
Context {R : Runtime}.

Definition ensureStorage : M State unit :=
  dir_exists <- fs existsSync_dir ;;
  (if negb dir_exists then fs mkdirSync else ret tt) ;;
  file_exists <- fs existsSync ;;
  if negb file_exists then fs (writeFileSync "[]") else ret tt.

Definition loadNotes : M State (list JValue) :=
  ensureStorage ;;
  try_catch
    (raw <- fs readFileSync ;;
     if negb (nonempty (trim raw)) then
       set_notes [] ;; this_notes
     else
       parsed <- eval (match JSON_parse raw with
                       | Some v => Val v
                       | None => Raise SyntaxError
                       end) ;;
       set_notes (array_or_empty parsed) ;;
       this_notes)
    (set_notes [] ;; this_notes).

(** [new NoteManager()] on a disk: the cache is primed from the file. *)
Definition constructor (d : Disk) : Outcome State unit :=
  (loaded <- loadNotes ;; set_notes loaded) {| disk := d; notes := [] |}.

Definition getNotes : M State (list JValue) := loadNotes.

(** The test [(note) => note.title === title]. *)
Definition title_is (title : string) (note : JValue) : Res bool :=
  p <- get note "title" ;; ret (strict_eq p (JStr title)).

(** The test [(note) => note.title !== title]. *)
Definition title_is_not (title : string) (note : JValue) : Res bool :=
  p <- get note "title" ;; ret (negb (strict_eq p (JStr title))).

Definition saveNotes : M State unit :=
  ensureStorage ;;
  cached <- this_notes ;;
  let data := JSON_stringify (JArr cached) in
  fs (writeFileSync data).

Definition getNoteByTitle (title : string) : M State (option JValue) :=
  notes <- loadNotes ;;
  match_ <- eval (find (title_is title) notes) ;;
  ret (deref notes match_).

(** [notes] is the array [this.notes] refers to: [notes.push] already
    changes the cache, and [this.notes = notes] keeps it. *)
Definition addNote (title body : string) : M State (option JValue) :=
  notes <- loadNotes ;;
  duplicate <- eval (find (title_is title) notes) ;;
  if truthy_any (deref notes duplicate) then ret None
  else
    let newNote := note_object title body in
    let notes := push notes newNote in
    set_notes notes ;;
    saveNotes ;;
    ret (Some newNote).

Definition updateNote (title body : string) : M State (option JValue) :=
  notes <- loadNotes ;;
  note <- eval (find (title_is title) notes) ;;
  match note with
  | None => ret None
  | Some ref =>
      if negb (truthy_any (nth_error notes ref)) then ret None
      else
        notes <- eval (set_at notes ref "body" (JStr body)) ;;
        set_notes notes ;;
        saveNotes ;;
        ret (nth_error notes ref)
  end.

Definition removeNote (title : string) : M State bool :=
  notes <- loadNotes ;;
  remaining <- eval (filter (title_is_not title) notes) ;;
  if (List.length remaining =? List.length notes)%nat then ret false
  else
    set_notes remaining ;;
    saveNotes ;;
    ret true.

End WithRuntime.

End NoteManager.

(** ** What the controllers share *)

Module Web.

(** A form field or a route parameter, as [typeof] tells them apart.  The
    body parser and the router deliver strings; a field that was not sent is
    [undefined]. *)
Inductive Unknown : Type :=
| UNumber (n : JSNumber)
| UString (s : string)
| UOther.

(** An optional form field [f?: string], passed where [unknown] is
    expected. *)
Definition unknown_of (f : option string) : Unknown :=
  match f with
  | Some s => UString s
  | None => UOther
  end.

(** [f?.trim() ?? ""]. *)
Definition trim_or_empty (f : option string) : string :=
  match f with
  | Some s => trim s
  | None => ""
  end.

(** [f ?? ""]. *)
Definition or_empty (f : option string) : string :=
  match f with
  | Some s => s
  | None => ""
  end.

Inductive Mode : Type := Add | Edit.

Definition Mode_eqb (a b : Mode) : bool :=
  match a, b with
  | Add, Add | Edit, Edit => true
  | _, _ => false
  end.

Definition Mode_text (m : Mode) : string :=
  match m with
  | Add => "Add"
  | Edit => "Edit"
  end.

(** [encodeURIComponent]: letters, digits and [-_.!~*'()] stay, every other
    code unit becomes the [%XX] of its UTF-8 bytes. *)
Definition unreserved (c : ascii) : bool :=
  let n := nat_of_ascii c in
  ((48 <=? n) && (n <=? 57))%nat || ((65 <=? n) && (n <=? 90))%nat
  || ((97 <=? n) && (n <=? 122))%nat
  || existsb (Ascii.eqb c)
       ["-"; "_"; "."; "!"; "~"; "*"; "'"; "("; ")"]%char.

Definition hex_upper (n : nat) : ascii :=
  ascii_of_nat (if (n <? 10)%nat then 48 + n else 55 + n)%nat.

Definition percent (byte : nat) : string :=
  String "%" (String (hex_upper (byte / 16)) (String (hex_upper (byte mod 16))
    EmptyString)).

Fixpoint encodeURIComponent (s : string) : string :=
  match s with
  | EmptyString => EmptyString
  | String c s' =>
      let n := nat_of_ascii c in
      ((if unreserved c then String c EmptyString
        else if (n <? 128)%nat then percent n
        else percent (192 + n / 64) ++ percent (128 + n mod 64))
       ++ encodeURIComponent s')%string
  end.

End Web.

Import Web.

(** ** [src/controllers/calculatorController.ts] *)

Module CalculatorController.

Definition gradeMin : Z := 0.
Definition gradeMax : Z := 10.
Definition batteryMin : Z := 1.
Definition batteryMax : Z := 3.

Definition genericError : string :=
  "Invalid input. Please check the form fields.".

(** The manager methods a handler calls, in order: a record kept beside the
    manager so that "the manager is not called" can be stated.  It is not
    part of the source. *)
Inductive Call : Type :=
| GetCalculators
| GetCalculatorByOid (oid : Z)
| AddCalculator (oid : Z) (manufacturer : string) (grade batteryType : Z)
| EditCalculator (oid : Z) (manufacturer : string) (grade batteryType : Z)
| DeleteCalculator (oid : Z).

(** The controller's world: the injected manager (its disk) and the record
    of the calls made on it. *)
Record Ctx : Type := {
  calculatorManager : Disk;
  calls : list Call
}.

Definition set_manager (d : Disk) (c : Ctx) : Ctx :=
  {| calculatorManager := d; calls := calls c |}.

(** [this.calculatorManager.method(...)]. *)
Definition call {A : Type} (which : Call) (method : M Disk A) : M Ctx A :=
  fun c =>
    zoom calculatorManager set_manager method
      {| calculatorManager := calculatorManager c;
         calls := calls c ++ [which] |}.

(** [interface CalculatorFormBody]: each field is a string, or absent
    ([None]).  A body with a field of another type, which the cast
    [req.body as CalculatorFormBody] lets through, has no counterpart
    here. *)
Module Body.
Record t : Type := {
  oid : option string;
  manufacturer : option string;
  grade : option string;
  batteryType : option string
}.
End Body.

(** The result of [parseFormBody]. *)
Module Parsed.
Record t : Type := {
  oidRaw : string;
  gradeRaw : string;
  batteryTypeRaw : string;
  oid : option Z;
  manufacturer : string;
  grade : option Z;
  batteryType : option Z
}.
End Parsed.

(** The [values] of [FormOptions]. *)
Module Values.
Record t : Type := {
  oid : string;
  manufacturer : string;
  grade : string;
  batteryType : string
}.
End Values.

(** [interface FormOptions]; [calculator] is [None] when it is absent or
    [null]. *)
Record FormOptions : Type := {
  mode : Mode;
  action : string;
  calculator : option JValue;
  values : option Values.t;
  error : option string
}.

(** The object handed to the template [calculators/calculatorForm].  A field
    filled from a stored calculator is whatever the file held. *)
Module Locals.
Record t : Type := {
  title : string;
  mode : string;
  action : string;
  oid : Any;
  manufacturer : Any;
  grade : Any;
  batteryType : Any;
  isEdit : bool;
  error : option string
}.
End Locals.

Inductive Response : Type :=
| Render (view : string) (locals : Locals.t)
| Redirect (url : string).

(** The result of [validateFields]. *)
Record Validation : Type := {
  ok : bool;
  error_text : string
}.

Section WithRuntime.
Context {R : Runtime}.

Definition parseInt (value : Unknown) : option Z :=
  match value with
  | UNumber n =>
      match n with
      | NInt z => if Number_isInteger n then Some z else None
      | NOther => None
      end
  | UString s =>
      let trimmed := trim s in
      if negb (nonempty trimmed) then None
      else
        let parsed := Number trimmed in
        match parsed with
        | NInt z => if negb (Number_isInteger parsed) then None else Some z
        | NOther => None
        end
  | UOther => None
  end.

Definition isIntInRange (value min max : Z) : bool :=
  Number_isInteger (NInt value) && (min <=? value) && (value <=? max).

(** [x === null]. *)
Definition is_null {A : Type} (x : option A) : bool :=
  match x with
  | None => true
  | Some _ => false
  end.

Definition validateFields (manufacturer : string)
  (grade batteryType : option Z) : Validation :=
  if negb (nonempty manufacturer) || is_null grade || is_null batteryType then
    {| ok := false; error_text := genericError |}
  else
    match grade, batteryType with
    | Some grade, Some batteryType =>
        if negb (isIntInRange grade gradeMin gradeMax)
           || negb (isIntInRange batteryType batteryMin batteryMax) then
          {| ok := false; error_text := genericError |}
        else {| ok := true; error_text := "" |}
    | _, _ =>
        (* not reached: neither is null here *)
        {| ok := false; error_text := genericError |}
    end.

Definition parseFormBody (body : Body.t) : Parsed.t :=
  let cleanedManufacturer := trim_or_empty (Body.manufacturer body) in
  {| Parsed.oidRaw := or_empty (Body.oid body);
     Parsed.gradeRaw := or_empty (Body.grade body);
     Parsed.batteryTypeRaw := or_empty (Body.batteryType body);
     Parsed.manufacturer := cleanedManufacturer;
     Parsed.oid := parseInt (unknown_of (Body.oid body));
     Parsed.grade := parseInt (unknown_of (Body.grade body));
     Parsed.batteryType := parseInt (unknown_of (Body.batteryType body)) |}.

(** [String(x)] for a property read from a stored value. *)
Fixpoint String_of (v : JValue) : string :=
  match v with
  | JNull => "null"
  | JBool b => if b then "true" else "false"
  | JNum n => String_of_number n
  | JStr s => s
  | JArr l =>
      String.concat ","
        (map (fun e => match e with JNull => "" | _ => String_of e end) l)
  | JObj _ => "[object Object]"
  end.

Definition String_of_any (a : Any) : string :=
  match a with
  | None => "undefined"
  | Some v => String_of v
  end.

(** [x.k] where [x] is known to be truthy, hence not [null]. *)
Definition get_or_undefined (v : JValue) (k : string) : Any :=
  match get v k with
  | Val a => a
  | Raise _ => undefined
  end.

Definition renderForm (options : FormOptions) : Response :=
  let values := (Some (JStr ""), Some (JStr ""), Some (JStr ""),
                 Some (JStr "")) in
  let values :=
    match calculator options with
    | Some c =>
        if truthy c then
          (Some (JStr (String_of_any (get_or_undefined c "oid"))),
           get_or_undefined c "manufacturer",
           Some (JStr (String_of_any (get_or_undefined c "grade"))),
           Some (JStr (String_of_any (get_or_undefined c "batteryType"))))
        else values
    | None => values
    end in
  let values :=
    match CalculatorController.values options with
    | Some v =>
        (Some (JStr (Values.oid v)), Some (JStr (Values.manufacturer v)),
         Some (JStr (Values.grade v)), Some (JStr (Values.batteryType v)))
    | None => values
    end in
  let '(v_oid, v_manufacturer, v_grade, v_batteryType) := values in
  let title :=
    if Mode_eqb (mode options) Add then "Add Calculator"
    else "Edit Calculator" in
  let isEdit := Mode_eqb (mode options) Edit in
  Render "calculators/calculatorForm"
    {| Locals.title := title;
       Locals.mode := Mode_text (mode options);
       Locals.action := action options;
       Locals.oid := v_oid;
       Locals.manufacturer := v_manufacturer;
       Locals.grade := v_grade;
       Locals.batteryType := v_batteryType;
       Locals.isEdit := isEdit;
       Locals.error := error options |}.

(** [postCreate], from the form body of the request. *)
Definition postCreate (body : Body.t) : M Ctx Response :=
  let parsedForm := parseFormBody body in
  let validation :=
    validateFields (Parsed.manufacturer parsedForm)
      (Parsed.grade parsedForm) (Parsed.batteryType parsedForm) in
  let rejected :=
    renderForm
      {| mode := Add;
         action := "/calculators/create";
         calculator := None;
         values := Some
           {| Values.oid := Parsed.oidRaw parsedForm;
              Values.manufacturer := Parsed.manufacturer parsedForm;
              Values.grade := Parsed.gradeRaw parsedForm;
              Values.batteryType := Parsed.batteryTypeRaw parsedForm |};
         error := Some genericError |} in
  match Parsed.oid parsedForm, Parsed.grade parsedForm,
        Parsed.batteryType parsedForm with
  | Some oid, Some grade, Some batteryType =>
      if negb (ok validation) then ret rejected
      else
        stored <- call
          (AddCalculator oid (Parsed.manufacturer parsedForm) grade
             batteryType)
          (CalculatorManager.addCalculator oid
             (Parsed.manufacturer parsedForm) grade batteryType) ;;
        if negb (truthy_any stored) then
          ret (renderForm
            {| mode := Add;
               action := "/calculators/create";
               calculator := None;
               values := Some
                 {| Values.oid := String_of_number oid;
                    Values.manufacturer := Parsed.manufacturer parsedForm;
                    Values.grade := String_of_number grade;
                    Values.batteryType := String_of_number batteryType |};
               error := Some genericError |})
        else ret (Redirect "/calculators")
  | _, _, _ => ret rejected
  end.

(** [postEdit], from the route parameter [oid] and the form body. *)
Definition postEdit (oid : string) (body : Body.t) : M Ctx Response :=
  match parseInt (UString oid) with
  | None => ret (Redirect "/calculators")
  | Some parsedOid =>
      let parsedForm := parseFormBody body in
      let validation :=
        validateFields (Parsed.manufacturer parsedForm)
          (Parsed.grade parsedForm) (Parsed.batteryType parsedForm) in
      let rejected : M Ctx Response :=
        existing <- call (GetCalculatorByOid parsedOid)
          (CalculatorManager.getCalculatorByOid parsedOid) ;;
        ret (renderForm
          {| mode := Edit;
             action := ("/calculators/edit/" ++ encodeURIComponent oid)%string;
             calculator := existing;
             values := Some
               {| Values.oid := String_of_number parsedOid;
                  Values.manufacturer := Parsed.manufacturer parsedForm;
                  Values.grade := Parsed.gradeRaw parsedForm;
                  Values.batteryType := Parsed.batteryTypeRaw parsedForm |};
             error := Some genericError |}) in
      match Parsed.grade parsedForm, Parsed.batteryType parsedForm with
      | Some grade, Some batteryType =>
          if negb (ok validation) then rejected
          else
            updated <- call
              (EditCalculator parsedOid (Parsed.manufacturer parsedForm)
                 grade batteryType)
              (CalculatorManager.editCalculator parsedOid
                 (Parsed.manufacturer parsedForm) grade batteryType) ;;
            if negb (truthy_any updated) then ret (Redirect "/calculators")
            else ret (Redirect "/calculators")
      | _, _ => rejected
      end
  end.

End WithRuntime.

End CalculatorController.

(** ** [src/controllers/noteController.ts] *)

Module NoteController.

(** The manager methods a handler calls, in order (not part of the
    source). *)
Inductive Call : Type :=
| GetNotes
| GetNoteByTitle (title : string)
| AddNote (title body : string)
| UpdateNote (title body : string)
| RemoveNote (title : string).

Record Ctx : Type := {
  noteManager : NoteManager.State;
  calls : list Call
}.

Definition set_manager (m : NoteManager.State) (c : Ctx) : Ctx :=
  {| noteManager := m; calls := calls c |}.

(** [this.noteManager.method(...)]. *)
Definition call {A : Type} (which : Call) (method : M NoteManager.State A)
  : M Ctx A :=
  fun c =>
    zoom noteManager set_manager method
      {| noteManager := noteManager c; calls := calls c ++ [which] |}.

(** [interface NoteFormBody]: each field is a string, or absent ([None]).
    A body with a field of another type, which the cast
    [req.body as NoteFormBody] lets through, has no counterpart here. *)
Module Body.
Record t : Type := {
  title : option string;
  body : option string
}.
End Body.

(** [interface FormOptions]; [note] is [None] when it is absent or [null]. *)
Record FormOptions : Type := {
  mode : Mode;
  action : string;
  note : option JValue;
  error : option string
}.

(** The object handed to the template [notes/noteForm]. *)
Module Locals.
Record t : Type := {
  title : string;
  mode : string;
  action : string;
  noteTitle : JValue;
  noteBody : JValue;
  isEdit : bool;
  error : option string
}.
End Locals.

Inductive Response : Type :=
| Render (view : string) (locals : Locals.t)
| Redirect (url : string).

(** [options.note?.k ?? ""]. *)
Definition field_or_empty (note : option JValue) (k : string) : JValue :=
  match note with
  | None => JStr ""
  | Some n =>
      match get n k with
      | Val (Some JNull) | Val None | Raise _ => JStr ""
      | Val (Some v) => v
      end
  end.

Definition renderForm (options : FormOptions) : Response :=
  Render "notes/noteForm"
    {| Locals.title :=
         if Mode_eqb (mode options) Add then "Add Note" else "Edit Note";
       Locals.mode := Mode_text (mode options);
       Locals.action := action options;
       Locals.noteTitle := field_or_empty (note options) "title";
       Locals.noteBody := field_or_empty (note options) "body";
       Locals.isEdit := Mode_eqb (mode options) Edit;
       Locals.error := error options |}.

Section Handlers.
Context {R : Runtime}.

(** [postCreate], from the form body of the request. *)
Definition postCreate (form : Body.t) : M Ctx Response :=
  let cleanedTitle := trim_or_empty (Body.title form) in
  let cleanedBody := trim_or_empty (Body.body form) in
  if negb (nonempty cleanedTitle) || negb (nonempty cleanedBody) then
    ret (renderForm
      {| mode := Add;
         action := "/notes/create";
         note := Some (note_object cleanedTitle cleanedBody);
         error := Some "Both title and body are required." |})
  else
    stored <- call (AddNote cleanedTitle cleanedBody)
      (NoteManager.addNote cleanedTitle cleanedBody) ;;
    if negb (truthy_any stored) then
      ret (renderForm
        {| mode := Add;
           action := "/notes/create";
           note := Some (note_object cleanedTitle cleanedBody);
           error := Some "A note with that title already exists." |})
    else ret (Redirect "/notes/index").

(** [postUpdate], from the route parameter [title] and the form body. *)
Definition postUpdate (title : string) (form : Body.t) : M Ctx Response :=
  let cleanedBody := trim_or_empty (Body.body form) in
  if negb (nonempty cleanedBody) then
    existing <- call (GetNoteByTitle title)
      (NoteManager.getNoteByTitle title) ;;
    ret (renderForm
      {| mode := Edit;
         action := ("/notes/update/" ++ encodeURIComponent title)%string;
         note := Some match existing with
                      | Some n => n
                      | None => note_object title cleanedBody
                      end;
         error := Some "Body is required." |})
  else
    updated <- call (UpdateNote title cleanedBody)
      (NoteManager.updateNote title cleanedBody) ;;
    if negb (truthy_any updated) then ret (Redirect "/notes/index")
    else ret (Redirect "/notes/index").

End Handlers.

End NoteController.

(** ** A reference run time

    An executable [JSON.parse] / [JSON.stringify(_, null, 2)] for the values
    of the model, and [Number] on signed decimal integer literals.  The
    theorems below hold for every lawful run time; this one shows that the
    laws can be met and lets the managers be evaluated. *)

Module Reference.

Definition dquote : ascii := ascii_of_nat 34.
Definition backslash : ascii := ascii_of_nat 92.
Definition newline : ascii := ascii_of_nat 10.

Definition hex_lower (n : nat) : ascii :=
  ascii_of_nat (if (n <? 10)%nat then 48 + n else 87 + n)%nat.

(** One code unit inside a JSON string literal. *)
Definition escape (c : ascii) : string :=
  let n := nat_of_ascii c in
  let short e := String backslash (String e EmptyString) in
  if (n =? 34)%nat then short dquote
  else if (n =? 92)%nat then short backslash
  else if (n =? 8)%nat then short "b"%char
  else if (n =? 12)%nat then short "f"%char
  else if (n =? 10)%nat then short "n"%char
  else if (n =? 13)%nat then short "r"%char
  else if (n =? 9)%nat then short "t"%char
  else if (n <? 32)%nat then
    String backslash
      (String "u" (String "0" (String "0"
        (String (hex_lower (n / 16)) (String (hex_lower (n mod 16))
          EmptyString)))))
  else String c EmptyString.

(** The printer builds its text in front of a continuation [k], the text
    that follows: [print indent v k] is the text of [v] followed by [k]. *)

Fixpoint escape_all (s : string) (k : string) : string :=
  match s with
  | EmptyString => k
  | String c s' => (escape c ++ escape_all s' k)%string
  end.

Definition quote (s : string) (k : string) : string :=
  String dquote (escape_all s (String dquote k)).

Fixpoint spaces (n : nat) (k : string) : string :=
  match n with
  | O => k
  | S n' => String " " (spaces n' k)
  end.

(** A line break followed by the indentation. *)
Definition break (indent : nat) (k : string) : string :=
  String newline (spaces indent k).

(** The comma between two items. *)
Definition separator {A : Type} (more : list A) (k : string) : string :=
  match more with
  | [] => k
  | _ => String "," k
  end.

(** [JSON.stringify(v, null, 2)] at an indentation. *)
Fixpoint print (indent : nat) (v : JValue) (k : string) : string :=
  match v with
  | JNull => ("null" ++ k)%string
  | JBool b => ((if b then "true" else "false") ++ k)%string
  | JNum n => (decimal n ++ k)%string
  | JStr s => quote s k
  | JArr [] => String "[" (String "]" k)
  | JArr l =>
      String "["
        ((fix elements (l : list JValue) (k : string) : string :=
            match l with
            | [] => k
            | x :: l' =>
                break (2 + indent)
                  (print (2 + indent) x (separator l' (elements l' k)))
            end) l (break indent (String "]" k)))
  | JObj [] => String "{" (String "}" k)
  | JObj ps =>
      String "{"
        ((fix members (ps : list (string * JValue)) (k : string) : string :=
            match ps with
            | [] => k
            | (name, x) :: ps' =>
                break (2 + indent)
                  (quote name
                     (String ":" (String " "
                        (print (2 + indent) x
                           (separator ps' (members ps' k))))))
            end) ps (break indent (String "}" k)))
  end.

(** The elements of a non-empty array, one per line: the inner function of
    [print], by name. *)
Definition print_elements (indent : nat) : list JValue -> string -> string :=
  fix elements (l : list JValue) (k : string) : string :=
    match l with
    | [] => k
    | x :: l' =>
        break (2 + indent)
          (print (2 + indent) x (separator l' (elements l' k)))
    end.

(** The members of a non-empty object, one per line. *)
Definition print_members (indent : nat)
  : list (string * JValue) -> string -> string :=
  fix members (ps : list (string * JValue)) (k : string) : string :=
    match ps with
    | [] => k
    | (name, x) :: ps' =>
        break (2 + indent)
          (quote name
             (String ":" (String " "
                (print (2 + indent) x
                   (separator ps' (members ps' k))))))
    end.

Definition stringify (v : JValue) : string := print 0 v EmptyString.

(** JSON white space: SP, TAB, LF, CR. *)
Definition is_json_space (c : ascii) : bool :=
  let n := nat_of_ascii c in
  (n =? 32)%nat || (n =? 9)%nat || (n =? 10)%nat || (n =? 13)%nat.

Fixpoint skip_ws (s : string) : string :=
  match s with
  | EmptyString => EmptyString
  | String c s' => if is_json_space c then skip_ws s' else s
  end.

Definition hex_value (c : ascii) : option nat :=
  let n := nat_of_ascii c in
  if ((48 <=? n) && (n <=? 57))%nat then Some (n - 48)%nat
  else if ((97 <=? n) && (n <=? 102))%nat then Some (n - 87)%nat
  else if ((65 <=? n) && (n <=? 70))%nat then Some (n - 55)%nat
  else None.

(** The character a short escape [\e] stands for. *)
Definition unescape (e : ascii) : option ascii :=
  let n := nat_of_ascii e in
  if (n =? 34)%nat then Some dquote
  else if (n =? 92)%nat then Some backslash
  else if (n =? 47)%nat then Some "/"%char
  else if (n =? 98)%nat then Some (ascii_of_nat 8)
  else if (n =? 102)%nat then Some (ascii_of_nat 12)
  else if (n =? 110)%nat then Some (ascii_of_nat 10)
  else if (n =? 114)%nat then Some (ascii_of_nat 13)
  else if (n =? 116)%nat then Some (ascii_of_nat 9)
  else None.

Definition cons_char (c : ascii) (r : option (string * string))
  : option (string * string) :=
  match r with
  | Some (s, rest) => Some (String c s, rest)
  | None => None
  end.

(** The characters of a string literal after its opening quote, up to the
    closing quote; the text after it.  A [\uXXXX] escape of a code unit above
    255 is outside the model. *)
Fixpoint parse_chars (s : string) : option (string * string) :=
  match s with
  | EmptyString => None
  | String c r =>
      if Ascii.eqb c dquote then Some (EmptyString, r)
      else if Ascii.eqb c backslash then
        match r with
        | EmptyString => None
        | String e r' =>
            if Ascii.eqb e "u" then
              match r' with
              | String a (String b (String h (String l r''))) =>
                  match hex_value a, hex_value b, hex_value h, hex_value l with
                  | Some O, Some O, Some x, Some y =>
                      cons_char (ascii_of_nat (16 * x + y)) (parse_chars r'')
                  | _, _, _, _ => None
                  end
              | _ => None
              end
            else
              match unescape e with
              | Some ch => cons_char ch (parse_chars r')
              | None => None
              end
        end
      else if (nat_of_ascii c <? 32)%nat then None
      else cons_char c (parse_chars r)
  end.

Fixpoint span_digits (s : string) : string * string :=
  match s with
  | EmptyString => (EmptyString, EmptyString)
  | String c r =>
      if is_digit c then
        let (ds, rest) := span_digits r in (String c ds, rest)
      else (EmptyString, s)
  end.

(** What may not follow the digits of an integer literal: a fraction or an
    exponent (outside the model). *)
Definition continues_number (rest : string) : bool :=
  match rest with
  | EmptyString => false
  | String c _ =>
      Ascii.eqb c "." || Ascii.eqb c "e" || Ascii.eqb c "E"
  end.

Definition leading_zero (ds : string) : bool :=
  match ds with
  | String c (String _ _) => Ascii.eqb c "0"
  | _ => false
  end.

(** An integer literal: an optional minus sign, then [0] or digits that
    do not begin with [0]. *)
Definition parse_number (s : string) : option (Z * string) :=
  let (negative, s1) :=
    match s with
    | String c r => if Ascii.eqb c "-" then (true, r) else (false, s)
    | EmptyString => (false, s)
    end in
  let (ds, rest) := span_digits s1 in
  if leading_zero ds || continues_number rest then None
  else
    match NilZero.uint_of_string ds with
    | Some u => Some (if negative then - Z.of_uint u else Z.of_uint u, rest)
    | None => None
    end.

(** [s] begins with the word [w]: the text after it. *)
Fixpoint after_word (w s : string) : option string :=
  match w, s with
  | EmptyString, _ => Some s
  | String a w', String b s' => if Ascii.eqb a b then after_word w' s' else None
  | _, EmptyString => None
  end.

(** An object from its members in source order: a repeated name keeps its
    first place and takes the last value. *)
Definition object_of (members : list (string * JValue)) : JValue :=
  JObj (fold_left (fun acc kv => assign (fst kv) (snd kv) acc) members []).

Definition literal (w : string) (v : JValue) (s : string)
  : option (JValue * string) :=
  match after_word w s with
  | Some rest => Some (v, rest)
  | None => None
  end.

(** A recursive-descent parser; [fuel] bounds the nesting and the number of
    elements, and the length of the text is always enough. *)
Fixpoint parse_value (fuel : nat) (s : string) : option (JValue * string) :=
  match fuel with
  | O => None
  | S fuel' =>
      match skip_ws s with
      | EmptyString => None
      | String c r =>
          if Ascii.eqb c "n" then literal "ull" JNull r
          else if Ascii.eqb c "t" then literal "rue" (JBool true) r
          else if Ascii.eqb c "f" then literal "alse" (JBool false) r
          else if Ascii.eqb c dquote then
            match parse_chars r with
            | Some (str, rest) => Some (JStr str, rest)
            | None => None
            end
          else if Ascii.eqb c "[" then
            match skip_ws r with
            | String c' r' =>
                if Ascii.eqb c' "]" then Some (JArr [], r')
                else
                  match parse_elements fuel' r with
                  | Some (l, rest) => Some (JArr l, rest)
                  | None => None
                  end
            | EmptyString => None
            end
          else if Ascii.eqb c "{" then
            match skip_ws r with
            | String c' r' =>
                if Ascii.eqb c' "}" then Some (JObj [], r')
                else
                  match parse_members fuel' r with
                  | Some (ps, rest) => Some (object_of ps, rest)
                  | None => None
                  end
            | EmptyString => None
            end
          else if Ascii.eqb c "-" || is_digit c then
            match parse_number (String c r) with
            | Some (n, rest) => Some (JNum n, rest)
            | None => None
            end
          else None
      end
  end
with parse_elements (fuel : nat) (s : string)
  : option (list JValue * string) :=
  match fuel with
  | O => None
  | S fuel' =>
      match parse_value fuel' s with
      | Some (v, r) =>
          match skip_ws r with
          | String c r' =>
              if Ascii.eqb c "," then
                match parse_elements fuel' r' with
                | Some (l, rest) => Some (v :: l, rest)
                | None => None
                end
              else if Ascii.eqb c "]" then Some ([v], r')
              else None
          | EmptyString => None
          end
      | None => None
      end
  end
with parse_members (fuel : nat) (s : string)
  : option (list (string * JValue) * string) :=
  match fuel with
  | O => None
  | S fuel' =>
      match skip_ws s with
      | String q r =>
          if Ascii.eqb q dquote then
            match parse_chars r with
            | Some (k, r1) =>
                match skip_ws r1 with
                | String colon r2 =>
                    if Ascii.eqb colon ":" then
                      match parse_value fuel' r2 with
                      | Some (v, r3) =>
                          match skip_ws r3 with
                          | String c r4 =>
                              if Ascii.eqb c "," then
                                match parse_members fuel' r4 with
                                | Some (ps, rest) => Some ((k, v) :: ps, rest)
                                | None => None
                                end
                              else if Ascii.eqb c "}" then Some ([(k, v)], r4)
                              else None
                          | EmptyString => None
                          end
                      | None => None
                      end
                    else None
                | EmptyString => None
                end
            | None => None
            end
          else None
      | EmptyString => None
      end
  end.

(** [JSON.parse(text)]. *)
Definition parse (text : string) : option JValue :=
  match parse_value (S (String.length text)) text with
  | Some (v, rest) =>
      match skip_ws rest with
      | EmptyString => Some v
      | _ => None
      end
  | None => None
  end.

(** [Number(text)] on [[+-]? [0-9]+] and on the empty text; every other text
    is answered [NOther], which is what JavaScript says of a text that is no
    numeric literal and of a decimal fraction.  (Hexadecimal, exponent and
    [Infinity] literals are not covered.) *)
Definition to_number (text : string) : JSNumber :=
  match trim text with
  | EmptyString => NInt 0
  | String c r =>
      let (negative, ds) :=
        if Ascii.eqb c "-" then (true, r)
        else if Ascii.eqb c "+" then (false, r)
        else (false, String c r) in
      if nonempty ds && all_digits ds then
        match NilEmpty.uint_of_string ds with
        | Some u => NInt (if negative then - Z.of_uint u else Z.of_uint u)
        | None => NOther
        end
      else NOther
  end.

(** [String] prints the decimal numeral, which is what JavaScript prints of
    a safe integer. *)
Definition runtime : Runtime := {|
  JSON_parse := parse;
  JSON_stringify := stringify;
  Number := to_number;
  String_of_number := decimal
|}.

End Reference.

(** ** Vocabulary of the statements *)

(** The lazy initialisation every operation starts with can succeed: no
    missing directory or file refuses to be created. *)
Definition creatable (d : Disk) : bool :=
  match d with
  | Refused _ => false
  | _ => true
  end.

(** The disk after the lazy initialisation, whether it succeeded or threw: a
    missing directory or file that can be created becomes a file holding the
    empty array; a path that already exists is left as it is; where the file
    cannot be created, the directory is created if it can be. *)
Definition ensured (d : Disk) : Disk :=
  match d with
  | NoDir | NoFile => File "[]"
  | Refused NewDir => Refused OldDir
  | _ => d
  end.

(** The first index at which [q] holds. *)
Fixpoint index {A : Type} (q : A -> bool) (l : list A) : option nat :=
  match l with
  | [] => None
  | a :: l' => if q a then Some O else option_map S (index q l')
  end.

Section Vocabulary.
Context {R : Runtime}.

(** The array a file content stands for. *)
Definition decode (raw : string) : list JValue :=
  if nonempty (trim raw) then
    match JSON_parse raw with
    | Some v => array_or_empty v
    | None => []
    end
  else [].

Definition contents (d : Disk) : list JValue :=
  match ensured d with
  | File raw => decode raw
  | _ => []
  end.

(** The file can be reached and holds the array [l]. *)
Definition stores (d : Disk) (l : list JValue) : Prop :=
  creatable d = true /\ contents d = l.

(** [list()] returns the records [cs], in this order. *)
Definition lists_calculators (d : Disk) (cs : list Calculator) : Prop :=
  exists d', CalculatorManager.getCalculators d = Ok (map toJS cs) d'.

Definition lists_notes (s : NoteManager.State) (ns : list Note) : Prop :=
  exists s', NoteManager.getNotes s = Ok (map toJS ns) s'.

(** The file written for an array. *)
Definition file_of (l : list JValue) : Disk :=
  File (JSON_stringify (JArr l)).

(** A call of one of the three mutating methods; its result is dropped. *)
Inductive CalculatorOp : Type :=
| DoAdd (oid : Z) (manufacturer : string) (grade batteryType : Z)
| DoEdit (oid : Z) (manufacturer : string) (grade batteryType : Z)
| DoDelete (oid : Z).

Definition perform (op : CalculatorOp) : M Disk unit :=
  match op with
  | DoAdd k m g b => _ <- CalculatorManager.addCalculator k m g b ;; ret tt
  | DoEdit k m g b => _ <- CalculatorManager.editCalculator k m g b ;; ret tt
  | DoDelete k => _ <- CalculatorManager.deleteCalculator k ;; ret tt
  end.

Fixpoint perform_all (ops : list CalculatorOp) : M Disk unit :=
  match ops with
  | [] => ret tt
  | op :: ops' => perform op ;; perform_all ops'
  end.

Inductive NoteOp : Type :=
| DoAddNote (title body : string)
| DoUpdateNote (title body : string)
| DoRemoveNote (title : string).

Definition perform_note (op : NoteOp) : M NoteManager.State unit :=
  match op with
  | DoAddNote t b => _ <- NoteManager.addNote t b ;; ret tt
  | DoUpdateNote t b => _ <- NoteManager.updateNote t b ;; ret tt
  | DoRemoveNote t => _ <- NoteManager.removeNote t ;; ret tt
  end.

Fixpoint perform_all_notes (ops : list NoteOp) : M NoteManager.State unit :=
  match ops with
  | [] => ret tt
  | op :: ops' => perform_note op ;; perform_all_notes ops'
  end.

End Vocabulary.

(** The state of an outcome, returned or thrown. *)
Definition final {S A : Type} (o : Outcome S A) : S :=
  match o with
  | Ok _ s => s
  | Throw _ s => s
  end.

(** The bounds of the data model on the two numeric fields of a form, once
    parsed. *)
Definition within_bounds (grade batteryType : option Z) : Prop :=
  exists g b,
    grade = Some g /\ batteryType = Some b /\
    0 <= g <= 10 /\ (b = 1 \/ b = 2 \/ b = 3).

(** *** Measures for the reference parser *)

(** Fuel that suffices to parse a printed value. *)
Fixpoint size (v : JValue) : nat :=
  match v with
  | JArr l => S (fold_right (fun x n => S (size x + n)) O l)
  | JObj ps => S (fold_right (fun kv n => S (size (snd kv) + n)) O ps)
  | _ => 1
  end.

Definition sizes (l : list JValue) : nat :=
  fold_right (fun x n => S (size x + n)) O l.

Definition member_sizes (ps : list (string * JValue)) : nat :=
  fold_right (fun kv n => S (size (snd kv) + n)) O ps.

(** A text that may follow an integer literal: it neither continues the
    digits nor turns them into a fraction or an exponent. *)
Definition delimits (k : string) : bool :=
  match k with
  | EmptyString => true
  | String c _ => negb (is_digit c) && negb (Reference.continues_number k)
  end.

(** A text that begins the way a printed value does. *)
Definition starts_value (s : string) : bool :=
  match s with
  | EmptyString => false
  | String c _ =>
      is_digit c
      || existsb (Ascii.eqb c)
           ["n"; "t"; "f"; "-"; "["; "{"; Reference.dquote]%char
  end.

(** *** Records and their objects *)

(** The tests of the sources, on a record. *)
Definition has_oid (k : Z) (c : Calculator) : bool := oid c =? k.
Definition has_title (t : string) (n : Note) : bool := (title n =? t)%string.

(** A calculator with its mutable fields replaced. *)
Definition with_fields (c : Calculator) (m : string) (g b : Z) : Calculator :=
  {| oid := oid c; manufacturer := m; grade := g; batteryType := b |}.

(** A note with its mutable field replaced. *)
Definition with_body (n : Note) (b : string) : Note :=
  {| title := title n; body := b |}.

(** A note manager whose cache holds the records [ns]. *)
Definition manager (d : Disk) (ns : list Note) : NoteManager.State :=
  {| NoteManager.disk := d; NoteManager.notes := map toJS ns |}.

Section Invariants.
Context {R : Runtime}.

(** A disk that can be written and holds records with pairwise different
    keys. *)
Definition calculators_ok (d : Disk) (cs : list Calculator) : Prop :=
  d <> Blocked /\ stores d (map toJS cs) /\ NoDup (map oid cs).

Definition notes_ok (s : NoteManager.State) (ns : list Note) : Prop :=
  NoteManager.disk s <> Blocked /\
  stores (NoteManager.disk s) (map toJS ns) /\ NoDup (map title ns).

(** The states of the backing file the permissive read degrades: a missing
    directory or file that can be created, a blank text, a text that is not
    JSON, a JSON value that is not an array. *)
Inductive degraded : Disk -> Prop :=
| degraded_no_dir : degraded NoDir
| degraded_no_file : degraded NoFile
| degraded_blank (raw : string) :
    trim raw = "" -> degraded (File raw)
| degraded_invalid (raw : string) :
    JSON_parse raw = None -> degraded (File raw)
| degraded_not_array (raw : string) (v : JValue) :
    JSON_parse raw = Some v -> (forall l, v <> JArr l) ->
    degraded (File raw).

End Invariants.

(** *** Forms *)

(** The calculator form, redisplayed with explicit values. *)
Definition calculator_form (mode : Mode) (action : string)
  (v : CalculatorController.Values.t) (error : option string)
  : CalculatorController.Response :=
  CalculatorController.Render "calculators/calculatorForm"
    {| CalculatorController.Locals.title :=
         if Mode_eqb mode Add then "Add Calculator" else "Edit Calculator";
       CalculatorController.Locals.mode := Mode_text mode;
       CalculatorController.Locals.action := action;
       CalculatorController.Locals.oid :=
         Some (JStr (CalculatorController.Values.oid v));
       CalculatorController.Locals.manufacturer :=
         Some (JStr (CalculatorController.Values.manufacturer v));
       CalculatorController.Locals.grade :=
         Some (JStr (CalculatorController.Values.grade v));
       CalculatorController.Locals.batteryType :=
         Some (JStr (CalculatorController.Values.batteryType v));
       CalculatorController.Locals.isEdit := Mode_eqb mode Edit;
       CalculatorController.Locals.error := error |}.

(** The note form, redisplayed with a title and a body. *)
Definition note_form (mode : Mode) (action : string) (t b : JValue)
  (error : option string) : NoteController.Response :=
  NoteController.Render "notes/noteForm"
    {| NoteController.Locals.title :=
         if Mode_eqb mode Add then "Add Note" else "Edit Note";
       NoteController.Locals.mode := Mode_text mode;
       NoteController.Locals.action := action;
       NoteController.Locals.noteTitle := t;
       NoteController.Locals.noteBody := b;
       NoteController.Locals.isEdit := Mode_eqb mode Edit;
       NoteController.Locals.error := error |}.

Section Rejections.
Context {R : Runtime}.

(** The form is rejected by the validation of the calculator [postCreate]:
    the oid did not parse, or [validateFields] said no. *)
Definition calculator_create_rejected (body : CalculatorController.Body.t)
  : Prop :=
  let p := CalculatorController.parseFormBody body in
  CalculatorController.Parsed.oid p = None \/
  CalculatorController.ok
    (CalculatorController.validateFields
       (CalculatorController.Parsed.manufacturer p)
       (CalculatorController.Parsed.grade p)
       (CalculatorController.Parsed.batteryType p)) = false.

(** The form is rejected by the validation of the calculator [postEdit]. *)
Definition calculator_edit_rejected (body : CalculatorController.Body.t)
  : Prop :=
  let p := CalculatorController.parseFormBody body in
  CalculatorController.ok
    (CalculatorController.validateFields
       (CalculatorController.Parsed.manufacturer p)
       (CalculatorController.Parsed.grade p)
       (CalculatorController.Parsed.batteryType p)) = false.

End Rejections.

(** The values a rejected calculator create form is redisplayed with. *)
Definition create_values (body : CalculatorController.Body.t)
  : CalculatorController.Values.t :=
  {| CalculatorController.Values.oid :=
       or_empty (CalculatorController.Body.oid body);
     CalculatorController.Values.manufacturer :=
       trim_or_empty (CalculatorController.Body.manufacturer body);
     CalculatorController.Values.grade :=
       or_empty (CalculatorController.Body.grade body);
     CalculatorController.Values.batteryType :=
       or_empty (CalculatorController.Body.batteryType body) |}.

(** The values a rejected calculator edit form is redisplayed with. *)
Definition edit_values {R : Runtime} (parsedOid : Z)
  (body : CalculatorController.Body.t) : CalculatorController.Values.t :=
  {| CalculatorController.Values.oid := String_of_number parsedOid;
     CalculatorController.Values.manufacturer :=
       trim_or_empty (CalculatorController.Body.manufacturer body);
     CalculatorController.Values.grade :=
       or_empty (CalculatorController.Body.grade body);
     CalculatorController.Values.batteryType :=
       or_empty (CalculatorController.Body.batteryType body) |}.

(** The form is rejected by the validation of the note [postCreate]. *)
Definition note_create_rejected (form : NoteController.Body.t) : Prop :=
  trim_or_empty (NoteController.Body.title form) = "" \/
  trim_or_empty (NoteController.Body.body form) = "".

(** The form is rejected by the validation of the note [postUpdate]. *)
Definition note_update_rejected (form : NoteController.Body.t) : Prop :=
  trim_or_empty (NoteController.Body.body form) = "".

(** *** The reference parser on printed text *)

(** The digits of a decimal numeral. *)
Definition digits (u : Decimal.uint) : string := NilEmpty.string_of_uint u.

(** [v], printed at any indentation in front of any text that delimits it,
    parses back to [v] and leaves that text, whenever the fuel covers its
    size. *)
Definition parses (v : JValue) : Prop :=
  well_formed v = true ->
  forall fuel indent k,
    (size v <= fuel)%nat -> delimits k = true ->
    Reference.parse_value fuel (Reference.print indent v k) = Some (v, k).

(** *** Sample data *)

Definition acme : Calculator :=
  {| oid := 7; manufacturer := "Acme"; grade := 5; batteryType := 2 |}.

Definition bolt : Calculator :=
  {| oid := 8; manufacturer := "Bolt"; grade := 0; batteryType := 1 |}.

Definition shopping : Note :=
  {| title := "Shopping"; body := "milk, eggs" |}.

Definition chores : Note :=
  {| title := "Chores"; body := "laundry" |}.

(** A disk holding the two calculators, as the reference run time writes
    it. *)
Definition two_calculators : Disk :=
  File (Reference.stringify (JArr (map toJS [acme; bolt]))).

(** A note manager on a disk holding the two notes. *)
Definition two_notes : NoteManager.State :=
  {| NoteManager.disk :=
       File (Reference.stringify (JArr (map toJS [shopping; chores])));
     NoteManager.notes := [] |}.

(** A calculator controller on a fresh disk, no call made yet. *)
Definition fresh_calculators : CalculatorController.Ctx :=
  {| CalculatorController.calculatorManager := NoFile;
     CalculatorController.calls := [] |}.

(** A note controller on the two notes, no call made yet. *)
Definition fresh_notes : NoteController.Ctx :=
  {| NoteController.noteManager := two_notes;
     NoteController.calls := [] |}.

(** The form of the scenario of the specification: grade 11. *)
Definition grade_eleven : CalculatorController.Body.t :=
  {| CalculatorController.Body.oid := Some "7";
     CalculatorController.Body.manufacturer := Some " Acme ";
     CalculatorController.Body.grade := Some "11";
     CalculatorController.Body.batteryType := Some "2" |}.

(** A note form with a padded title and no body. *)
Definition padded_title : NoteController.Body.t :=
  {| NoteController.Body.title := Some " a ";
     NoteController.Body.body := None |}.

(** ** The pages the controllers list and open *)

Module Pages.

(** [arr.map(f)]: a new array; an exception of [f] ends the walk. *)
Fixpoint map_res {A B : Type} (f : A -> Res B) (arr : list A)
  : Res (list B) :=
  match arr with
  | [] => Val []
  | x :: arr' =>
      y <- f x ;;
      rest <- map_res f arr' ;;
      Val (y :: rest)
  end.

(** The property names [0], [1], ... of the elements of an array or of the
    code units of a string, from index [i] on. *)
Fixpoint indexed {A : Type} (f : A -> JValue) (i : nat) (l : list A)
  : list (string * JValue) :=
  match l with
  | [] => []
  | a :: l' => (decimal (Z.of_nat i), f a) :: indexed f (S i) l'
  end.

(** The own enumerable properties a spread [{...v}] copies: those of an
    object, the indices of an array or of a string, none of [null], of a
    boolean or of a number. *)
Definition spread (v : JValue) : list (string * JValue) :=
  match v with
  | JObj ps => ps
  | JArr l => indexed (fun e => e) 0 l
  | JStr s =>
      indexed (fun c => JStr (String c EmptyString)) 0 (list_ascii_of_string s)
  | _ => []
  end.

(** The element [{ ...x, encodedTitle: encodeURIComponent(x.k) }] of an
    index page. *)
Definition with_encodedTitle {R : Runtime} (k : string) (x : JValue)
  : Res JValue :=
  p <- get x k ;;
  ret (JObj (assign "encodedTitle"
               (JStr (encodeURIComponent
                        (CalculatorController.String_of_any p)))
               (spread x))).

End Pages.

(** ** [src/controllers/calculatorController.ts]: the other handlers *)

Module CalculatorPages.

Import CalculatorController.

(** The object handed to the template [calculators/calculatorIndex]. *)
Module Index.
Record t : Type := {
  title : string;
  calculators : list JValue;
  hasCalculators : bool
}.
End Index.

Inductive Page : Type :=
| RenderIndex (view : string) (locals : Index.t).

Section Handlers.
Context {R : Runtime}.

Definition getIndex : M Ctx Page :=
  listed <- call GetCalculators CalculatorManager.getCalculators ;;
  calculators <- eval (Pages.map_res (Pages.with_encodedTitle "oid") listed) ;;
  ret (RenderIndex "calculators/calculatorIndex"
         {| Index.title := "Calculators";
            Index.calculators := calculators;
            Index.hasCalculators := (0 <? List.length calculators)%nat |}).

Definition getCreate : M Ctx Response :=
  ret (renderForm
         {| mode := Add;
            action := "/calculators/create";
            calculator := None;
            values := None;
            error := None |}).

(** [getEdit], from the route parameter [oid]. *)
Definition getEdit (oid : string) : M Ctx Response :=
  match parseInt (UString oid) with
  | None => ret (Redirect "/calculators")
  | Some parsedOid =>
      selected <- call (GetCalculatorByOid parsedOid)
        (CalculatorManager.getCalculatorByOid parsedOid) ;;
      if negb (truthy_any selected) then ret (Redirect "/calculators")
      else
        ret (renderForm
               {| mode := Edit;
                  action :=
                    ("/calculators/edit/" ++ encodeURIComponent oid)%string;
                  calculator := selected;
                  values := None;
                  error := None |})
  end.

(** [postDelete], from the route parameter [oid]. *)
Definition postDelete (oid : string) : M Ctx Response :=
  match parseInt (UString oid) with
  | None => ret (Redirect "/calculators")
  | Some parsedOid =>
      call (DeleteCalculator parsedOid)
        (CalculatorManager.deleteCalculator parsedOid) ;;
      ret (Redirect "/calculators")
  end.

End Handlers.

End CalculatorPages.

(** ** The calculators router ([calculatorsRouter]) *)

Module CalculatorsRouter.

(** A request the router has matched, with its route parameter and its
    form body, whose fields are strings or absent. *)
Inductive Request : Type :=
| GetIndex                                           (* GET / *)
| GetCreate                                          (* GET /create *)
| GetEdit (oid : string)                             (* GET /edit/:oid *)
| PostCreate (body : CalculatorController.Body.t)    (* POST /create *)
| PostEdit (oid : string)
    (body : CalculatorController.Body.t)             (* POST /edit/:oid *)
| PostDelete (oid : string).                         (* POST /delete/:oid *)

(** What a handler sends. *)
Inductive Reply : Type :=
| Listing (page : CalculatorPages.Page)
| Answer (response : CalculatorController.Response).

Section Routes.
Context {R : Runtime}.

(** The handler registered for a request. *)
Definition route (rq : Request) : M CalculatorController.Ctx Reply :=
  match rq with
  | GetIndex => p <- CalculatorPages.getIndex ;; ret (Listing p)
  | GetCreate => r <- CalculatorPages.getCreate ;; ret (Answer r)
  | GetEdit oid => r <- CalculatorPages.getEdit oid ;; ret (Answer r)
  | PostCreate body =>
      r <- CalculatorController.postCreate body ;; ret (Answer r)
  | PostEdit oid body =>
      r <- CalculatorController.postEdit oid body ;; ret (Answer r)
  | PostDelete oid => r <- CalculatorPages.postDelete oid ;; ret (Answer r)
  end.

End Routes.

End CalculatorsRouter.

(** ** [src/controllers/noteController.ts]: the other handlers *)

Module NotePages.

Import NoteController.

(** The object handed to the template [notes/noteIndex]. *)
Module Index.
Record t : Type := {
  title : string;
  notes : list JValue;
  hasNotes : bool
}.
End Index.

Inductive Page : Type :=
| RenderIndex (view : string) (locals : Index.t).

Section Handlers.
Context {R : Runtime}.

Definition getIndex : M Ctx Page :=
  listed <- call GetNotes NoteManager.getNotes ;;
  notes <- eval (Pages.map_res (Pages.with_encodedTitle "title") listed) ;;
  ret (RenderIndex "notes/noteIndex"
         {| Index.title := "Notes";
            Index.notes := notes;
            Index.hasNotes := (0 <? List.length notes)%nat |}).

Definition getCreate : M Ctx Response :=
  ret (renderForm
         {| mode := Add;
            action := "/notes/create";
            note := None;
            error := None |}).

(** [getUpdate], from the route parameter [title]. *)
Definition getUpdate (title : string) : M Ctx Response :=
  selected <- call (GetNoteByTitle title) (NoteManager.getNoteByTitle title) ;;
  if negb (truthy_any selected) then ret (Redirect "/notes/index")
  else
    ret (renderForm
           {| mode := Edit;
              action := ("/notes/update/" ++ encodeURIComponent title)%string;
              note := selected;
              error := None |}).

(** [getDelete], from the route parameter [title]. *)
Definition getDelete (title : string) : M Ctx Response :=
  call (RemoveNote title) (NoteManager.removeNote title) ;;
  ret (Redirect "/notes/index").

End Handlers.

End NotePages.

(** ** [src/routes/notesRouter.ts] *)

Module NotesRouter.

(** A request the router has matched, with its route parameter and its
    form body, whose fields are strings or absent. *)
Inductive Request : Type :=
| GetIndex                                       (* GET /index *)
| GetCreate                                      (* GET /create *)
| GetUpdate (title : string)                     (* GET /update/:title *)
| GetDelete (title : string)                     (* GET /delete/:title *)
| PostCreate (form : NoteController.Body.t)      (* POST /create *)
| PostUpdate (title : string)
    (form : NoteController.Body.t).              (* POST /update/:title *)

(** What a handler sends. *)
Inductive Reply : Type :=
| Listing (page : NotePages.Page)
| Answer (response : NoteController.Response).

Section Routes.
Context {R : Runtime}.

(** The handler registered for a request. *)
Definition route (rq : Request) : M NoteController.Ctx Reply :=
  match rq with
  | GetIndex => p <- NotePages.getIndex ;; ret (Listing p)
  | GetCreate => r <- NotePages.getCreate ;; ret (Answer r)
  | GetUpdate title => r <- NotePages.getUpdate title ;; ret (Answer r)
  | GetDelete title => r <- NotePages.getDelete title ;; ret (Answer r)
  | PostCreate form => r <- NoteController.postCreate form ;; ret (Answer r)
  | PostUpdate title form =>
      r <- NoteController.postUpdate title form ;; ret (Answer r)
  end.

End Routes.

End NotesRouter.

(** ** [src/middleware/auth.ts] *)

Module Auth.

Record UserRecord : Type := {
  email : string;
  password : string
}.

(** The mutable state of the module: [users] ([None] is [null]) and
    [loggedIn]. *)
Record State : Type := {
  users : option UserRecord;
  loggedIn : bool
}.

(** The state the module starts in. *)
Definition initial : State := {| users := None; loggedIn := false |}.

Definition setUsers (nextUsers : UserRecord) : M State unit :=
  fun s => Ok tt {| users := Some nextUsers; loggedIn := loggedIn s |}.

Definition setLoggedIn (value : bool) : M State unit :=
  fun s => Ok tt {| users := users s; loggedIn := value |}.

Definition isLoggedIn : M State bool :=
  fun s => Ok (loggedIn s) s.

Definition isValidUser (email password : string) : M State bool :=
  fun s =>
    match users s with
    | None => Ok false s
    | Some u =>
        Ok ((Auth.email u =? email)%string
            && (Auth.password u =? password)%string) s
    end.

(** The handler [authMiddleware()] returns: it sets
    [res.locals.isAuthenticated] and calls [next], the rest of the chain.
    The result is that local and what the chain gives. *)
Definition authMiddleware {A : Type} (next : M State A) : M State (bool * A) :=
  isAuthenticated <- isLoggedIn ;;
  rest <- next ;;
  ret (isAuthenticated, rest).

End Auth.

(** ** [src/controllers/homeController.ts] *)

Module HomeController.

(** What a handler sends: a rendered view with its status, title and error
    message, a JSON object, or a redirection. *)
Inductive Response : Type :=
| Render (status : Z) (view : string) (title : string) (error : option string)
| Json (forecast location : string)
| Redirect (url : string).

Definition getIndex : M Auth.State Response :=
  ret (Render 200 "home" "Home" None).

Definition getAbout : M Auth.State Response :=
  ret (Render 200 "about" "About" None).

Definition getHelp : M Auth.State Response :=
  ret (Render 200 "help" "Help" None).

Definition getWeather : M Auth.State Response :=
  ret (Json "It is snowing" "Vaasa").

Definition getLogin : M Auth.State Response :=
  logged <- Auth.isLoggedIn ;;
  if (logged : bool) then ret (Redirect "/notes/index")
  else ret (Render 200 "login" "Login" None).

(** [postLogin], from the fields [email] and [password] of the form
    body. *)
Definition postLogin (email password : option string)
  : M Auth.State Response :=
  let rejected :=
    Render 401 "login" "Login" (Some "Invalid email or password.") in
  match email, password with
  | Some email, Some password =>
      if nonempty email && nonempty password then
        valid <- Auth.isValidUser email password ;;
        if (valid : bool) then
          Auth.setLoggedIn true ;;
          ret (Redirect "/notes/index")
        else ret rejected
      else ret rejected
  | _, _ => ret rejected
  end.

Definition getLogout : M Auth.State Response :=
  Auth.setLoggedIn false ;;
  ret (Redirect "/").

End HomeController.

(** ** [src/routes/homeRouter.ts] *)

Module HomeRouter.

(** A request the router has matched, with its form body. *)
Inductive Request : Type :=
| GetIndex
| GetAbout
| GetHelp
| GetWeather
| GetLogin
| PostLogin (email password : option string)
| GetLogout.

Definition route (rq : Request) : M Auth.State HomeController.Response :=
  match rq with
  | GetIndex => HomeController.getIndex
  | GetAbout => HomeController.getAbout
  | GetHelp => HomeController.getHelp
  | GetWeather => HomeController.getWeather
  | GetLogin => HomeController.getLogin
  | PostLogin email password => HomeController.postLogin email password
  | GetLogout => HomeController.getLogout
  end.

End HomeRouter.

(** ** More vocabulary *)

(** The value an outcome returns, if it returns. *)
Definition returned {S A : Type} (o : Outcome S A) : option A :=
  match o with
  | Ok a _ => Some a
  | Throw _ _ => None
  end.

(** A test that reads a property of its argument: it throws on [null] and
    only there. *)
Definition reads_a_property (p : JValue -> Res bool) : Prop :=
  p JNull = Raise TypeError /\
  forall v, v <> JNull -> exists b, p v = Val b.

(** A record as the index page lists it: its fields and the text that
    names it in a link. *)
Definition listed_calculator {R : Runtime} (c : Calculator) : JValue :=
  JObj [("oid", JNum (oid c)); ("manufacturer", JStr (manufacturer c));
        ("grade", JNum (grade c)); ("batteryType", JNum (batteryType c));
        ("encodedTitle",
         JStr (encodeURIComponent (String_of_number (oid c))))].


(** The constraints of the data model on the fields of a record. *)
Definition valid_calculator (c : Calculator) : Prop :=
  manufacturer c <> "" /\ trim (manufacturer c) = manufacturer c /\
  0 <= grade c <= 10 /\ 1 <= batteryType c <= 3.


Section Serving.
Context {R : Runtime}.

(** The fields of a calculator form that pass [parseFormBody] and
    [validateFields]: grade and battery type parse to [g] and [b], within
    their bounds, and the trimmed manufacturer is not empty. *)
Definition calculator_accepted (body : CalculatorController.Body.t)
  (g b : Z) : Prop :=
  CalculatorController.parseInt
    (unknown_of (CalculatorController.Body.grade body)) = Some g /\
  CalculatorController.parseInt
    (unknown_of (CalculatorController.Body.batteryType body)) = Some b /\
  trim_or_empty (CalculatorController.Body.manufacturer body) <> "" /\
  0 <= g <= 10 /\ 1 <= b <= 3.

(** The handlers of a sequence of requests, one after the other. *)
Fixpoint serve_calculators (rqs : list CalculatorsRouter.Request)
  : M CalculatorController.Ctx (list CalculatorsRouter.Reply) :=
  match rqs with
  | [] => ret []
  | rq :: rqs' =>
      reply <- CalculatorsRouter.route rq ;;
      replies <- serve_calculators rqs' ;;
      ret (reply :: replies)
  end.


End Serving.

(** The handlers of a sequence of requests of the home router. *)
Fixpoint serve_home (rqs : list HomeRouter.Request)
  : M Auth.State (list HomeController.Response) :=
  match rqs with
  | [] => ret []
  | rq :: rqs' =>
      reply <- HomeRouter.route rq ;;
      replies <- serve_home rqs' ;;
      ret (reply :: replies)
  end.

(** The controller after one call of its manager, which left the disk, or
    the note manager, [after]. *)
Definition calculator_called (ctx : CalculatorController.Ctx)
  (which : CalculatorController.Call) (after : Disk)
  : CalculatorController.Ctx :=
  {| CalculatorController.calculatorManager := after;
     CalculatorController.calls := CalculatorController.calls ctx ++ [which] |}.

Definition note_called (ctx : NoteController.Ctx)
  (which : NoteController.Call) (after : NoteManager.State)
  : NoteController.Ctx :=
  {| NoteController.noteManager := after;
     NoteController.calls := NoteController.calls ctx ++ [which] |}.

(** The form body a browser sends when the values of a redisplayed form
    are submitted as they are. *)
Definition resubmitted (v : CalculatorController.Values.t)
  : CalculatorController.Body.t :=
  {| CalculatorController.Body.oid := Some (CalculatorController.Values.oid v);
     CalculatorController.Body.manufacturer :=
       Some (CalculatorController.Values.manufacturer v);
     CalculatorController.Body.grade :=
       Some (CalculatorController.Values.grade v);
     CalculatorController.Body.batteryType :=
       Some (CalculatorController.Values.batteryType v) |}.

(** *** More sample data *)

(** A calculator form that passes the validation. *)
Definition acme_form : CalculatorController.Body.t :=
  {| CalculatorController.Body.oid := Some "7";
     CalculatorController.Body.manufacturer := Some " Acme ";
     CalculatorController.Body.grade := Some "5";
     CalculatorController.Body.batteryType := Some "2" |}.

(** A calculator controller on the two calculators, no call made yet. *)
Definition listed_calculators : CalculatorController.Ctx :=
  {| CalculatorController.calculatorManager := two_calculators;
     CalculatorController.calls := [] |}.

(** A form that passes the validation, with a key that is stored already
    and was typed with a space and a zero in front. *)
Definition padded_oid : CalculatorController.Body.t :=
  {| CalculatorController.Body.oid := Some " 07";
     CalculatorController.Body.manufacturer := Some "Acme";
     CalculatorController.Body.grade := Some "5";
     CalculatorController.Body.batteryType := Some "2" |}.

(** A note form that passes the validation. *)
Definition plan_form : NoteController.Body.t :=
  {| NoteController.Body.title := Some " Plan ";
     NoteController.Body.body := Some "write it down " |}.

(** The user [main] registers. *)
Definition dev_user : Auth.UserRecord :=
  {| Auth.email := "dev@dev"; Auth.password := "devdev" |}.

(** * Proofs *)

Unset Implicit Arguments.


(** ** Running monadic code *)

Lemma bind_ok {S A B : Type} {c : M S A} (k : A -> M S B) {s s' : S} {a : A} :
  c s = Ok a s' -> bind c k s = k a s'.
Proof. intros H. cbn. rewrite H. reflexivity. Qed.

Lemma bind_throw {S A B : Type} {c : M S A} (k : A -> M S B) {s s' : S}
  {e : Exn} :
  c s = Throw e s' -> bind c k s = Throw e s'.
Proof. intros H. cbn. rewrite H. reflexivity. Qed.

Lemma bind_eval {S A B : Type} (a : A) (k : A -> M S B) (s : S) :
  bind (eval (Val a)) k s = k a s.
Proof. reflexivity. Qed.

Lemma eval_val {S A : Type} (r : Res A) (a : A) (s : S) :
  r = Val a -> eval r s = Ok a s.
Proof. intros ->. reflexivity. Qed.

(** ** Lists of JavaScript values that come from records *)

Lemma find_map {A : Type} (f : A -> JValue) (p : JValue -> Res bool)
  (q : A -> bool) (l : list A) :
  (forall a, p (f a) = Val (q a)) ->
  find p (map f l) = Val (index q l).
Proof.
  intros Hp. induction l as [|a l IH]; cbn.
  - reflexivity.
  - rewrite Hp. destruct (q a); [reflexivity|].
    cbn in IH. rewrite IH. reflexivity.
Qed.

Lemma filter_map {A : Type} (f : A -> JValue) (p : JValue -> Res bool)
  (q : A -> bool) (l : list A) :
  (forall a, p (f a) = Val (q a)) ->
  filter p (map f l) = Val (map f (List.filter q l)).
Proof.
  intros Hp. induction l as [|a l IH]; cbn.
  - reflexivity.
  - rewrite Hp. cbn in IH. rewrite IH. destruct (q a); reflexivity.
Qed.

Lemma index_none {A : Type} (q : A -> bool) (l : list A) :
  index q l = None <-> forall a, In a l -> q a = false.
Proof.
  induction l as [|a l IH]; cbn.
  - split; [intros _ a []|reflexivity].
  - destruct (q a) eqn:E.
    + split; [discriminate|]. intros H. rewrite (H a) in E by auto.
      discriminate.
    + destruct (index q l); cbn.
      * split; [discriminate|]. intros H.
        assert (Some n = None) as X by (apply IH; auto). discriminate.
      * split; [|reflexivity]. intros _ b [<-|Hb]; [exact E|].
        apply IH; auto.
Qed.

Lemma index_first {A : Type} (q : A -> bool) (pre post : list A) (a : A) :
  (forall x, In x pre -> q x = false) -> q a = true ->
  index q (pre ++ a :: post) = Some (List.length pre).
Proof.
  intros Hpre Ha. induction pre as [|x pre IH]; cbn.
  - rewrite Ha. reflexivity.
  - rewrite (Hpre x) by (left; reflexivity).
    rewrite IH by (intros y Hy; apply Hpre; right; exact Hy). reflexivity.
Qed.

Lemma index_split {A : Type} (q : A -> bool) (l : list A) (i : nat) :
  index q l = Some i ->
  exists pre a post,
    l = pre ++ a :: post /\ List.length pre = i /\ q a = true /\
    forall x, In x pre -> q x = false.
Proof.
  revert i. induction l as [|x l IH]; cbn; intros i H.
  - discriminate.
  - destruct (q x) eqn:E.
    + injection H as <-. exists [], x, l. repeat split; auto. intros y [].
    + destruct (index q l) as [j|]; [|discriminate]. cbn in H.
      injection H as <-.
      destruct (IH j eq_refl) as (pre & a & post & -> & Hlen & Ha & Hpre).
      exists (x :: pre), a, post. cbn. repeat split; auto.
      intros y [<-|Hy]; auto.
Qed.

Lemma nth_error_middle {A : Type} (pre post : list A) (a : A) :
  nth_error (pre ++ a :: post) (List.length pre) = Some a.
Proof. induction pre; cbn; auto. Qed.

Lemma store_middle (pre post : list JValue) (a b : JValue) :
  store (pre ++ a :: post) (List.length pre) b = pre ++ b :: post.
Proof.
  induction pre as [|x pre IH]; cbn; [reflexivity|]. rewrite IH. reflexivity.
Qed.

Lemma set_at_middle (pre post : list JValue) ps k x :
  set_at (pre ++ JObj ps :: post) (List.length pre) k x
  = Val (pre ++ JObj (assign k x ps) :: post).
Proof.
  unfold set_at. rewrite nth_error_middle. cbn. rewrite store_middle.
  reflexivity.
Qed.

Lemma filter_all {A : Type} (q : A -> bool) (l : list A) :
  (forall a, In a l -> q a = true) -> List.filter q l = l.
Proof.
  induction l as [|a l IH]; cbn; intros H; [reflexivity|].
  rewrite (H a) by auto. rewrite IH by auto. reflexivity.
Qed.

Lemma filter_shorter {A : Type} (q : A -> bool) (l : list A) :
  (List.length (List.filter q l) <= List.length l)%nat.
Proof. induction l as [|a l IH]; cbn; [lia|]. destruct (q a); cbn; lia. Qed.

Lemma filter_same_length {A : Type} (q : A -> bool) (l : list A) :
  List.length (List.filter q l) = List.length l ->
  forall a, In a l -> q a = true.
Proof.
  induction l as [|a l IH]; cbn; intros H b Hb; [destruct Hb|].
  destruct (q a) eqn:E.
  - cbn in H. destruct Hb as [<-|Hb]; [exact E|]. apply IH; [lia|exact Hb].
  - pose proof (filter_shorter q l). lia.
Qed.

(** ** The storage layer *)

Section Storage.
Context {R : Runtime}.

Lemma ensureStorage_run (d : Disk) :
  creatable d = true ->
  CalculatorManager.ensureStorage d = Ok tt (ensured d).
Proof. destruct d; try reflexivity. discriminate. Qed.

Lemma ensureStorage_refused (d : Disk) :
  creatable d = false ->
  CalculatorManager.ensureStorage d = Throw IOError (ensured d).
Proof. destruct d as [| | | |[| |]]; try discriminate; reflexivity. Qed.

Lemma ensured_idempotent (d : Disk) : ensured (ensured d) = ensured d.
Proof. destruct d as [| | | |[| |]]; reflexivity. Qed.

Lemma creatable_ensured (d : Disk) : creatable (ensured d) = creatable d.
Proof. destruct d as [| | | |[| |]]; reflexivity. Qed.

Lemma ensured_writable (d : Disk) : d <> Blocked -> ensured d <> Blocked.
Proof.
  destruct d as [| | | |[| |]]; intros H; cbn; auto; discriminate.
Qed.

Lemma contents_ensured (d : Disk) : contents (ensured d) = contents d.
Proof. unfold contents. rewrite ensured_idempotent. reflexivity. Qed.

Lemma stores_ensured (d : Disk) (l : list JValue) :
  stores d l -> stores (ensured d) l.
Proof.
  intros [C H]. split; [rewrite creatable_ensured; exact C|].
  rewrite contents_ensured. exact H.
Qed.

Lemma readAll_run (d : Disk) :
  creatable d = true ->
  CalculatorManager.readAll d = Ok (contents d) (ensured d).
Proof.
  intros C. unfold CalculatorManager.readAll.
  rewrite (bind_ok _ (ensureStorage_run d C)).
  unfold contents, decode, try_catch.
  destruct (ensured d) as [| |raw| |why]; cbn; try reflexivity.
  destruct (nonempty (trim raw)); cbn; [|reflexivity].
  destruct (JSON_parse raw); reflexivity.
Qed.

Lemma readAll_refused (d : Disk) :
  creatable d = false ->
  CalculatorManager.readAll d = Throw IOError (ensured d).
Proof.
  intros C. unfold CalculatorManager.readAll.
  rewrite (bind_throw _ (ensureStorage_refused d C)). reflexivity.
Qed.

Lemma readAll_stores (d : Disk) (l : list JValue) :
  stores d l -> CalculatorManager.readAll d = Ok l (ensured d).
Proof. intros [C <-]. apply readAll_run, C. Qed.

Lemma writeAll_run (l : list JValue) (d : Disk) :
  d <> Blocked -> creatable d = true ->
  CalculatorManager.writeAll l d = Ok tt (file_of l).
Proof.
  intros H C. unfold CalculatorManager.writeAll.
  rewrite (bind_ok _ (ensureStorage_run d C)).
  destruct d; cbn; try reflexivity; [contradiction|discriminate].
Qed.

Lemma writeAll_blocked (l : list JValue) :
  CalculatorManager.writeAll l Blocked = Throw IOError Blocked.
Proof. reflexivity. Qed.

Lemma writeAll_refused (l : list JValue) (d : Disk) :
  creatable d = false ->
  CalculatorManager.writeAll l d = Throw IOError (ensured d).
Proof.
  intros C. unfold CalculatorManager.writeAll.
  rewrite (bind_throw _ (ensureStorage_refused d C)). reflexivity.
Qed.

Lemma writeAll_returns (l : list JValue) (d d' : Disk) :
  CalculatorManager.writeAll l d = Ok tt d' ->
  d <> Blocked /\ creatable d = true.
Proof.
  intros E. split.
  - intros ->. rewrite writeAll_blocked in E. discriminate.
  - destruct (creatable d) eqn:C; [reflexivity|].
    rewrite (writeAll_refused l d C) in E. discriminate.
Qed.

Lemma lists_calculators_iff (d : Disk) (cs : list Calculator) :
  lists_calculators d cs <-> stores d (map toJS cs).
Proof.
  unfold lists_calculators, CalculatorManager.getCalculators, stores.
  destruct (creatable d) eqn:C.
  - rewrite (readAll_run d C). split.
    + intros [d' H]. injection H as H _. auto.
    + intros [_ ->]. eauto.
  - rewrite (readAll_refused d C). split.
    + intros [d' H]. discriminate.
    + intros [H _]. discriminate.
Qed.

Lemma note_ensureStorage_run (s : NoteManager.State) :
  creatable (NoteManager.disk s) = true ->
  NoteManager.ensureStorage s
  = Ok tt (NoteManager.set_disk (ensured (NoteManager.disk s)) s).
Proof.
  destruct s as [[| |raw| |why] cache]; try reflexivity. discriminate.
Qed.

Lemma note_ensureStorage_refused (s : NoteManager.State) :
  creatable (NoteManager.disk s) = false ->
  NoteManager.ensureStorage s
  = Throw IOError (NoteManager.set_disk (ensured (NoteManager.disk s)) s).
Proof.
  destruct s as [[| |raw| |[| |]] cache]; try discriminate; reflexivity.
Qed.

Lemma loadNotes_run (s : NoteManager.State) :
  creatable (NoteManager.disk s) = true ->
  NoteManager.loadNotes s
  = Ok (contents (NoteManager.disk s))
       {| NoteManager.disk := ensured (NoteManager.disk s);
          NoteManager.notes := contents (NoteManager.disk s) |}.
Proof.
  intros C. unfold NoteManager.loadNotes.
  rewrite (bind_ok _ (note_ensureStorage_run s C)).
  destruct s as [d cache]. unfold contents, decode, try_catch. cbn.
  destruct (ensured d) as [| |raw| |why]; cbn; try reflexivity.
  destruct (nonempty (trim raw)); cbn; [|reflexivity].
  destruct (JSON_parse raw); reflexivity.
Qed.

Lemma loadNotes_refused (s : NoteManager.State) :
  creatable (NoteManager.disk s) = false ->
  NoteManager.loadNotes s
  = Throw IOError (NoteManager.set_disk (ensured (NoteManager.disk s)) s).
Proof.
  intros C. unfold NoteManager.loadNotes.
  rewrite (bind_throw _ (note_ensureStorage_refused s C)). reflexivity.
Qed.

Lemma saveNotes_run (s : NoteManager.State) :
  NoteManager.disk s <> Blocked -> creatable (NoteManager.disk s) = true ->
  NoteManager.saveNotes s
  = Ok tt {| NoteManager.disk := file_of (NoteManager.notes s);
             NoteManager.notes := NoteManager.notes s |}.
Proof.
  intros H C. unfold NoteManager.saveNotes.
  rewrite (bind_ok _ (note_ensureStorage_run s C)).
  destruct s as [[| |raw| |why] cache]; cbn in *; try reflexivity;
    [contradiction|discriminate].
Qed.

Lemma saveNotes_blocked (s : NoteManager.State) :
  NoteManager.disk s = Blocked -> NoteManager.saveNotes s = Throw IOError s.
Proof. destruct s as [d cache]. cbn. intros ->. reflexivity. Qed.

Lemma saveNotes_refused (s : NoteManager.State) :
  creatable (NoteManager.disk s) = false ->
  NoteManager.saveNotes s
  = Throw IOError (NoteManager.set_disk (ensured (NoteManager.disk s)) s).
Proof.
  intros C. unfold NoteManager.saveNotes.
  rewrite (bind_throw _ (note_ensureStorage_refused s C)). reflexivity.
Qed.

Lemma saveNotes_returns (s s' : NoteManager.State) :
  NoteManager.saveNotes s = Ok tt s' ->
  NoteManager.disk s <> Blocked /\ creatable (NoteManager.disk s) = true.
Proof.
  intros E. split.
  - intros B. rewrite (saveNotes_blocked s B) in E. discriminate.
  - destruct (creatable (NoteManager.disk s)) eqn:C; [reflexivity|].
    rewrite (saveNotes_refused s C) in E. discriminate.
Qed.

Lemma lists_notes_iff (s : NoteManager.State) (ns : list Note) :
  lists_notes s ns <-> stores (NoteManager.disk s) (map toJS ns).
Proof.
  unfold lists_notes, NoteManager.getNotes, stores.
  destruct (creatable (NoteManager.disk s)) eqn:C.
  - rewrite (loadNotes_run s C). split.
    + intros [s' H]. injection H as H _. auto.
    + intros [_ ->]. eauto.
  - rewrite (loadNotes_refused s C). split.
    + intros [s' H]. discriminate.
    + intros [H _]. discriminate.
Qed.

Context {L : RuntimeLaws R}.

Lemma nonempty_true (s : string) : s <> "" -> nonempty s = true.
Proof.
  intros H. unfold nonempty. apply negb_true_iff. apply String.eqb_neq. exact H.
Qed.

Lemma decode_stringify (l : list JValue) :
  well_formed (JArr l) = true -> decode (JSON_stringify (JArr l)) = l.
Proof.
  intros H. unfold decode.
  rewrite nonempty_true by apply stringify_not_blank.
  rewrite parse_stringify by exact H. reflexivity.
Qed.

Lemma contents_file_of (l : list JValue) :
  well_formed (JArr l) = true -> contents (file_of l) = l.
Proof. intros H. unfold contents, file_of. cbn. apply decode_stringify, H. Qed.

Lemma stores_file_of (l : list JValue) :
  well_formed (JArr l) = true -> stores (file_of l) l.
Proof. intros H. split; [reflexivity|apply contents_file_of, H]. Qed.

Lemma decode_empty_array : decode "[]" = [].
Proof. unfold decode. cbn. rewrite parse_empty_array. reflexivity. Qed.

Lemma contents_missing (d : Disk) : d = NoDir \/ d = NoFile -> contents d = [].
Proof. intros [->| ->]; apply decode_empty_array. Qed.

Lemma contents_nonempty_file (d : Disk) :
  contents d <> [] -> exists raw, d = File raw.
Proof.
  destruct d as [| |raw| |[| |]]; intros H; eauto; try contradiction.
  - rewrite contents_missing in H by auto. contradiction.
  - rewrite contents_missing in H by auto. contradiction.
Qed.

End Storage.

(** ** Records as JavaScript objects *)

Lemma calculators_well_formed (cs : list Calculator) :
  well_formed (JArr (map toJS cs)) = true.
Proof. induction cs as [|c cs IH]; [reflexivity|]. cbn in *. exact IH. Qed.

Lemma notes_well_formed (ns : list Note) :
  well_formed (JArr (map toJS ns)) = true.
Proof. induction ns as [|n ns IH]; [reflexivity|]. cbn in *. exact IH. Qed.

Lemma toJS_calculator_inj (a b : Calculator) : toJS a = toJS b -> a = b.
Proof.
  destruct a, b. unfold toJS, Calculator_toJS, calculator_object. cbn.
  intros H. injection H as -> -> -> ->. reflexivity.
Qed.

Lemma toJS_note_inj (a b : Note) : toJS a = toJS b -> a = b.
Proof.
  destruct a, b. unfold toJS, Note_toJS, note_object. cbn.
  intros H. injection H as -> ->. reflexivity.
Qed.

Lemma map_toJS_inj {A : Type} `{ToJS A} (l l' : list A) :
  (forall a b : A, toJS a = toJS b -> a = b) ->
  map toJS l = map toJS l' -> l = l'.
Proof.
  intros Hinj. revert l'. induction l as [|a l IH]; intros [|b l'] E;
    try discriminate; [reflexivity|].
  cbn in E. injection E as E1 E2. f_equal; auto.
Qed.

Lemma oid_is_toJS (k : Z) (c : Calculator) :
  CalculatorManager.oid_is k (toJS c) = Val (has_oid k c).
Proof. reflexivity. Qed.

Lemma oid_is_not_toJS (k : Z) (c : Calculator) :
  CalculatorManager.oid_is_not k (toJS c) = Val (negb (has_oid k c)).
Proof. reflexivity. Qed.

Lemma title_is_toJS (t : string) (n : Note) :
  NoteManager.title_is t (toJS n) = Val (has_title t n).
Proof. reflexivity. Qed.

Lemma title_is_not_toJS (t : string) (n : Note) :
  NoteManager.title_is_not t (toJS n) = Val (negb (has_title t n)).
Proof. reflexivity. Qed.

Lemma deref_index {A : Type} `{ToJS A} (q : A -> bool) (l : list A) :
  deref (map toJS l) (index q l) = option_map toJS (List.find q l).
Proof.
  induction l as [|a l IH]; cbn; [reflexivity|].
  destruct (q a); cbn; [reflexivity|].
  destruct (index q l); cbn in *; exact IH.
Qed.

Lemma has_oid_absent (k : Z) (cs : list Calculator) :
  ~ In k (map oid cs) -> forall c, In c cs -> has_oid k c = false.
Proof.
  intros H c Hc. unfold has_oid. apply Z.eqb_neq. intros E. apply H.
  rewrite <- E. apply in_map. exact Hc.
Qed.

Lemma has_title_absent (t : string) (ns : list Note) :
  ~ In t (map title ns) -> forall n, In n ns -> has_title t n = false.
Proof.
  intros H n Hn. unfold has_title. apply String.eqb_neq. intros E. apply H.
  rewrite <- E. apply in_map. exact Hn.
Qed.

Lemma find_absent {A : Type} (q : A -> bool) (l : list A) :
  (forall a, In a l -> q a = false) -> List.find q l = None.
Proof.
  induction l as [|a l IH]; cbn; intros H; [reflexivity|].
  rewrite (H a) by auto. apply IH. auto.
Qed.

Lemma find_first {A : Type} (q : A -> bool) (pre post : list A) (a : A) :
  (forall x, In x pre -> q x = false) -> q a = true ->
  List.find q (pre ++ a :: post) = Some a.
Proof.
  intros Hpre Ha. induction pre as [|x pre IH]; cbn.
  - rewrite Ha. reflexivity.
  - rewrite (Hpre x) by (left; reflexivity). apply IH. intros y Hy.
    apply Hpre. right. exact Hy.
Qed.

Lemma first_occurrence {A K : Type} (key : A -> K) (k : K) (l : list A) :
  (forall x y : K, {x = y} + {x <> y}) ->
  In k (map key l) ->
  exists pre a post,
    l = pre ++ a :: post /\ key a = k /\ ~ In k (map key pre).
Proof.
  intros dec. induction l as [|x l IH]; cbn; intros H; [destruct H|].
  destruct (dec (key x) k) as [E|E].
  - exists [], x, l. cbn. auto.
  - destruct H as [H|H]; [contradiction|].
    destruct (IH H) as (pre & a & post & -> & Ha & Hpre).
    exists (x :: pre), a, post. cbn. repeat split; auto.
    intros [F|F]; auto.
Qed.

(** ** The calculator manager on a typed collection *)

Section CalculatorOperations.
Context {R : Runtime}.

Lemma find_oid (k : Z) (cs : list Calculator) :
  find (CalculatorManager.oid_is k) (map toJS cs) = Val (index (has_oid k) cs).
Proof. apply find_map. intros c. apply oid_is_toJS. Qed.

Lemma getCalculatorByOid_run (d : Disk) (cs : list Calculator) (k : Z) :
  stores d (map toJS cs) ->
  CalculatorManager.getCalculatorByOid k d
  = Ok (option_map toJS (List.find (has_oid k) cs)) (ensured d).
Proof.
  intros H. unfold CalculatorManager.getCalculatorByOid.
  rewrite (bind_ok _ (readAll_stores d _ H)), find_oid. cbn.
  rewrite deref_index. reflexivity.
Qed.

Lemma addCalculator_duplicate (d : Disk) (cs : list Calculator) (k : Z)
  (m : string) (g b : Z) :
  stores d (map toJS cs) -> In k (map oid cs) ->
  CalculatorManager.addCalculator k m g b d = Ok None (ensured d).
Proof.
  intros H Hin. unfold CalculatorManager.addCalculator.
  rewrite (bind_ok _ (readAll_stores d _ H)), find_oid. cbn.
  rewrite deref_index.
  destruct (first_occurrence oid k cs Z.eq_dec Hin)
    as (pre & a & post & -> & Ha & Hpre).
  rewrite (find_first (has_oid k) pre post a).
  - reflexivity.
  - apply has_oid_absent, Hpre.
  - unfold has_oid. apply Z.eqb_eq, Ha.
Qed.

Lemma addCalculator_fresh (d : Disk) (cs : list Calculator) (k : Z)
  (m : string) (g b : Z) :
  d <> Blocked -> stores d (map toJS cs) -> ~ In k (map oid cs) ->
  CalculatorManager.addCalculator k m g b d
  = Ok (Some (calculator_object k m g b))
       (file_of (map toJS
          (cs ++ [{| oid := k; manufacturer := m; grade := g;
                     batteryType := b |}]))).
Proof.
  intros Hd H Hk. unfold CalculatorManager.addCalculator.
  rewrite (bind_ok _ (readAll_stores d _ H)), find_oid.
  cbn -[CalculatorManager.writeAll].
  rewrite deref_index, (find_absent (has_oid k) cs)
    by (apply has_oid_absent, Hk).
  cbn -[CalculatorManager.writeAll].
  rewrite (writeAll_run _ _ (ensured_writable d Hd)
             (proj1 (stores_ensured _ _ H))).
  unfold push. rewrite map_app. reflexivity.
Qed.

Lemma editCalculator_missing (d : Disk) (cs : list Calculator) (k : Z)
  (m : string) (g b : Z) :
  stores d (map toJS cs) -> ~ In k (map oid cs) ->
  CalculatorManager.editCalculator k m g b d = Ok None (ensured d).
Proof.
  intros H Hk. unfold CalculatorManager.editCalculator.
  rewrite (bind_ok _ (readAll_stores d _ H)), find_oid. cbn.
  replace (index (has_oid k) cs) with (@None nat); [reflexivity|].
  symmetry. apply index_none, has_oid_absent, Hk.
Qed.

Lemma editCalculator_present (d : Disk) (pre post : list Calculator)
  (c : Calculator) (m : string) (g b : Z) :
  d <> Blocked -> stores d (map toJS (pre ++ c :: post)) ->
  ~ In (oid c) (map oid pre) ->
  CalculatorManager.editCalculator (oid c) m g b d
  = Ok (Some (toJS (with_fields c m g b)))
       (file_of (map toJS (pre ++ with_fields c m g b :: post))).
Proof.
  intros Hd H Hpre. unfold CalculatorManager.editCalculator.
  rewrite (bind_ok _ (readAll_stores d _ H)), find_oid, bind_eval.
  rewrite (index_first (has_oid (oid c)) pre post c)
    by (try apply has_oid_absent; auto; apply Z.eqb_refl).
  rewrite !map_app. cbn [map].
  rewrite <- (length_map toJS pre), nth_error_middle.
  change (toJS c) with
    (JObj [("oid", JNum (oid c)); ("manufacturer", JStr (manufacturer c));
           ("grade", JNum (grade c)); ("batteryType", JNum (batteryType c))]).
  cbn [truthy_any truthy negb].
  rewrite set_at_middle, bind_eval.
  rewrite set_at_middle, bind_eval.
  rewrite set_at_middle, bind_eval.
  rewrite (bind_ok _ (writeAll_run _ _ (ensured_writable d Hd)
                        (proj1 (stores_ensured _ _ H)))).
  cbn [ret M_monad]. rewrite nth_error_middle. reflexivity.
Qed.

Lemma deleteCalculator_missing (d : Disk) (cs : list Calculator) (k : Z) :
  stores d (map toJS cs) -> ~ In k (map oid cs) ->
  CalculatorManager.deleteCalculator k d = Ok false (ensured d).
Proof.
  intros H Hk. unfold CalculatorManager.deleteCalculator.
  rewrite (bind_ok _ (readAll_stores d _ H)).
  rewrite (filter_map toJS _ (fun c => negb (has_oid k c)))
    by (intros c; apply oid_is_not_toJS).
  cbn. rewrite filter_all.
  - rewrite Nat.eqb_refl. reflexivity.
  - intros c Hc. rewrite (has_oid_absent k cs Hk c Hc). reflexivity.
Qed.

Lemma deleteCalculator_present (d : Disk) (cs : list Calculator) (k : Z) :
  d <> Blocked -> stores d (map toJS cs) -> In k (map oid cs) ->
  CalculatorManager.deleteCalculator k d
  = Ok true
       (file_of (map toJS (List.filter (fun c => negb (has_oid k c)) cs))).
Proof.
  intros Hd H Hk. unfold CalculatorManager.deleteCalculator.
  rewrite (bind_ok _ (readAll_stores d _ H)).
  rewrite (filter_map toJS _ (fun c => negb (has_oid k c)))
    by (intros c; apply oid_is_not_toJS).
  cbn -[CalculatorManager.writeAll]. rewrite !length_map.
  destruct (Nat.eqb_spec
              (List.length (List.filter (fun c => negb (has_oid k c)) cs))
              (List.length cs)) as [E|E].
  - exfalso. apply in_map_iff in Hk. destruct Hk as (c & Hc & Hin).
    pose proof (filter_same_length _ _ E c Hin) as F. cbn in F.
    unfold has_oid in F. rewrite Hc, Z.eqb_refl in F. discriminate.
  - rewrite (writeAll_run _ _ (ensured_writable d Hd)
               (proj1 (stores_ensured _ _ H))).
    reflexivity.
Qed.

End CalculatorOperations.

(** ** The note manager on a typed collection *)

Section NoteOperations.
Context {R : Runtime}.

Lemma find_title (t : string) (ns : list Note) :
  find (NoteManager.title_is t) (map toJS ns) = Val (index (has_title t) ns).
Proof. apply find_map. intros n. apply title_is_toJS. Qed.

Lemma loadNotes_typed (s : NoteManager.State) (ns : list Note) :
  stores (NoteManager.disk s) (map toJS ns) ->
  NoteManager.loadNotes s
  = Ok (map toJS ns) (manager (ensured (NoteManager.disk s)) ns).
Proof. intros [C H]. rewrite (loadNotes_run s C), H. reflexivity. Qed.

Lemma saveNotes_typed (d : Disk) (ns : list Note) :
  d <> Blocked -> creatable d = true ->
  NoteManager.saveNotes (manager d ns)
  = Ok tt (manager (file_of (map toJS ns)) ns).
Proof. intros H C. rewrite (saveNotes_run (manager d ns) H C). reflexivity. Qed.

Lemma getNoteByTitle_run (s : NoteManager.State) (ns : list Note)
  (t : string) :
  stores (NoteManager.disk s) (map toJS ns) ->
  NoteManager.getNoteByTitle t s
  = Ok (option_map toJS (List.find (has_title t) ns))
       (manager (ensured (NoteManager.disk s)) ns).
Proof.
  intros H. unfold NoteManager.getNoteByTitle.
  rewrite (bind_ok _ (loadNotes_typed s ns H)), find_title, bind_eval.
  cbn [ret M_monad]. rewrite deref_index. reflexivity.
Qed.

Lemma addNote_duplicate (s : NoteManager.State) (ns : list Note)
  (t b : string) :
  stores (NoteManager.disk s) (map toJS ns) -> In t (map title ns) ->
  NoteManager.addNote t b s
  = Ok None (manager (ensured (NoteManager.disk s)) ns).
Proof.
  intros H Hin. unfold NoteManager.addNote.
  rewrite (bind_ok _ (loadNotes_typed s ns H)), find_title, bind_eval.
  rewrite deref_index.
  destruct (first_occurrence title t ns string_dec Hin)
    as (pre & a & post & -> & Ha & Hpre).
  rewrite (find_first (has_title t) pre post a).
  - reflexivity.
  - apply has_title_absent, Hpre.
  - unfold has_title. apply String.eqb_eq, Ha.
Qed.

Lemma addNote_fresh (s : NoteManager.State) (ns : list Note) (t b : string) :
  NoteManager.disk s <> Blocked ->
  stores (NoteManager.disk s) (map toJS ns) -> ~ In t (map title ns) ->
  NoteManager.addNote t b s
  = Ok (Some (note_object t b))
       (manager (file_of (map toJS (ns ++ [{| title := t; body := b |}])))
          (ns ++ [{| title := t; body := b |}])).
Proof.
  intros Hd H Ht. unfold NoteManager.addNote.
  rewrite (bind_ok _ (loadNotes_typed s ns H)), find_title, bind_eval.
  rewrite deref_index, (find_absent (has_title t) ns)
    by (apply has_title_absent, Ht).
  cbn [option_map truthy_any].
  replace (push (map toJS ns) (note_object t b))
    with (map toJS (ns ++ [{| title := t; body := b |}]))
    by (unfold push; rewrite map_app; reflexivity).
  set (ns' := ns ++ _).
  assert (NoteManager.set_notes (map toJS ns')
            (manager (ensured (NoteManager.disk s)) ns)
          = Ok tt (manager (ensured (NoteManager.disk s)) ns')) as E
    by reflexivity.
  rewrite (bind_ok _ E).
  rewrite (bind_ok _ (saveNotes_typed _ ns' (ensured_writable _ Hd)
                        (proj1 (stores_ensured _ _ H)))).
  reflexivity.
Qed.

Lemma updateNote_missing (s : NoteManager.State) (ns : list Note)
  (t b : string) :
  stores (NoteManager.disk s) (map toJS ns) -> ~ In t (map title ns) ->
  NoteManager.updateNote t b s
  = Ok None (manager (ensured (NoteManager.disk s)) ns).
Proof.
  intros H Ht. unfold NoteManager.updateNote.
  rewrite (bind_ok _ (loadNotes_typed s ns H)), find_title, bind_eval.
  replace (index (has_title t) ns) with (@None nat); [reflexivity|].
  symmetry. apply index_none, has_title_absent, Ht.
Qed.

Lemma updateNote_present (s : NoteManager.State) (pre post : list Note)
  (n : Note) (b : string) :
  NoteManager.disk s <> Blocked ->
  stores (NoteManager.disk s) (map toJS (pre ++ n :: post)) ->
  ~ In (title n) (map title pre) ->
  NoteManager.updateNote (title n) b s
  = Ok (Some (toJS (with_body n b)))
       (manager (file_of (map toJS (pre ++ with_body n b :: post)))
          (pre ++ with_body n b :: post)).
Proof.
  intros Hd H Hpre. unfold NoteManager.updateNote.
  rewrite (bind_ok _ (loadNotes_typed s _ H)), find_title, bind_eval.
  rewrite (index_first (has_title (title n)) pre post n)
    by (try apply has_title_absent; auto; apply String.eqb_refl).
  rewrite !map_app. cbn [map].
  rewrite <- (length_map toJS pre), nth_error_middle.
  change (toJS n) with
    (JObj [("title", JStr (title n)); ("body", JStr (body n))]).
  cbn [truthy_any truthy negb].
  rewrite set_at_middle, bind_eval.
  cbn [assign String.eqb Ascii.eqb Bool.eqb].
  change (JObj [("title", JStr (title n)); ("body", JStr b)])
    with (toJS (with_body n b)).
  change (map toJS pre ++ toJS (with_body n b) :: map toJS post)
    with (map toJS pre ++ map toJS (with_body n b :: post)).
  rewrite <- map_app.
  set (ns' := pre ++ _ :: post).
  assert (NoteManager.set_notes (map toJS ns')
            (manager (ensured (NoteManager.disk s)) (pre ++ n :: post))
          = Ok tt (manager (ensured (NoteManager.disk s)) ns')) as E
    by reflexivity.
  rewrite (bind_ok _ E).
  rewrite (bind_ok _ (saveNotes_typed _ ns' (ensured_writable _ Hd)
                        (proj1 (stores_ensured _ _ H)))).
  cbn [ret M_monad]. subst ns'. rewrite map_app. cbn [map].
  rewrite nth_error_middle. reflexivity.
Qed.

Lemma removeNote_missing (s : NoteManager.State) (ns : list Note)
  (t : string) :
  stores (NoteManager.disk s) (map toJS ns) -> ~ In t (map title ns) ->
  NoteManager.removeNote t s
  = Ok false (manager (ensured (NoteManager.disk s)) ns).
Proof.
  intros H Ht. unfold NoteManager.removeNote.
  rewrite (bind_ok _ (loadNotes_typed s ns H)).
  rewrite (filter_map toJS _ (fun n => negb (has_title t n)))
    by (intros n; apply title_is_not_toJS).
  rewrite bind_eval, filter_all.
  - rewrite Nat.eqb_refl. reflexivity.
  - intros n Hn. rewrite (has_title_absent t ns Ht n Hn). reflexivity.
Qed.

Lemma removeNote_present (s : NoteManager.State) (ns : list Note)
  (t : string) :
  NoteManager.disk s <> Blocked ->
  stores (NoteManager.disk s) (map toJS ns) -> In t (map title ns) ->
  NoteManager.removeNote t s
  = Ok true
       (manager
          (file_of (map toJS (List.filter (fun n => negb (has_title t n)) ns)))
          (List.filter (fun n => negb (has_title t n)) ns)).
Proof.
  intros Hd H Ht. unfold NoteManager.removeNote.
  rewrite (bind_ok _ (loadNotes_typed s ns H)).
  rewrite (filter_map toJS _ (fun n => negb (has_title t n)))
    by (intros n; apply title_is_not_toJS).
  rewrite bind_eval, !length_map.
  destruct (Nat.eqb_spec
              (List.length (List.filter (fun n => negb (has_title t n)) ns))
              (List.length ns)) as [E|E].
  - exfalso. apply in_map_iff in Ht. destruct Ht as (n & Hn & Hin).
    pose proof (filter_same_length _ _ E n Hin) as F. cbn in F.
    unfold has_title in F. rewrite Hn, String.eqb_refl in F. discriminate.
  - set (ns' := List.filter _ ns).
    assert (NoteManager.set_notes (map toJS ns')
              (manager (ensured (NoteManager.disk s)) ns)
            = Ok tt (manager (ensured (NoteManager.disk s)) ns')) as E'
      by reflexivity.
    rewrite (bind_ok _ E').
    rewrite (bind_ok _ (saveNotes_typed _ ns' (ensured_writable _ Hd)
                        (proj1 (stores_ensured _ _ H)))).
    reflexivity.
Qed.

End NoteOperations.

(** ** The reference run time meets the laws *)


Module ReferenceFacts.
Import Reference.

(** *** String literals *)

Lemma parse_chars_escape (c : ascii) (r : string) :
  parse_chars (escape c ++ r) = cons_char c (parse_chars r).
Proof.
  destruct c as [[|] [|] [|] [|] [|] [|] [|] [|]]; reflexivity.
Qed.

Lemma parse_chars_escape_all (s k : string) :
  parse_chars (escape_all s (String dquote k)) = Some (s, k).
Proof.
  induction s as [|c s IH]; [reflexivity|].
  cbn [escape_all]. rewrite parse_chars_escape, IH. reflexivity.
Qed.

(** *** Integer literals *)

Lemma span_digits_digits (u : Decimal.uint) (k : string) :
  delimits k = true ->
  span_digits (digits u ++ k) = (digits u, k).
Proof.
  intros Hk. unfold digits.
  induction u; cbn [NilEmpty.string_of_uint append span_digits];
    try (rewrite IHu; reflexivity).
  destruct k as [|c k]; [reflexivity|].
  cbn [delimits span_digits] in *. apply andb_true_iff in Hk.
  destruct Hk as [Hk _]. apply negb_true_iff in Hk. rewrite Hk. reflexivity.
Qed.

Lemma to_uint_normal (p : positive) :
  exists d, Pos.to_uint p = d /\ d <> Decimal.Nil /\
            forall d', d <> Decimal.D0 d'.
Proof.
  exists (Pos.to_uint p). split; [reflexivity|]. split.
  - apply Unsigned.to_uint_nonnil.
  - intros d' E.
    pose proof (Unsigned.to_of (Pos.to_uint p)) as H.
    rewrite Unsigned.of_to in H. cbn in H.
    assert (Decimal.nzhead (Pos.to_uint p) <> Decimal.Nil) as Hnz.
    { intros F. apply unorm_0 in F. rewrite <- H in F.
      exact (Unsigned.to_uint_nonzero p F). }
    rewrite (unorm_nzhead _ Hnz) in H.
    rewrite H in E. exact (nzhead_nonzero _ _ E).
Qed.

Lemma digits_first (d : Decimal.uint) :
  d <> Decimal.Nil ->
  exists c r, digits d = String c r /\ is_digit c = true.
Proof.
  destruct d; intros H; try contradiction; cbn; eauto.
Qed.

Lemma leading_zero_normal (d : Decimal.uint) :
  (forall d', d <> Decimal.D0 d') -> leading_zero (digits d) = false.
Proof.
  intros H. unfold digits.
  destruct d as [|d|d|d|d|d|d|d|d|d|d]; cbn [NilEmpty.string_of_uint];
    try reflexivity;
    try (unfold leading_zero; destruct (NilEmpty.string_of_uint d);
         reflexivity).
  exfalso. exact (H d eq_refl).
Qed.

Lemma parse_number_print (n : Z) (k : string) :
  delimits k = true ->
  parse_number (decimal n ++ k) = Some (n, k).
Proof.
  intros Hk.
  assert (continues_number k = false) as Hc.
  { destruct k as [|c k]; [reflexivity|]. cbn [delimits] in Hk.
    apply andb_true_iff in Hk. destruct Hk as [_ Hk].
    apply negb_true_iff in Hk. exact Hk. }
  unfold decimal. destruct n as [|p|p]; cbn [Z.to_int].
  - change (NilZero.string_of_int (Decimal.Pos Decimal.zero) ++ k)%string
      with (String "0" (digits Decimal.Nil ++ k)).
    unfold parse_number. cbn [Ascii.eqb Bool.eqb span_digits].
    change (is_digit "0") with true. cbv iota.
    rewrite span_digits_digits by exact Hk.
    cbn [digits NilEmpty.string_of_uint leading_zero orb]. rewrite Hc.
    reflexivity.
  - destruct (to_uint_normal p) as (d & E & Hnil & Hzero). rewrite E.
    assert (NilZero.string_of_int (Decimal.Pos d) = digits d) as ->
      by (destruct d; try contradiction; reflexivity).
    assert (Z.pos p = Z.of_uint d) as ->.
    { rewrite <- E. unfold Z.of_uint. rewrite Unsigned.of_to. reflexivity. }
    unfold parse_number.
    assert (match (digits d ++ k)%string with
            | EmptyString => (false, (digits d ++ k)%string)
            | String c r =>
                if Ascii.eqb c "-" then (true, r)
                else (false, (digits d ++ k)%string)
            end = (false, (digits d ++ k)%string)) as ->.
    { destruct d; try contradiction; reflexivity. }
    rewrite span_digits_digits by exact Hk.
    assert (leading_zero (digits d) = false) as ->.
    { apply leading_zero_normal, Hzero. }
    rewrite Hc. cbn [orb].
    assert (NilZero.uint_of_string (digits d) = Some d) as ->.
    { transitivity (NilZero.uint_of_string (NilZero.string_of_uint d));
        [|apply NilZero.usu, Hnil].
      f_equal. destruct d; [contradiction|reflexivity..]. }
    reflexivity.
  - destruct (to_uint_normal p) as (d & E & Hnil & Hzero). rewrite E.
    assert (NilZero.string_of_int (Decimal.Neg d) = String "-" (digits d))
      as -> by (destruct d; try contradiction; reflexivity).
    assert (Z.neg p = - Z.of_uint d) as ->.
    { rewrite <- E. unfold Z.of_uint. rewrite Unsigned.of_to. reflexivity. }
    unfold parse_number. cbn [append Ascii.eqb Bool.eqb].
    rewrite span_digits_digits by exact Hk.
    assert (leading_zero (digits d) = false) as ->.
    { apply leading_zero_normal, Hzero. }
    rewrite Hc. cbn [orb].
    assert (NilZero.uint_of_string (digits d) = Some d) as ->.
    { transitivity (NilZero.uint_of_string (NilZero.string_of_uint d));
        [|apply NilZero.usu, Hnil].
      f_equal. destruct d; [contradiction|reflexivity..]. }
    reflexivity.
Qed.

(** The first character of a printed integer. *)
Lemma decimal_first (n : Z) :
  exists c r, decimal n = String c r /\
              (is_digit c = true \/ c = "-"%char).
Proof.
  unfold decimal. destruct n as [|p|p]; cbn [Z.to_int].
  - exists "0"%char, EmptyString. split; [reflexivity|left; reflexivity].
  - destruct (to_uint_normal p) as (d & E & Hnil & _). rewrite E.
    destruct (digits_first d Hnil) as (c & r & Hd & Hc).
    exists c, r. split; [|left; exact Hc].
    rewrite <- Hd. destruct d; try contradiction; reflexivity.
  - destruct (to_uint_normal p) as (d & E & Hnil & _). rewrite E.
    exists "-"%char, (digits d). split; [|right; reflexivity].
    destruct d; try contradiction; reflexivity.
Qed.

(** *** White space and first characters *)

Lemma starts_value_not_space (c : ascii) (r : string) :
  starts_value (String c r) = true ->
  is_json_space c = false /\ is_space c = false.
Proof.
  destruct c as [[|] [|] [|] [|] [|] [|] [|] [|]]; intros H;
    solve [discriminate H | split; reflexivity].
Qed.

Lemma skip_ws_starts_value (s : string) :
  starts_value s = true -> skip_ws s = s.
Proof.
  destruct s as [|c r]; intros H; [reflexivity|].
  cbn [skip_ws]. destruct (starts_value_not_space c r H) as [-> _].
  reflexivity.
Qed.

Lemma skip_ws_idempotent (s : string) : skip_ws (skip_ws s) = skip_ws s.
Proof.
  induction s as [|c s IH]; [reflexivity|]. cbn [skip_ws].
  destruct (is_json_space c) eqn:E; [exact IH|]. cbn [skip_ws]. rewrite E.
  reflexivity.
Qed.

Lemma skip_ws_spaces (n : nat) (k : string) :
  skip_ws (spaces n k) = skip_ws k.
Proof. induction n as [|n IH]; [reflexivity|]. exact IH. Qed.

Lemma skip_ws_break (n : nat) (k : string) :
  skip_ws (break n k) = skip_ws k.
Proof. unfold break. cbn [skip_ws]. apply skip_ws_spaces. Qed.

Lemma parse_value_skip (fuel : nat) (s : string) :
  parse_value fuel (skip_ws s) = parse_value fuel s.
Proof.
  destruct fuel as [|f]; [reflexivity|]. cbn [parse_value].
  rewrite skip_ws_idempotent. reflexivity.
Qed.

Lemma parse_value_break (fuel n : nat) (k : string) :
  parse_value fuel (break n k) = parse_value fuel k.
Proof.
  rewrite <- (parse_value_skip fuel (break n k)), skip_ws_break.
  apply parse_value_skip.
Qed.

Lemma parse_value_number (f : nat) (c : ascii) (r : string) :
  is_digit c = true \/ c = "-"%char ->
  parse_value (S f) (String c r)
  = match parse_number (String c r) with
    | Some (n, rest) => Some (JNum n, rest)
    | None => None
    end.
Proof.
  destruct c as [[|] [|] [|] [|] [|] [|] [|] [|]]; intros [H|H];
    solve [discriminate H | reflexivity].
Qed.

Lemma print_starts (indent : nat) (v : JValue) (k : string) :
  starts_value (print indent v k) = true.
Proof.
  destruct v as [|b|n|s|l|ps]; try reflexivity.
  - destruct b; reflexivity.
  - cbn [print]. destruct (decimal_first n) as (c & r & -> & [H|H]).
    + cbn [append starts_value]. rewrite H. reflexivity.
    + subst c. reflexivity.
  - destruct l; reflexivity.
  - destruct ps; reflexivity.
Qed.

Lemma delimits_separator {A : Type} (more : list A) (n : nat) (k : string) :
  (more = [] -> exists k', k = break n k') ->
  delimits (separator more k) = true.
Proof.
  destruct more as [|a more]; intros H; [|reflexivity].
  destruct (H eq_refl) as [k' ->]. reflexivity.
Qed.

(** *** Objects without repeated names *)

Lemma distinct_NoDup (ks : list string) : distinct ks = true <-> NoDup ks.
Proof.
  induction ks as [|k ks IH]; cbn [distinct].
  - split; [constructor|reflexivity].
  - rewrite andb_true_iff, negb_true_iff, IH. split.
    + intros [H1 H2]. constructor; [|exact H2]. intros Hin.
      assert (existsb (fun k' => (k' =? k)%string) ks = true) as E.
      { apply existsb_exists. exists k. split; [exact Hin|].
        apply String.eqb_refl. }
      rewrite E in H1. discriminate.
    + intros H. inversion H as [|? ? Hnot Hnd]; subst. split; [|exact Hnd].
      destruct (existsb _ ks) eqn:E; [|reflexivity].
      apply existsb_exists in E. destruct E as (k' & Hin & Hk).
      apply String.eqb_eq in Hk. subst k'. contradiction.
Qed.

Lemma assign_fresh (k : string) (x : JValue) (ps : list (string * JValue)) :
  ~ In k (map fst ps) -> assign k x ps = ps ++ [(k, x)].
Proof.
  induction ps as [|[k' v] ps IH]; cbn; intros H; [reflexivity|].
  destruct (String.eqb_spec k' k) as [E|E].
  - exfalso. apply H. left. exact E.
  - rewrite IH by (intros F; apply H; right; exact F). reflexivity.
Qed.

Lemma fold_assign (ps acc : list (string * JValue)) :
  NoDup (map fst (acc ++ ps)) ->
  fold_left (fun acc kv => assign (fst kv) (snd kv) acc) ps acc = acc ++ ps.
Proof.
  revert acc. induction ps as [|[k v] ps IH]; intros acc H; cbn [fold_left].
  - rewrite List.app_nil_r. reflexivity.
  - cbn [fst snd]. rewrite assign_fresh.
    + rewrite IH; rewrite <- List.app_assoc; [reflexivity|exact H].
    + rewrite map_app in H. cbn in H. apply NoDup_remove_2 in H.
      intros F. apply H. apply in_or_app. left. exact F.
Qed.

Lemma object_of_distinct (ps : list (string * JValue)) :
  distinct (map fst ps) = true -> object_of ps = JObj ps.
Proof.
  intros H. unfold object_of. rewrite fold_assign; [reflexivity|].
  apply distinct_NoDup. exact H.
Qed.

(** *** Induction on values *)

Lemma JValue_induction (P : JValue -> Prop) :
  P JNull -> (forall b, P (JBool b)) -> (forall n, P (JNum n)) ->
  (forall s, P (JStr s)) ->
  (forall l, Forall P l -> P (JArr l)) ->
  (forall ps, Forall (fun kv => P (snd kv)) ps -> P (JObj ps)) ->
  forall v, P v.
Proof.
  intros Hnull Hbool Hnum Hstr Harr Hobj.
  fix IH 1. intros [|b|n|s|l|ps].
  - exact Hnull.
  - apply Hbool.
  - apply Hnum.
  - apply Hstr.
  - apply Harr. induction l as [|x l IHl]; constructor; [apply IH|exact IHl].
  - apply Hobj. induction ps as [|[k x] ps IHps]; constructor;
      [apply IH|exact IHps].
Qed.

(** *** Printed values parse back *)

Lemma starts_value_not_closing (c : ascii) (r : string) :
  starts_value (String c r) = true ->
  Ascii.eqb c "]" = false /\ Ascii.eqb c "}" = false.
Proof.
  destruct c as [[|] [|] [|] [|] [|] [|] [|] [|]]; intros H;
    solve [discriminate H | split; reflexivity].
Qed.

Lemma parse_value_array (f : nat) (r : string) :
  starts_value (skip_ws r) = true ->
  parse_value (S f) (String "[" r)
  = match parse_elements f r with
    | Some (l, rest) => Some (JArr l, rest)
    | None => None
    end.
Proof.
  intros H.
  transitivity
    (match skip_ws r with
     | String c' r' =>
         if Ascii.eqb c' "]" then Some (JArr [], r')
         else
           match parse_elements f r with
           | Some (l, rest) => Some (JArr l, rest)
           | None => None
           end
     | EmptyString => None
     end); [reflexivity|].
  destruct (skip_ws r) as [|c r']; [discriminate H|].
  destruct (starts_value_not_closing c r' H) as [-> _]. reflexivity.
Qed.

Lemma parse_value_object (f : nat) (r : string) (c : ascii) (r' : string) :
  skip_ws r = String c r' -> Ascii.eqb c "}" = false ->
  parse_value (S f) (String "{" r)
  = match parse_members f r with
    | Some (ps, rest) => Some (object_of ps, rest)
    | None => None
    end.
Proof.
  intros E H.
  transitivity
    (match skip_ws r with
     | String c' r' =>
         if Ascii.eqb c' "}" then Some (JObj [], r')
         else
           match parse_members f r with
           | Some (ps, rest) => Some (object_of ps, rest)
           | None => None
           end
     | EmptyString => None
     end); [reflexivity|].
  rewrite E, H. reflexivity.
Qed.

Lemma parse_elements_more (f : nat) (s k : string) (v : JValue) :
  parse_value f s = Some (v, String "," k) ->
  parse_elements (S f) s
  = match parse_elements f k with
    | Some (l, rest) => Some (v :: l, rest)
    | None => None
    end.
Proof. intros H. cbn [parse_elements]. rewrite H. reflexivity. Qed.

Lemma parse_elements_last (f n : nat) (s k : string) (v : JValue) :
  parse_value f s = Some (v, break n (String "]" k)) ->
  parse_elements (S f) s = Some ([v], k).
Proof.
  intros H. cbn [parse_elements]. rewrite H, skip_ws_break. reflexivity.
Qed.

Lemma parse_elements_print (l : list JValue) :
  Forall parses l -> forallb well_formed l = true ->
  forall fuel indent k,
    l <> [] -> (sizes l <= fuel)%nat ->
    parse_elements fuel (print_elements indent l (break indent (String "]" k)))
    = Some (l, k).
Proof.
  induction l as [|x l IH]; intros HP Hwf fuel indent k Hne Hsz;
    [contradiction|].
  inversion HP as [|? ? Hx Hl]; subst.
  cbn [forallb] in Hwf. apply andb_true_iff in Hwf. destruct Hwf as [Wx Wl].
  unfold sizes in Hsz. cbn [fold_right] in Hsz. fold (sizes l) in Hsz.
  destruct fuel as [|f]; [lia|].
  change (print_elements indent (x :: l) ?K)
    with (break (2 + indent)
            (print (2 + indent) x (separator l (print_elements indent l K)))).
  set (K := break indent (String "]" k)).
  assert (parse_value f
            (break (2 + indent)
               (print (2 + indent) x
                  (separator l (print_elements indent l K))))
          = Some (x, separator l (print_elements indent l K))) as E.
  { rewrite parse_value_break. apply (Hx Wx); [lia|].
    apply (delimits_separator l indent). intros ->. eexists. reflexivity. }
  destruct l as [|y l].
  - apply (parse_elements_last f indent _ k x). exact E.
  - rewrite (parse_elements_more f _ _ x E).
    subst K. rewrite (IH Hl Wl f indent k); [reflexivity|discriminate|lia].
Qed.

Lemma parse_members_step (f n : nat) (name r : string) :
  parse_members (S f)
    (break n (quote name (String ":" (String " " r))))
  = match parse_value f r with
    | Some (v, r3) =>
        match skip_ws r3 with
        | String c r4 =>
            if Ascii.eqb c "," then
              match parse_members f r4 with
              | Some (ps, rest) => Some ((name, v) :: ps, rest)
              | None => None
              end
            else if Ascii.eqb c "}" then Some ([(name, v)], r4)
            else None
        | EmptyString => None
        end
    | None => None
    end.
Proof.
  cbn [parse_members]. rewrite skip_ws_break.
  change (skip_ws (quote name ?X))
    with (String dquote (escape_all name (String dquote X))).
  cbv beta iota. rewrite Ascii.eqb_refl, parse_chars_escape_all.
  change (skip_ws (String ":" ?X)) with (String ":" X).
  cbv beta iota. rewrite Ascii.eqb_refl.
  rewrite <- (parse_value_skip f (String " " r)).
  change (skip_ws (String " " r)) with (skip_ws r).
  rewrite parse_value_skip. reflexivity.
Qed.

Lemma parse_members_print (ps : list (string * JValue)) :
  Forall (fun kv => parses (snd kv)) ps ->
  forallb (fun kv => well_formed (snd kv)) ps = true ->
  forall fuel indent k,
    ps <> [] -> (member_sizes ps <= fuel)%nat ->
    parse_members fuel
      (print_members indent ps (break indent (String "}" k)))
    = Some (ps, k).
Proof.
  induction ps as [|[name x] ps IH]; intros HP Hwf fuel indent k Hne Hsz;
    [contradiction|].
  inversion HP as [|? ? Hx Hl]; subst. cbn [snd] in Hx.
  cbn [forallb snd] in Hwf. apply andb_true_iff in Hwf.
  destruct Hwf as [Wx Wl].
  unfold member_sizes in Hsz. cbn [fold_right snd] in Hsz.
  fold (member_sizes ps) in Hsz.
  destruct fuel as [|f]; [lia|].
  change (print_members indent ((name, x) :: ps) ?K)
    with (break (2 + indent)
            (quote name
               (String ":" (String " "
                  (print (2 + indent) x
                     (separator ps (print_members indent ps K))))))).
  set (K := break indent (String "}" k)).
  rewrite parse_members_step.
  rewrite (Hx Wx).
  - destruct ps as [|q ps].
    + cbn [separator print_members]. subst K. rewrite skip_ws_break.
      reflexivity.
    + change (separator (q :: ps) ?X) with (String "," X).
      change (skip_ws (String "," ?X)) with (String "," X).
      cbv beta iota. rewrite Ascii.eqb_refl.
      subst K. rewrite (IH Hl Wl f indent k); [reflexivity|discriminate|lia].
  - lia.
  - apply (delimits_separator ps indent). intros ->. eexists. reflexivity.
Qed.

Lemma print_parses (v : JValue) : parses v.
Proof.
  induction v as [|b|n|s|l IH|ps IH] using JValue_induction;
    intros Hwf fuel indent k Hsz Hk;
    (destruct fuel as [|f]; [cbn in Hsz; lia|]).
  - reflexivity.
  - destruct b; reflexivity.
  - cbn [print].
    destruct (decimal_first n) as (c & r & E & Hc).
    rewrite E. change (String c r ++ k)%string with (String c (r ++ k)).
    rewrite (parse_value_number f c (r ++ k) Hc).
    change (String c (r ++ k)) with (String c r ++ k)%string.
    rewrite <- E, parse_number_print by exact Hk. reflexivity.
  - transitivity
      (match parse_chars (escape_all s (String dquote k)) with
       | Some (str, rest) => Some (JStr str, rest)
       | None => None
       end); [reflexivity|].
    rewrite parse_chars_escape_all. reflexivity.
  - destruct l as [|x l]; [reflexivity|].
    change (print indent (JArr (x :: l)) k)
      with (String "["
              (print_elements indent (x :: l) (break indent (String "]" k)))).
    rewrite parse_value_array.
    + rewrite parse_elements_print; try reflexivity; try discriminate.
      * exact IH.
      * exact Hwf.
      * cbn [size] in Hsz. fold (sizes (x :: l)) in Hsz. lia.
    + change (print_elements indent (x :: l) ?K)
        with (break (2 + indent)
                (print (2 + indent) x
                   (separator l (print_elements indent l K)))).
      rewrite skip_ws_break, skip_ws_starts_value; apply print_starts.
  - cbn [well_formed] in Hwf. apply andb_true_iff in Hwf.
    destruct Hwf as [Hwf Wv]. apply andb_true_iff in Hwf.
    destruct Hwf as [Hd _].
    destruct ps as [|[name x] ps]; [reflexivity|].
    change (print indent (JObj ((name, x) :: ps)) k)
      with (String "{"
              (print_members indent ((name, x) :: ps)
                 (break indent (String "}" k)))).
    rewrite (parse_value_object f _ dquote
               (escape_all name
                  (String dquote (String ":" (String " "
                     (print (2 + indent) x
                        (separator ps
                           (print_members indent ps
                              (break indent (String "}" k)))))))))).
    + rewrite parse_members_print; try discriminate.
      * rewrite object_of_distinct by exact Hd. reflexivity.
      * exact IH.
      * exact Wv.
      * cbn [size] in Hsz. fold (member_sizes ((name, x) :: ps)) in Hsz. lia.
    + change (print_members indent ((name, x) :: ps) ?K)
        with (break (2 + indent)
                (quote name
                   (String ":" (String " "
                      (print (2 + indent) x
                         (separator ps (print_members indent ps K))))))).
      rewrite skip_ws_break. reflexivity.
    + reflexivity.
Qed.

(** *** The text is long enough to be its own fuel *)

Lemma length_append (a b : string) :
  String.length (a ++ b) = (String.length a + String.length b)%nat.
Proof.
  induction a as [|c a IH]; cbn; [reflexivity|]. rewrite IH. reflexivity.
Qed.

Lemma length_spaces (n : nat) (k : string) :
  String.length (spaces n k) = (n + String.length k)%nat.
Proof.
  induction n as [|n IH]; cbn; [reflexivity|]. rewrite IH. reflexivity.
Qed.

Lemma length_break (n : nat) (k : string) :
  String.length (break n k) = S (n + String.length k).
Proof. unfold break. cbn. rewrite length_spaces. reflexivity. Qed.

Lemma length_escape_all (s k : string) :
  (String.length k <= String.length (escape_all s k))%nat.
Proof.
  induction s as [|c s IH]; cbn [escape_all]; [lia|].
  rewrite length_append. lia.
Qed.

Lemma length_separator {A : Type} (more : list A) (k : string) :
  (String.length k <= String.length (separator more k))%nat.
Proof. destruct more; cbn; lia. Qed.

Lemma length_print (v : JValue) :
  forall indent k,
    (size v + String.length k <= String.length (print indent v k))%nat.
Proof.
  induction v as [|b|n|s|l IH|ps IH] using JValue_induction; intros indent k.
  - cbn. lia.
  - destruct b; cbn; lia.
  - cbn [print size]. rewrite length_append.
    destruct (decimal_first n) as (c & r & -> & _).
    cbn [String.length]. lia.
  - cbn [print size]. unfold quote. cbn [String.length].
    pose proof (length_escape_all s (String dquote k)) as H.
    cbn [String.length] in H. lia.
  - assert (forall K,
              (sizes l + String.length K
               <= String.length (print_elements indent l K))%nat) as H.
    { intros K. induction IH as [|x l Hx _ IHl]; [cbn; lia|].
      change (print_elements indent (x :: l) K)
        with (break (2 + indent)
                (print (2 + indent) x
                   (separator l (print_elements indent l K)))).
      rewrite length_break.
      pose proof (Hx (2 + indent)%nat
                    (separator l (print_elements indent l K))) as H1.
      pose proof (length_separator l (print_elements indent l K)) as H2.
      unfold sizes in *. cbn [fold_right]. lia. }
    destruct l as [|x l]; [cbn; lia|].
    change (print indent (JArr (x :: l)) k)
      with (String "["
              (print_elements indent (x :: l) (break indent (String "]" k)))).
    specialize (H (break indent (String "]" k))).
    rewrite length_break in H. cbn [String.length] in *.
    cbn [size]. fold (sizes (x :: l)). lia.
  - assert (forall K,
              (member_sizes ps + String.length K
               <= String.length (print_members indent ps K))%nat) as H.
    { intros K. induction IH as [|[name x] ps Hx _ IHps]; [cbn; lia|].
      change (print_members indent ((name, x) :: ps) K)
        with (break (2 + indent)
                (quote name
                   (String ":" (String " "
                      (print (2 + indent) x
                         (separator ps (print_members indent ps K))))))).
      rewrite length_break. unfold quote. cbn [String.length].
      pose proof (length_escape_all name
                    (String dquote (String ":" (String " "
                       (print (2 + indent) x
                          (separator ps (print_members indent ps K)))))))
        as H0. cbn [String.length] in H0.
      pose proof (Hx (2 + indent)%nat
                    (separator ps (print_members indent ps K))) as H1.
      cbn [snd] in H1.
      pose proof (length_separator ps (print_members indent ps K)) as H2.
      unfold member_sizes in *. cbn [fold_right snd]. lia. }
    destruct ps as [|[name x] ps]; [cbn; lia|].
    change (print indent (JObj ((name, x) :: ps)) k)
      with (String "{"
              (print_members indent ((name, x) :: ps)
                 (break indent (String "}" k)))).
    specialize (H (break indent (String "}" k))).
    rewrite length_break in H. cbn [String.length] in *.
    cbn [size]. fold (member_sizes ((name, x) :: ps)). lia.
Qed.

(** *** The laws *)

Lemma parse_stringify_reference (v : JValue) :
  well_formed v = true -> parse (stringify v) = Some v.
Proof.
  intros Hwf. unfold parse, stringify.
  rewrite (print_parses v Hwf); [reflexivity| |reflexivity].
  pose proof (length_print v 0 EmptyString). lia.
Qed.

Lemma trim_starts_value (s : string) :
  starts_value s = true -> trim s <> EmptyString.
Proof.
  destruct s as [|c r]; intros H; [discriminate H|].
  destruct (starts_value_not_space c r H) as [_ Hc].
  unfold trim. cbn [trim_end]. rewrite Hc.
  destruct (trim_end r); cbn [trim_start]; rewrite Hc; discriminate.
Qed.

Lemma reference_laws : RuntimeLaws Reference.runtime.
Proof.
  constructor.
  - exact parse_stringify_reference.
  - reflexivity.
  - intros v. apply trim_starts_value. apply print_starts.
Qed.

Lemma reference_numbers : NumberLaws Reference.runtime.
Proof. constructor. reflexivity. Qed.

End ReferenceFacts.


(** ** Invariants of a run *)

Lemma NoDup_map_filter {A K : Type} (key : A -> K) (q : A -> bool)
  (l : list A) :
  NoDup (map key l) -> NoDup (map key (List.filter q l)).
Proof.
  induction l as [|a l IH]; cbn; intros H; [constructor|].
  inversion H as [|? ? Hnot Hnd]; subst.
  destruct (q a); cbn; [|apply IH, Hnd].
  constructor; [|apply IH, Hnd].
  intros Hin. apply Hnot. apply in_map_iff in Hin.
  destruct Hin as (x & Hx & Hin). apply filter_In in Hin.
  rewrite <- Hx. apply in_map. apply Hin.
Qed.

Lemma NoDup_snoc {K : Type} (ks : list K) (k : K) :
  NoDup ks -> ~ In k ks -> NoDup (ks ++ [k]).
Proof.
  intros H Hk. induction H as [|x ks Hx Hnd IH]; cbn.
  - constructor; [intros []|constructor].
  - constructor.
    + intros Hin. apply in_app_or in Hin. destruct Hin as [Hin|[->|[]]].
      * contradiction.
      * apply Hk. left. reflexivity.
    + apply IH. intros Hin. apply Hk. right. exact Hin.
Qed.

Section Runs.
Context {R : Runtime} {L : RuntimeLaws R}.

Lemma file_of_writable (l : list JValue) : file_of l <> Blocked.
Proof. discriminate. Qed.

Lemma contents_file_of_notes (ns : list Note) :
  contents (file_of (map toJS ns)) = map toJS ns.
Proof. apply contents_file_of, notes_well_formed. Qed.

Lemma stores_file_of_calculators (cs : list Calculator) :
  stores (file_of (map toJS cs)) (map toJS cs).
Proof. apply stores_file_of, calculators_well_formed. Qed.

Lemma stores_file_of_notes (ns : list Note) :
  stores (file_of (map toJS ns)) (map toJS ns).
Proof. apply stores_file_of, notes_well_formed. Qed.

Lemma perform_keeps (op : CalculatorOp) (d : Disk) (cs : list Calculator) :
  calculators_ok d cs ->
  exists d' cs', perform op d = Ok tt d' /\ calculators_ok d' cs'.
Proof.
  intros (Hd & Hc & Hnd). destruct op as [k m g b|k m g b|k]; cbn [perform].
  - destruct (in_dec Z.eq_dec k (map oid cs)) as [Hin|Hout].
    + exists (ensured d), cs.
      rewrite (bind_ok _ (addCalculator_duplicate d cs k m g b Hc Hin)).
      split; [reflexivity|]. split; [|split; [|exact Hnd]].
      * apply ensured_writable, Hd.
      * apply stores_ensured, Hc.
    + eexists. eexists.
      rewrite (bind_ok _ (addCalculator_fresh d cs k m g b Hd Hc Hout)).
      split; [reflexivity|]. split; [|split].
      * apply file_of_writable.
      * apply stores_file_of_calculators.
      * rewrite map_app. apply NoDup_snoc; assumption.
  - destruct (in_dec Z.eq_dec k (map oid cs)) as [Hin|Hout].
    + destruct (first_occurrence oid k cs Z.eq_dec Hin)
        as (pre & c & post & -> & Hk & Hpre). subst k.
      eexists. eexists.
      rewrite (bind_ok _
                 (editCalculator_present d pre post c m g b Hd Hc Hpre)).
      split; [reflexivity|]. split; [|split].
      * apply file_of_writable.
      * apply stores_file_of_calculators.
      * rewrite map_app in *. exact Hnd.
    + exists (ensured d), cs.
      rewrite (bind_ok _ (editCalculator_missing d cs k m g b Hc Hout)).
      split; [reflexivity|]. split; [|split; [|exact Hnd]].
      * apply ensured_writable, Hd.
      * apply stores_ensured, Hc.
  - destruct (in_dec Z.eq_dec k (map oid cs)) as [Hin|Hout].
    + eexists. eexists.
      rewrite (bind_ok _ (deleteCalculator_present d cs k Hd Hc Hin)).
      split; [reflexivity|]. split; [|split].
      * apply file_of_writable.
      * apply stores_file_of_calculators.
      * apply NoDup_map_filter, Hnd.
    + exists (ensured d), cs.
      rewrite (bind_ok _ (deleteCalculator_missing d cs k Hc Hout)).
      split; [reflexivity|]. split; [|split; [|exact Hnd]].
      * apply ensured_writable, Hd.
      * apply stores_ensured, Hc.
Qed.

Lemma perform_all_keeps (ops : list CalculatorOp) :
  forall d cs,
    calculators_ok d cs ->
    exists d' cs', perform_all ops d = Ok tt d' /\ calculators_ok d' cs'.
Proof.
  induction ops as [|op ops IH]; intros d cs H; cbn [perform_all].
  - exists d, cs. split; [reflexivity|exact H].
  - destruct (perform_keeps op d cs H) as (d1 & cs1 & E & H1).
    rewrite (bind_ok _ E). apply (IH d1 cs1 H1).
Qed.

Lemma manager_ok (d : Disk) (ns : list Note) :
  d <> Blocked -> stores d (map toJS ns) -> NoDup (map title ns) ->
  notes_ok (manager d ns) ns.
Proof. intros. split; [|split]; assumption. Qed.

Lemma perform_note_keeps (op : NoteOp) (s : NoteManager.State)
  (ns : list Note) :
  notes_ok s ns ->
  exists s' ns', perform_note op s = Ok tt s' /\ notes_ok s' ns'.
Proof.
  intros (Hd & Hc & Hnd). destruct op as [t b|t b|t]; cbn [perform_note].
  - destruct (in_dec string_dec t (map title ns)) as [Hin|Hout].
    + eexists. exists ns.
      rewrite (bind_ok _ (addNote_duplicate s ns t b Hc Hin)).
      split; [reflexivity|]. apply manager_ok; auto.
      * apply ensured_writable, Hd.
      * apply stores_ensured, Hc.
    + eexists. eexists.
      rewrite (bind_ok _ (addNote_fresh s ns t b Hd Hc Hout)).
      split; [reflexivity|]. apply manager_ok.
      * apply file_of_writable.
      * apply stores_file_of_notes.
      * rewrite map_app. apply NoDup_snoc; assumption.
  - destruct (in_dec string_dec t (map title ns)) as [Hin|Hout].
    + destruct (first_occurrence title t ns string_dec Hin)
        as (pre & n & post & -> & Hk & Hpre). subst t.
      eexists. eexists.
      rewrite (bind_ok _ (updateNote_present s pre post n b Hd Hc Hpre)).
      split; [reflexivity|]. apply manager_ok.
      * apply file_of_writable.
      * apply stores_file_of_notes.
      * rewrite map_app in *. exact Hnd.
    + eexists. exists ns.
      rewrite (bind_ok _ (updateNote_missing s ns t b Hc Hout)).
      split; [reflexivity|]. apply manager_ok; auto.
      * apply ensured_writable, Hd.
      * apply stores_ensured, Hc.
  - destruct (in_dec string_dec t (map title ns)) as [Hin|Hout].
    + eexists. eexists.
      rewrite (bind_ok _ (removeNote_present s ns t Hd Hc Hin)).
      split; [reflexivity|]. apply manager_ok.
      * apply file_of_writable.
      * apply stores_file_of_notes.
      * apply NoDup_map_filter, Hnd.
    + eexists. exists ns.
      rewrite (bind_ok _ (removeNote_missing s ns t Hc Hout)).
      split; [reflexivity|]. apply manager_ok; auto.
      * apply ensured_writable, Hd.
      * apply stores_ensured, Hc.
Qed.

Lemma perform_all_notes_keeps (ops : list NoteOp) :
  forall s ns,
    notes_ok s ns ->
    exists s' ns', perform_all_notes ops s = Ok tt s' /\ notes_ok s' ns'.
Proof.
  induction ops as [|op ops IH]; intros s ns H; cbn [perform_all_notes].
  - exists s, ns. split; [reflexivity|exact H].
  - destruct (perform_note_keeps op s ns H) as (s1 & ns1 & E & H1).
    rewrite (bind_ok _ E). apply (IH s1 ns1 H1).
Qed.

(** A disk that lists a record is a file. *)
Lemma listed_is_file (d : Disk) (l : list JValue) :
  contents d = l -> l <> [] -> ensured d = d.
Proof.
  intros H Hl. rewrite <- H in Hl.
  destruct (contents_nonempty_file d Hl) as [raw ->]. reflexivity.
Qed.

End Runs.

(** Operations on a path that cannot be written. *)
Section Blocked.
Context {R : Runtime}.

Lemma addCalculator_blocked (k : Z) (m : string) (g b : Z) :
  CalculatorManager.addCalculator k m g b Blocked = Throw IOError Blocked.
Proof. reflexivity. Qed.

Lemma editCalculator_blocked (k : Z) (m : string) (g b : Z) :
  CalculatorManager.editCalculator k m g b Blocked = Ok None Blocked.
Proof. reflexivity. Qed.

Lemma deleteCalculator_blocked (k : Z) :
  CalculatorManager.deleteCalculator k Blocked = Ok false Blocked.
Proof. reflexivity. Qed.

Lemma addNote_blocked (s : NoteManager.State) (t b : string) :
  NoteManager.disk s = Blocked ->
  exists s',
    NoteManager.addNote t b s = Throw IOError s' /\
    NoteManager.disk s' = Blocked.
Proof.
  destruct s as [d cache]. cbn. intros ->. eexists. split; reflexivity.
Qed.

Lemma updateNote_blocked (s : NoteManager.State) (t b : string) :
  NoteManager.disk s = Blocked ->
  exists s',
    NoteManager.updateNote t b s = Ok None s' /\
    NoteManager.disk s' = Blocked.
Proof.
  destruct s as [d cache]. cbn. intros ->. eexists. split; reflexivity.
Qed.

Lemma removeNote_blocked (s : NoteManager.State) (t : string) :
  NoteManager.disk s = Blocked ->
  exists s',
    NoteManager.removeNote t s = Ok false s' /\
    NoteManager.disk s' = Blocked.
Proof.
  destruct s as [d cache]. cbn. intros ->. eexists. split; reflexivity.
Qed.

Lemma Disk_blocked_dec (d : Disk) : {d = Blocked} + {d <> Blocked}.
Proof. destruct d; (left; reflexivity) || (right; discriminate). Qed.

Lemma perform_all_blocked (ops : list CalculatorOp) :
  final (perform_all ops Blocked) = Blocked.
Proof.
  induction ops as [|op ops IH]; [reflexivity|]. cbn [perform_all].
  destruct op as [k m g b|k m g b|k].
  - assert (perform (DoAdd k m g b) Blocked = Throw IOError Blocked) as E
      by reflexivity.
    rewrite (bind_throw _ E). reflexivity.
  - assert (perform (DoEdit k m g b) Blocked = Ok tt Blocked) as E
      by reflexivity.
    rewrite (bind_ok _ E). exact IH.
  - assert (perform (DoDelete k) Blocked = Ok tt Blocked) as E
      by reflexivity.
    rewrite (bind_ok _ E). exact IH.
Qed.

Lemma perform_all_notes_blocked (ops : list NoteOp) :
  forall s,
    NoteManager.disk s = Blocked ->
    NoteManager.disk (final (perform_all_notes ops s)) = Blocked.
Proof.
  induction ops as [|op ops IH]; intros s Hs; [exact Hs|].
  cbn [perform_all_notes]. destruct op as [t b|t b|t].
  - destruct (addNote_blocked s t b Hs) as (s' & E & Hs').
    assert (perform_note (DoAddNote t b) s = Throw IOError s') as E'
      by (cbn [perform_note]; rewrite (bind_throw _ E); reflexivity).
    rewrite (bind_throw _ E'). exact Hs'.
  - destruct (updateNote_blocked s t b Hs) as (s' & E & Hs').
    assert (perform_note (DoUpdateNote t b) s = Ok tt s') as E'
      by (cbn [perform_note]; rewrite (bind_ok _ E); reflexivity).
    rewrite (bind_ok _ E'). apply IH, Hs'.
  - destruct (removeNote_blocked s t Hs) as (s' & E & Hs').
    assert (perform_note (DoRemoveNote t) s = Ok tt s') as E'
      by (cbn [perform_note]; rewrite (bind_ok _ E); reflexivity).
    rewrite (bind_ok _ E'). apply IH, Hs'.
Qed.

End Blocked.

(** ** The properties of the specification *)

(** C1.  Key uniqueness is an invariant.  From a store whose records have
    pairwise different keys, after every sequence of add, update and delete
    calls the list has pairwise different keys; when the path can be written
    the whole sequence runs without an exception.  An add whose key is
    already there returns [null] ([None]) and leaves the disk exactly as it
    was (for notes: the disk of the manager; its cache holds the list just
    read). *)
Theorem key_uniqueness (R : Runtime) (L : RuntimeLaws R) :
  (forall (ops : list CalculatorOp) (d : Disk) (cs : list Calculator),
      lists_calculators d cs -> NoDup (map oid cs) ->
      (d <> Blocked -> exists d', perform_all ops d = Ok tt d') /\
      exists cs',
        lists_calculators (final (perform_all ops d)) cs' /\
        NoDup (map oid cs'))
  /\
  (forall (d : Disk) (cs : list Calculator) (k : Z) (m : string) (g b : Z),
      lists_calculators d cs -> In k (map oid cs) ->
      CalculatorManager.addCalculator k m g b d = Ok None d)
  /\
  (forall (ops : list NoteOp) (s : NoteManager.State) (ns : list Note),
      lists_notes s ns -> NoDup (map title ns) ->
      (NoteManager.disk s <> Blocked ->
       exists s', perform_all_notes ops s = Ok tt s') /\
      exists ns',
        lists_notes (final (perform_all_notes ops s)) ns' /\
        NoDup (map title ns'))
  /\
  (forall (s : NoteManager.State) (ns : list Note) (t b : string),
      lists_notes s ns -> In t (map title ns) ->
      exists s',
        NoteManager.addNote t b s = Ok None s' /\
        NoteManager.disk s' = NoteManager.disk s /\ lists_notes s' ns).
Proof.
  repeat apply conj.
  - intros ops d cs Hl Hnd. apply lists_calculators_iff in Hl.
    destruct (Disk_blocked_dec d) as [->|Hd].
    + split; [intros F; contradiction|]. exists [].
      rewrite perform_all_blocked. split; [|constructor].
      exists Blocked. reflexivity.
    + destruct (perform_all_keeps ops d cs (conj Hd (conj Hl Hnd)))
        as (d' & cs' & E & (_ & Hc & Hnd')).
      split; [intros _; exists d'; exact E|].
      exists cs'. rewrite E. split; [|exact Hnd'].
      apply lists_calculators_iff, Hc.
  - intros d cs k m g b Hl Hin. apply lists_calculators_iff in Hl.
    rewrite (addCalculator_duplicate d cs k m g b Hl Hin).
    rewrite (listed_is_file d (map toJS cs) (proj2 Hl)); [reflexivity|].
    destruct cs; [destruct Hin|discriminate].
  - intros ops s ns Hl Hnd. apply lists_notes_iff in Hl.
    destruct (Disk_blocked_dec (NoteManager.disk s)) as [Hb|Hd].
    + split; [intros F; contradiction|]. exists [].
      split; [|constructor]. apply lists_notes_iff.
      unfold stores, contents.
      rewrite (perform_all_notes_blocked ops s Hb). split; reflexivity.
    + destruct (perform_all_notes_keeps ops s ns (conj Hd (conj Hl Hnd)))
        as (s' & ns' & E & (_ & Hc & Hnd')).
      split; [intros _; exists s'; exact E|].
      exists ns'. rewrite E. split; [|exact Hnd'].
      apply lists_notes_iff, Hc.
  - intros s ns t b Hl Hin. apply lists_notes_iff in Hl.
    eexists. rewrite (addNote_duplicate s ns t b Hl Hin).
    split; [reflexivity|]. split.
    + cbn. apply (listed_is_file _ (map toJS ns) (proj2 Hl)).
      destruct ns; [destruct Hin|discriminate].
    + apply lists_notes_iff. cbn. apply stores_ensured, Hl.
Qed.

Lemma find_filtered_out {A : Type} (q : A -> bool) (l : list A) :
  List.find q (List.filter (fun a => negb (q a)) l) = None.
Proof.
  apply find_absent. intros a Ha. apply filter_In in Ha.
  destruct Ha as [_ Ha]. apply negb_true_iff. exact Ha.
Qed.

(** C2.  Read-your-writes.  On a store of records: right after an add that
    returned a record, the lookup of its key returns that record, which is
    made of the supplied values; right after an update that returned a
    record, the lookup of the key returns it, and its mutable fields are the
    supplied ones; right after a delete that returned [true], the lookup of
    the key returns [null] ([None]). *)
Theorem read_your_writes (R : Runtime) (L : RuntimeLaws R) :
  (forall (d d' : Disk) (cs : list Calculator) (k : Z) (m : string)
          (g b : Z) (r : JValue),
      lists_calculators d cs ->
      CalculatorManager.addCalculator k m g b d = Ok (Some r) d' ->
      r = calculator_object k m g b /\
      CalculatorManager.getCalculatorByOid k d' = Ok (Some r) d')
  /\
  (forall (d d' : Disk) (cs : list Calculator) (k : Z) (m : string)
          (g b : Z) (r : JValue),
      lists_calculators d cs ->
      CalculatorManager.editCalculator k m g b d = Ok (Some r) d' ->
      r = calculator_object k m g b /\
      CalculatorManager.getCalculatorByOid k d' = Ok (Some r) d')
  /\
  (forall (d d' : Disk) (cs : list Calculator) (k : Z),
      lists_calculators d cs ->
      CalculatorManager.deleteCalculator k d = Ok true d' ->
      CalculatorManager.getCalculatorByOid k d' = Ok None d')
  /\
  (forall (s s' : NoteManager.State) (ns : list Note) (t b : string)
          (r : JValue),
      lists_notes s ns ->
      NoteManager.addNote t b s = Ok (Some r) s' ->
      r = note_object t b /\
      NoteManager.getNoteByTitle t s' = Ok (Some r) s')
  /\
  (forall (s s' : NoteManager.State) (ns : list Note) (t b : string)
          (r : JValue),
      lists_notes s ns ->
      NoteManager.updateNote t b s = Ok (Some r) s' ->
      r = note_object t b /\
      NoteManager.getNoteByTitle t s' = Ok (Some r) s')
  /\
  (forall (s s' : NoteManager.State) (ns : list Note) (t : string),
      lists_notes s ns ->
      NoteManager.removeNote t s = Ok true s' ->
      NoteManager.getNoteByTitle t s' = Ok None s').
Proof.
  repeat apply conj.
  - intros d d' cs k m g b r Hl E. apply lists_calculators_iff in Hl.
    destruct (Disk_blocked_dec d) as [->|Hd];
      [rewrite addCalculator_blocked in E; discriminate|].
    destruct (in_dec Z.eq_dec k (map oid cs)) as [Hin|Hout];
      [rewrite (addCalculator_duplicate d cs k m g b Hl Hin) in E;
       discriminate|].
    rewrite (addCalculator_fresh d cs k m g b Hd Hl Hout) in E.
    injection E as <- <-. split; [reflexivity|].
    rewrite (getCalculatorByOid_run _ _ k (stores_file_of_calculators _)).
    rewrite (find_first (has_oid k) cs []).
    + reflexivity.
    + apply has_oid_absent, Hout.
    + apply Z.eqb_refl.
  - intros d d' cs k m g b r Hl E. apply lists_calculators_iff in Hl.
    destruct (Disk_blocked_dec d) as [->|Hd];
      [rewrite editCalculator_blocked in E; discriminate|].
    destruct (in_dec Z.eq_dec k (map oid cs)) as [Hin|Hout];
      [|rewrite (editCalculator_missing d cs k m g b Hl Hout) in E;
        discriminate].
    destruct (first_occurrence oid k cs Z.eq_dec Hin)
      as (pre & c & post & -> & Hk & Hpre). subst k.
    rewrite (editCalculator_present d pre post c m g b Hd Hl Hpre) in E.
    injection E as <- <-. split; [reflexivity|].
    rewrite (getCalculatorByOid_run _ _ (oid c)
               (stores_file_of_calculators _)).
    rewrite (find_first (has_oid (oid c)) pre post).
    + reflexivity.
    + apply has_oid_absent, Hpre.
    + apply Z.eqb_refl.
  - intros d d' cs k Hl E. apply lists_calculators_iff in Hl.
    destruct (Disk_blocked_dec d) as [->|Hd];
      [rewrite deleteCalculator_blocked in E; discriminate|].
    destruct (in_dec Z.eq_dec k (map oid cs)) as [Hin|Hout];
      [|rewrite (deleteCalculator_missing d cs k Hl Hout) in E;
        discriminate].
    rewrite (deleteCalculator_present d cs k Hd Hl Hin) in E.
    injection E as <-.
    rewrite (getCalculatorByOid_run _ _ k (stores_file_of_calculators _)).
    rewrite (find_filtered_out (has_oid k)). reflexivity.
  - intros s s' ns t b r Hl E. apply lists_notes_iff in Hl.
    destruct (Disk_blocked_dec (NoteManager.disk s)) as [Hb|Hd];
      [destruct (addNote_blocked s t b Hb) as (x & F & _); rewrite F in E;
       discriminate|].
    destruct (in_dec string_dec t (map title ns)) as [Hin|Hout];
      [rewrite (addNote_duplicate s ns t b Hl Hin) in E; discriminate|].
    rewrite (addNote_fresh s ns t b Hd Hl Hout) in E.
    injection E as <- <-. split; [reflexivity|].
    rewrite (getNoteByTitle_run (manager _ _) _ t (stores_file_of_notes _)).
    rewrite (find_first (has_title t) ns []).
    + reflexivity.
    + apply has_title_absent, Hout.
    + apply String.eqb_refl.
  - intros s s' ns t b r Hl E. apply lists_notes_iff in Hl.
    destruct (Disk_blocked_dec (NoteManager.disk s)) as [Hb|Hd];
      [destruct (updateNote_blocked s t b Hb) as (x & F & _); rewrite F in E;
       discriminate|].
    destruct (in_dec string_dec t (map title ns)) as [Hin|Hout];
      [|rewrite (updateNote_missing s ns t b Hl Hout) in E; discriminate].
    destruct (first_occurrence title t ns string_dec Hin)
      as (pre & n & post & -> & Hk & Hpre). subst t.
    rewrite (updateNote_present s pre post n b Hd Hl Hpre) in E.
    injection E as <- <-. split; [reflexivity|].
    rewrite (getNoteByTitle_run (manager _ _) _ (title n)
               (stores_file_of_notes _)).
    rewrite (find_first (has_title (title n)) pre post).
    + reflexivity.
    + apply has_title_absent, Hpre.
    + apply String.eqb_refl.
  - intros s s' ns t Hl E. apply lists_notes_iff in Hl.
    destruct (Disk_blocked_dec (NoteManager.disk s)) as [Hb|Hd];
      [destruct (removeNote_blocked s t Hb) as (x & F & _); rewrite F in E;
       discriminate|].
    destruct (in_dec string_dec t (map title ns)) as [Hin|Hout];
      [|rewrite (removeNote_missing s ns t Hl Hout) in E; discriminate].
    rewrite (removeNote_present s ns t Hd Hl Hin) in E.
    injection E as <-.
    rewrite (getNoteByTitle_run (manager _ _) _ t (stores_file_of_notes _)).
    rewrite (find_filtered_out (has_title t)). reflexivity.
Qed.

Lemma degraded_contents {R : Runtime} {L : RuntimeLaws R} (d : Disk) :
  degraded d -> contents d = [].
Proof.
  intros [| |raw H|raw H|raw v H Hv].
  - apply contents_missing. left. reflexivity.
  - apply contents_missing. right. reflexivity.
  - unfold contents, decode. cbn. rewrite H. reflexivity.
  - unfold contents, decode. cbn. rewrite H.
    destruct (nonempty (trim raw)); reflexivity.
  - unfold contents, decode. cbn. rewrite H.
    destruct (nonempty (trim raw)); [|reflexivity].
    destruct v; try reflexivity. exfalso. exact (Hv _ eq_refl).
Qed.

Lemma degraded_creatable {R : Runtime} (d : Disk) :
  degraded d -> creatable d = true.
Proof. intros []; reflexivity. Qed.

Lemma degraded_stores {R : Runtime} {L : RuntimeLaws R} (d : Disk) :
  degraded d -> stores d [].
Proof.
  intros H. split; [apply degraded_creatable, H|apply degraded_contents, H].
Qed.


(** C5.  Update: frame and atomicity.  When no record has the key, the
    update returns [null] ([None]) and leaves the disk as a read leaves it
    ([ensured d], which is [d] itself when the file exists): nothing is
    written and the list is unchanged.  When [c] is the first record with
    the key, the update returns [c] with its mutable fields replaced and its
    key kept, and the file becomes the whole array with that one record
    replaced in place, every other record as it was. *)
Theorem update_frame (R : Runtime) (L : RuntimeLaws R) :
  (forall (d : Disk) (cs : list Calculator) (k : Z) (m : string) (g b : Z),
      lists_calculators d cs -> ~ In k (map oid cs) ->
      CalculatorManager.editCalculator k m g b d = Ok None (ensured d) /\
      lists_calculators (ensured d) cs /\
      (forall raw, d = File raw -> ensured d = d))
  /\
  (forall (d : Disk) (pre post : list Calculator) (c : Calculator)
          (m : string) (g b : Z),
      d <> Blocked -> lists_calculators d (pre ++ c :: post) ->
      ~ In (oid c) (map oid pre) ->
      let c' := {| oid := oid c; manufacturer := m; grade := g;
                   batteryType := b |} in
      CalculatorManager.editCalculator (oid c) m g b d
      = Ok (Some (toJS c')) (file_of (map toJS (pre ++ c' :: post))) /\
      lists_calculators (file_of (map toJS (pre ++ c' :: post)))
        (pre ++ c' :: post))
  /\
  (forall (s : NoteManager.State) (ns : list Note) (t b : string),
      lists_notes s ns -> ~ In t (map title ns) ->
      exists s',
        NoteManager.updateNote t b s = Ok None s' /\
        NoteManager.disk s' = ensured (NoteManager.disk s) /\
        lists_notes s' ns /\
        (forall raw,
            NoteManager.disk s = File raw -> NoteManager.disk s' = File raw))
  /\
  (forall (s : NoteManager.State) (pre post : list Note) (n : Note)
          (b : string),
      NoteManager.disk s <> Blocked -> lists_notes s (pre ++ n :: post) ->
      ~ In (title n) (map title pre) ->
      let n' := {| title := title n; body := b |} in
      exists s',
        NoteManager.updateNote (title n) b s = Ok (Some (toJS n')) s' /\
        NoteManager.disk s' = file_of (map toJS (pre ++ n' :: post)) /\
        lists_notes s' (pre ++ n' :: post)).
Proof.
  repeat apply conj.
  - intros d cs k m g b Hl Hout. apply lists_calculators_iff in Hl.
    split; [apply (editCalculator_missing d cs k m g b Hl Hout)|].
    split; [|intros raw ->; reflexivity].
    apply lists_calculators_iff. apply stores_ensured, Hl.
  - intros d pre post c m g b Hd Hl Hpre c'.
    apply lists_calculators_iff in Hl.
    split; [apply (editCalculator_present d pre post c m g b Hd Hl Hpre)|].
    apply lists_calculators_iff, stores_file_of_calculators.
  - intros s ns t b Hl Hout. apply lists_notes_iff in Hl.
    eexists. split; [apply (updateNote_missing s ns t b Hl Hout)|].
    split; [reflexivity|]. split; [|cbn; intros raw ->; reflexivity].
    apply lists_notes_iff. cbn. apply stores_ensured, Hl.
  - intros s pre post n b Hd Hl Hpre n'. apply lists_notes_iff in Hl.
    eexists. split; [apply (updateNote_present s pre post n b Hd Hl Hpre)|].
    split; [reflexivity|].
    apply lists_notes_iff. cbn. apply stores_file_of_notes.
Qed.

(** C6.  Delete.  When a record has the key, the delete returns [true] and
    the file becomes the list without the records of that key, the others in
    their order.  When none has it, the delete returns [false] and leaves
    the disk as a read leaves it: nothing is written and the list is
    unchanged. *)
Theorem delete_semantics (R : Runtime) (L : RuntimeLaws R) :
  (forall (d : Disk) (cs : list Calculator) (k : Z),
      d <> Blocked -> lists_calculators d cs -> In k (map oid cs) ->
      let rest := List.filter (fun c => negb (oid c =? k)) cs in
      CalculatorManager.deleteCalculator k d
      = Ok true (file_of (map toJS rest)) /\
      lists_calculators (file_of (map toJS rest)) rest)
  /\
  (forall (d : Disk) (cs : list Calculator) (k : Z),
      lists_calculators d cs -> ~ In k (map oid cs) ->
      CalculatorManager.deleteCalculator k d = Ok false (ensured d) /\
      lists_calculators (ensured d) cs /\
      (forall raw, d = File raw -> ensured d = d))
  /\
  (forall (s : NoteManager.State) (ns : list Note) (t : string),
      NoteManager.disk s <> Blocked -> lists_notes s ns ->
      In t (map title ns) ->
      let rest := List.filter (fun n => negb (title n =? t)%string) ns in
      exists s',
        NoteManager.removeNote t s = Ok true s' /\
        NoteManager.disk s' = file_of (map toJS rest) /\
        lists_notes s' rest)
  /\
  (forall (s : NoteManager.State) (ns : list Note) (t : string),
      lists_notes s ns -> ~ In t (map title ns) ->
      exists s',
        NoteManager.removeNote t s = Ok false s' /\
        NoteManager.disk s' = ensured (NoteManager.disk s) /\
        lists_notes s' ns /\
        (forall raw,
            NoteManager.disk s = File raw -> NoteManager.disk s' = File raw)).
Proof.
  repeat apply conj.
  - intros d cs k Hd Hl Hin rest. apply lists_calculators_iff in Hl.
    split; [apply (deleteCalculator_present d cs k Hd Hl Hin)|].
    apply lists_calculators_iff, stores_file_of_calculators.
  - intros d cs k Hl Hout. apply lists_calculators_iff in Hl.
    split; [apply (deleteCalculator_missing d cs k Hl Hout)|].
    split; [|intros raw ->; reflexivity].
    apply lists_calculators_iff. apply stores_ensured, Hl.
  - intros s ns t Hd Hl Hin rest. apply lists_notes_iff in Hl.
    eexists. split; [apply (removeNote_present s ns t Hd Hl Hin)|].
    split; [reflexivity|].
    apply lists_notes_iff. cbn. apply stores_file_of_notes.
  - intros s ns t Hl Hout. apply lists_notes_iff in Hl.
    eexists. split; [apply (removeNote_missing s ns t Hl Hout)|].
    split; [reflexivity|]. split; [|cbn; intros raw ->; reflexivity].
    apply lists_notes_iff. cbn. apply stores_ensured, Hl.
Qed.

(** C8.  Successful add.  When no record has the key, the add builds the
    record from the supplied values, writes the array made of the former
    records in their order followed by the new one, and returns the new
    record. *)
Theorem add_appends (R : Runtime) (L : RuntimeLaws R) :
  (forall (d : Disk) (cs : list Calculator) (k : Z) (m : string) (g b : Z),
      d <> Blocked -> lists_calculators d cs -> ~ In k (map oid cs) ->
      let c := {| oid := k; manufacturer := m; grade := g;
                  batteryType := b |} in
      CalculatorManager.addCalculator k m g b d
      = Ok (Some (toJS c)) (file_of (map toJS (cs ++ [c]))) /\
      lists_calculators (file_of (map toJS (cs ++ [c]))) (cs ++ [c]))
  /\
  (forall (s : NoteManager.State) (ns : list Note) (t b : string),
      NoteManager.disk s <> Blocked -> lists_notes s ns ->
      ~ In t (map title ns) ->
      let n := {| title := t; body := b |} in
      exists s',
        NoteManager.addNote t b s = Ok (Some (toJS n)) s' /\
        NoteManager.disk s' = file_of (map toJS (ns ++ [n])) /\
        lists_notes s' (ns ++ [n])).
Proof.
  split.
  - intros d cs k m g b Hd Hl Hout c. apply lists_calculators_iff in Hl.
    split; [apply (addCalculator_fresh d cs k m g b Hd Hl Hout)|].
    apply lists_calculators_iff, stores_file_of_calculators.
  - intros s ns t b Hd Hl Hout n. apply lists_notes_iff in Hl.
    eexists. split; [apply (addNote_fresh s ns t b Hd Hl Hout)|].
    split; [reflexivity|].
    apply lists_notes_iff. cbn. apply stores_file_of_notes.
Qed.

(** C9.  Persistence round trip.  Writing a collection of records to a path
    that can be written (the file is there, or it can be created) succeeds,
    and reading the file back gives the same records in the same order;
    and whenever a write of the records returns, on any disk, reading the
    file back gives these records in this order.  For notes the restart is
    the constructor of a new manager on the disk that was written. *)
Theorem persistence_round_trip (R : Runtime) (L : RuntimeLaws R) :
  (forall (d : Disk) (cs : list Calculator),
      d <> Blocked -> creatable d = true ->
      exists d',
        CalculatorManager.writeAll (map toJS cs) d = Ok tt d' /\
        CalculatorManager.readAll d' = Ok (map toJS cs) d')
  /\
  (forall (d d' : Disk) (cs : list Calculator),
      CalculatorManager.writeAll (map toJS cs) d = Ok tt d' ->
      CalculatorManager.readAll d' = Ok (map toJS cs) d')
  /\
  (forall (s : NoteManager.State) (ns : list Note),
      NoteManager.disk s <> Blocked ->
      creatable (NoteManager.disk s) = true ->
      NoteManager.notes s = map toJS ns ->
      exists s',
        NoteManager.saveNotes s = Ok tt s' /\
        NoteManager.constructor (NoteManager.disk s') = Ok tt s' /\
        NoteManager.loadNotes s' = Ok (map toJS ns) s')
  /\
  (forall (s s' : NoteManager.State) (ns : list Note),
      NoteManager.notes s = map toJS ns ->
      NoteManager.saveNotes s = Ok tt s' ->
      NoteManager.constructor (NoteManager.disk s') = Ok tt s' /\
      NoteManager.loadNotes s' = Ok (map toJS ns) s').
Proof.
  assert (forall ns : list Note,
             NoteManager.constructor (file_of (map toJS ns))
             = Ok tt (manager (file_of (map toJS ns)) ns) /\
             NoteManager.loadNotes (manager (file_of (map toJS ns)) ns)
             = Ok (map toJS ns) (manager (file_of (map toJS ns)) ns)) as N.
  { intros ns. split.
    - unfold NoteManager.constructor.
      assert (NoteManager.loadNotes
                {| NoteManager.disk := file_of (map toJS ns);
                   NoteManager.notes := [] |}
              = Ok (map toJS ns) (manager (file_of (map toJS ns)) ns)) as E0.
      { rewrite (loadNotes_typed _ ns); [reflexivity|].
        apply stores_file_of_notes. }
      rewrite (bind_ok _ E0). reflexivity.
    - rewrite (loadNotes_typed _ ns); [reflexivity|].
      apply stores_file_of_notes. }
  assert (forall (d : Disk) (cs : list Calculator),
             d <> Blocked -> creatable d = true ->
             CalculatorManager.writeAll (map toJS cs) d
             = Ok tt (file_of (map toJS cs)) /\
             CalculatorManager.readAll (file_of (map toJS cs))
             = Ok (map toJS cs) (file_of (map toJS cs))) as W.
  { intros d cs Hd C. split; [apply (writeAll_run _ d Hd C)|].
    apply (readAll_stores _ _ (stores_file_of_calculators cs)). }
  repeat apply conj.
  - intros d cs Hd C. eexists. exact (W d cs Hd C).
  - intros d d' cs E.
    destruct (writeAll_returns _ _ _ E) as [Hd C].
    destruct (W d cs Hd C) as [E1 E2]. rewrite E1 in E.
    injection E as <-. exact E2.
  - intros [d cache] ns Hd C Hn. cbn in Hd, C, Hn. subst cache.
    exists (manager (file_of (map toJS ns)) ns).
    split; [apply (saveNotes_typed d ns Hd C)|]. apply (N ns).
  - intros [d cache] s' ns Hn E. cbn in Hn. subst cache.
    destruct (saveNotes_returns _ _ E) as [Hd C]. cbn in Hd, C.
    change (NoteManager.saveNotes (manager d ns) = Ok tt s') in E.
    rewrite (saveNotes_typed d ns Hd C) in E. injection E as <-.
    apply (N ns).
Qed.

(** C10.  The managers put no constraint on field contents.  Whatever the
    values, an add with a key that is not there returns the record made of
    exactly these values, and so does an update with a key that is there;
    the store then holds it under the key. *)
Theorem no_field_constraints (R : Runtime) (L : RuntimeLaws R) :
  (forall (d : Disk) (cs : list Calculator) (k : Z) (m : string) (g b : Z),
      d <> Blocked -> lists_calculators d cs -> ~ In k (map oid cs) ->
      exists d',
        CalculatorManager.addCalculator k m g b d
        = Ok (Some (calculator_object k m g b)) d' /\
        CalculatorManager.getCalculatorByOid k d'
        = Ok (Some (calculator_object k m g b)) d')
  /\
  (forall (d : Disk) (cs : list Calculator) (k : Z) (m : string) (g b : Z),
      d <> Blocked -> lists_calculators d cs -> In k (map oid cs) ->
      exists d',
        CalculatorManager.editCalculator k m g b d
        = Ok (Some (calculator_object k m g b)) d' /\
        CalculatorManager.getCalculatorByOid k d'
        = Ok (Some (calculator_object k m g b)) d')
  /\
  (forall (s : NoteManager.State) (ns : list Note) (t b : string),
      NoteManager.disk s <> Blocked -> lists_notes s ns ->
      ~ In t (map title ns) ->
      exists s',
        NoteManager.addNote t b s = Ok (Some (note_object t b)) s' /\
        NoteManager.getNoteByTitle t s' = Ok (Some (note_object t b)) s')
  /\
  (forall (s : NoteManager.State) (ns : list Note) (t b : string),
      NoteManager.disk s <> Blocked -> lists_notes s ns ->
      In t (map title ns) ->
      exists s',
        NoteManager.updateNote t b s = Ok (Some (note_object t b)) s' /\
        NoteManager.getNoteByTitle t s' = Ok (Some (note_object t b)) s').
Proof.
  repeat apply conj.
  - intros d cs k m g b Hd Hl Hout. apply lists_calculators_iff in Hl.
    eexists. split; [apply (addCalculator_fresh d cs k m g b Hd Hl Hout)|].
    rewrite (getCalculatorByOid_run _ _ k (stores_file_of_calculators _)).
    rewrite (find_first (has_oid k) cs []).
    + reflexivity.
    + apply has_oid_absent, Hout.
    + apply Z.eqb_refl.
  - intros d cs k m g b Hd Hl Hin. apply lists_calculators_iff in Hl.
    destruct (first_occurrence oid k cs Z.eq_dec Hin)
      as (pre & c & post & -> & Hk & Hpre). subst k.
    eexists.
    split; [apply (editCalculator_present d pre post c m g b Hd Hl Hpre)|].
    rewrite (getCalculatorByOid_run _ _ (oid c)
               (stores_file_of_calculators _)).
    rewrite (find_first (has_oid (oid c)) pre post).
    + reflexivity.
    + apply has_oid_absent, Hpre.
    + apply Z.eqb_refl.
  - intros s ns t b Hd Hl Hout. apply lists_notes_iff in Hl.
    eexists. split; [apply (addNote_fresh s ns t b Hd Hl Hout)|].
    rewrite (getNoteByTitle_run (manager _ _) _ t (stores_file_of_notes _)).
    rewrite (find_first (has_title t) ns []).
    + reflexivity.
    + apply has_title_absent, Hout.
    + apply String.eqb_refl.
  - intros s ns t b Hd Hl Hin. apply lists_notes_iff in Hl.
    destruct (first_occurrence title t ns string_dec Hin)
      as (pre & n & post & -> & Hk & Hpre). subst t.
    eexists.
    split; [apply (updateNote_present s pre post n b Hd Hl Hpre)|].
    rewrite (getNoteByTitle_run (manager _ _) _ (title n)
               (stores_file_of_notes _)).
    rewrite (find_first (has_title (title n)) pre post).
    + reflexivity.
    + apply has_title_absent, Hpre.
    + apply String.eqb_refl.
Qed.


(** ** The controllers *)

Module CalculatorForms.
Import CalculatorController.

Section WithRuntime.
Context {R : Runtime}.

Lemma renderForm_values (mode : Mode) (action : string)
  (existing : option JValue) (v : Values.t) (error : option string) :
  renderForm {| CalculatorController.mode := mode;
                CalculatorController.action := action;
                calculator := existing;
                values := Some v;
                CalculatorController.error := error |}
  = calculator_form mode action v error.
Proof.
  unfold renderForm, calculator_form. cbn.
  destruct existing as [c|]; [destruct (truthy c)|]; reflexivity.
Qed.

Lemma isIntInRange_iff (value min max : Z) :
  isIntInRange value min max = true <-> min <= value <= max.
Proof. unfold isIntInRange. cbn. rewrite andb_true_iff. lia. Qed.

Lemma validateFields_cases (m : string) (gr bt : option Z) :
  validateFields m gr bt
  = match gr, bt with
    | Some g, Some b =>
        if negb (nonempty m) then
          {| ok := false; error_text := genericError |}
        else if negb (isIntInRange g gradeMin gradeMax)
                || negb (isIntInRange b batteryMin batteryMax) then
          {| ok := false; error_text := genericError |}
        else {| ok := true; error_text := "" |}
    | _, _ => {| ok := false; error_text := genericError |}
    end.
Proof.
  unfold validateFields. destruct gr, bt, (nonempty m); reflexivity.
Qed.

Lemma validateFields_ok (m : string) (gr bt : option Z) :
  ok (validateFields m gr bt) = true <->
  m <> "" /\ within_bounds gr bt.
Proof.
  rewrite validateFields_cases.
  unfold within_bounds, gradeMin, gradeMax, batteryMin, batteryMax.
  destruct gr as [g|], bt as [b|];
    try (split; [discriminate|intros (_ & g' & b' & Hg & Hb & _);
                               discriminate]).
  unfold nonempty. destruct (String.eqb_spec m "") as [->|Hm]; cbn [negb].
  - split; [discriminate|]. intros [H _]. contradiction.
  - destruct (isIntInRange g 0 10) eqn:Eg, (isIntInRange b 1 3) eqn:Eb;
      cbn [negb orb ok].
    + apply isIntInRange_iff in Eg, Eb. split; [|reflexivity]. intros _.
      split; [exact Hm|]. exists g, b. repeat split; try lia.
    + split; [discriminate|]. intros (_ & g' & b' & Hg & Hb & _ & H).
      injection Hb as <-.
      assert (isIntInRange b 1 3 = true) as F
        by (apply isIntInRange_iff; lia).
      rewrite F in Eb. discriminate.
    + split; [discriminate|]. intros (_ & g' & b' & Hg & Hb & H & _).
      injection Hg as <-.
      assert (isIntInRange g 0 10 = true) as F
        by (apply isIntInRange_iff; lia).
      rewrite F in Eg. discriminate.
    + split; [discriminate|]. intros (_ & g' & b' & Hg & Hb & H & _).
      injection Hg as <-.
      assert (isIntInRange g 0 10 = true) as F
        by (apply isIntInRange_iff; lia).
      rewrite F in Eg. discriminate.
Qed.

Lemma validateFields_failure (m : string) (gr bt : option Z) :
  ok (validateFields m gr bt) = false ->
  validateFields m gr bt = {| ok := false; error_text := genericError |}.
Proof.
  rewrite validateFields_cases. destruct gr, bt; try reflexivity.
  destruct (negb (nonempty m)); [reflexivity|].
  destruct (_ || _); [reflexivity|discriminate].
Qed.

Lemma parseInt_string (s : string) (z : Z) :
  parseInt (UString s) = Some z <->
  trim s <> "" /\ Number (trim s) = NInt z.
Proof.
  cbn [parseInt]. unfold nonempty.
  destruct (String.eqb_spec (trim s) "") as [E|E]; cbn [negb].
  - split; [discriminate|]. intros [H _]. contradiction.
  - destruct (Number (trim s)) as [z'|]; cbn.
    + split.
      * intros [= ->]. split; [exact E|reflexivity].
      * intros [_ [= ->]]. reflexivity.
    + split; [discriminate|]. intros [_ H]. discriminate.
Qed.

Lemma calculator_postCreate_rejected (body : Body.t) (ctx : Ctx) :
  calculator_create_rejected body ->
  postCreate body ctx
  = Ok (calculator_form Add "/calculators/create" (create_values body)
          (Some genericError)) ctx.
Proof.
  unfold calculator_create_rejected, postCreate. cbn zeta. intros H.
  rewrite renderForm_values.
  destruct (Parsed.oid (parseFormBody body)) as [o|] eqn:Eo;
    [|reflexivity].
  destruct H as [H|H]; [discriminate|].
  destruct (Parsed.grade (parseFormBody body)) as [g|];
    [|reflexivity].
  destruct (Parsed.batteryType (parseFormBody body)) as [b|];
    [|reflexivity].
  rewrite H. reflexivity.
Qed.

Lemma call_final {A : Type} (which : Call) (method : M Disk A) (ctx : Ctx) :
  calls (final (call which method ctx)) = calls ctx ++ [which].
Proof.
  unfold call, zoom. cbn. destruct (method (calculatorManager ctx));
    reflexivity.
Qed.

Lemma calculator_postEdit_rejected (oid : string) (o : Z) (body : Body.t)
  (ctx : Ctx) :
  parseInt (UString oid) = Some o -> calculator_edit_rejected body ->
  postEdit oid body ctx
  = match call (GetCalculatorByOid o)
            (CalculatorManager.getCalculatorByOid o) ctx with
    | Ok _ ctx' =>
        Ok (calculator_form Edit
              ("/calculators/edit/" ++ encodeURIComponent oid)
              (edit_values o body) (Some genericError)) ctx'
    | Throw e ctx' => Throw e ctx'
    end.
Proof.
  unfold calculator_edit_rejected, postEdit. cbn zeta. intros -> H.
  assert (forall (A B : Type) (c : M Ctx A) (k : A -> M Ctx B),
            bind c k ctx
            = match c ctx return Outcome Ctx B with
              | Ok a ctx' => k a ctx'
              | Throw e ctx' => Throw e ctx'
              end) as B by reflexivity.
  destruct (Parsed.grade (parseFormBody body)) as [g|];
    [destruct (Parsed.batteryType (parseFormBody body)) as [b|]|];
    try rewrite H; cbn [negb]; rewrite B;
    destruct (call _ _ ctx); try reflexivity;
    cbn [ret M_monad]; rewrite renderForm_values; reflexivity.
Qed.

Lemma call_run {A : Type} (which : Call) (method : M Disk A) (ctx : Ctx)
  (a : A) (d' : Disk) :
  method (calculatorManager ctx) = Ok a d' ->
  call which method ctx = Ok a (calculator_called ctx which d').
Proof. intros H. unfold call, zoom. cbn. rewrite H. reflexivity. Qed.

Lemma call_throw {A : Type} (which : Call) (method : M Disk A) (ctx : Ctx)
  (e : Exn) (d' : Disk) :
  method (calculatorManager ctx) = Throw e d' ->
  call which method ctx = Throw e (calculator_called ctx which d').
Proof. intros H. unfold call, zoom. cbn. rewrite H. reflexivity. Qed.

Lemma accepted_ok (body : Body.t) (g b : Z) :
  calculator_accepted body g b ->
  ok (validateFields (Parsed.manufacturer (parseFormBody body))
        (Parsed.grade (parseFormBody body))
        (Parsed.batteryType (parseFormBody body))) = true.
Proof.
  intros (Hg & Hb & Hm & Bg & Bb). apply validateFields_ok.
  split; [exact Hm|]. exists g, b. cbn. repeat split; auto; lia.
Qed.

Lemma postCreate_run (body : Body.t) (ctx : Ctx) (k g b : Z) :
  parseInt (unknown_of (Body.oid body)) = Some k ->
  calculator_accepted body g b ->
  let m := trim_or_empty (Body.manufacturer body) in
  postCreate body ctx
  = (stored <- call (AddCalculator k m g b)
                 (CalculatorManager.addCalculator k m g b) ;;
     if negb (truthy_any stored) then
       ret (calculator_form Add "/calculators/create"
              {| Values.oid := String_of_number k;
                 Values.manufacturer := m;
                 Values.grade := String_of_number g;
                 Values.batteryType := String_of_number b |}
              (Some genericError))
     else ret (Redirect "/calculators")) ctx.
Proof.
  intros Hk Ha m. pose proof (accepted_ok body g b Ha) as Hok.
  destruct Ha as (Hg & Hb & _).
  unfold postCreate. cbn zeta. rewrite Hok.
  change (Parsed.oid (parseFormBody body))
    with (parseInt (unknown_of (Body.oid body))).
  change (Parsed.grade (parseFormBody body))
    with (parseInt (unknown_of (Body.grade body))).
  change (Parsed.batteryType (parseFormBody body))
    with (parseInt (unknown_of (Body.batteryType body))).
  change (Parsed.manufacturer (parseFormBody body)) with m.
  rewrite Hk, Hg, Hb. cbn [negb].
  rewrite renderForm_values. reflexivity.
Qed.

Lemma postCreate_duplicate (body : Body.t) (ctx : Ctx) (cs : list Calculator)
  (k g b : Z) :
  parseInt (unknown_of (Body.oid body)) = Some k ->
  calculator_accepted body g b ->
  stores (calculatorManager ctx) (map toJS cs) -> In k (map oid cs) ->
  let m := trim_or_empty (Body.manufacturer body) in
  postCreate body ctx
  = Ok (calculator_form Add "/calculators/create"
          {| Values.oid := String_of_number k;
             Values.manufacturer := m;
             Values.grade := String_of_number g;
             Values.batteryType := String_of_number b |}
          (Some genericError))
       (calculator_called ctx (AddCalculator k m g b)
          (ensured (calculatorManager ctx))).
Proof.
  intros Hk Ha Hl Hdup m. rewrite (postCreate_run body ctx k g b Hk Ha).
  cbn zeta.
  rewrite (bind_ok _ (call_run _ _ ctx _ _
                        (addCalculator_duplicate _ cs k m g b Hl Hdup))).
  reflexivity.
Qed.

End WithRuntime.

End CalculatorForms.

Module NoteForms.
Import NoteController.

Section WithRuntime.
Context {R : Runtime}.

Lemma note_postCreate_rejected (form : Body.t) (ctx : Ctx) :
  note_create_rejected form ->
  postCreate form ctx
  = Ok (note_form Add "/notes/create"
          (JStr (trim_or_empty (Body.title form)))
          (JStr (trim_or_empty (Body.body form)))
          (Some "Both title and body are required.")) ctx.
Proof.
  unfold note_create_rejected, postCreate. intros H.
  assert (negb (nonempty (trim_or_empty (Body.title form)))
          || negb (nonempty (trim_or_empty (Body.body form))) = true) as ->.
  { destruct H as [-> | ->]; [reflexivity|]. apply orb_true_r. }
  reflexivity.
Qed.

Lemma note_postUpdate_rejected (t : string) (form : Body.t) (ctx : Ctx)
  (ns : list Note) :
  note_update_rejected form -> lists_notes (noteManager ctx) ns ->
  exists ctx',
    postUpdate t form ctx
    = Ok (match List.find (has_title t) ns with
          | Some n =>
              note_form Edit ("/notes/update/" ++ encodeURIComponent t)
                (JStr (title n)) (JStr (body n)) (Some "Body is required.")
          | None =>
              note_form Edit ("/notes/update/" ++ encodeURIComponent t)
                (JStr t) (JStr "") (Some "Body is required.")
          end) ctx' /\
    calls ctx' = calls ctx ++ [GetNoteByTitle t].
Proof.
  unfold note_update_rejected, postUpdate. intros -> Hl.
  apply lists_notes_iff in Hl. cbn [nonempty String.eqb negb].
  assert (call (GetNoteByTitle t) (NoteManager.getNoteByTitle t) ctx
          = Ok (option_map toJS (List.find (has_title t) ns))
               {| noteManager :=
                    manager (ensured (NoteManager.disk (noteManager ctx))) ns;
                  calls := calls ctx ++ [GetNoteByTitle t] |}) as E.
  { unfold call, zoom. cbn [noteManager].
    rewrite (getNoteByTitle_run (noteManager ctx) ns t Hl). reflexivity. }
  exists {| noteManager :=
              manager (ensured (NoteManager.disk (noteManager ctx))) ns;
            calls := calls ctx ++ [GetNoteByTitle t] |}.
  rewrite (bind_ok _ E). split; [|reflexivity].
  cbn [ret M_monad]. destruct (List.find (has_title t) ns); reflexivity.
Qed.

Lemma note_call_run {A : Type} (which : Call) (method : M NoteManager.State A)
  (ctx : Ctx) (a : A) (s' : NoteManager.State) :
  method (noteManager ctx) = Ok a s' ->
  call which method ctx = Ok a (note_called ctx which s').
Proof. intros H. unfold call, zoom. cbn. rewrite H. reflexivity. Qed.


Lemma note_postCreate_run (form : Body.t) (ctx : Ctx) :
  let t := trim_or_empty (Body.title form) in
  let b := trim_or_empty (Body.body form) in
  t <> "" -> b <> "" ->
  postCreate form ctx
  = (stored <- call (AddNote t b) (NoteManager.addNote t b) ;;
     if negb (truthy_any stored) then
       ret (note_form Add "/notes/create" (JStr t) (JStr b)
              (Some "A note with that title already exists."))
     else ret (Redirect "/notes/index")) ctx.
Proof.
  intros t b Ht Hb. unfold postCreate.
  fold t. fold b. rewrite (nonempty_true t Ht), (nonempty_true b Hb).
  reflexivity.
Qed.

Lemma note_postCreate_duplicate (form : Body.t) (ctx : Ctx) (ns : list Note) :
  let t := trim_or_empty (Body.title form) in
  let b := trim_or_empty (Body.body form) in
  t <> "" -> b <> "" ->
  stores (NoteManager.disk (noteManager ctx)) (map toJS ns) ->
  In t (map title ns) ->
  postCreate form ctx
  = Ok (note_form Add "/notes/create" (JStr t) (JStr b)
          (Some "A note with that title already exists."))
       (note_called ctx (AddNote t b)
          (manager (ensured (NoteManager.disk (noteManager ctx))) ns)).
Proof.
  intros t b Ht Hb Hl Hdup. rewrite (note_postCreate_run form ctx Ht Hb).
  rewrite (bind_ok _ (note_call_run _ _ ctx _ _
                        (addNote_duplicate _ ns t b Hl Hdup))).
  reflexivity.
Qed.

End WithRuntime.

End NoteForms.

(** C7.  Calculator validation bounds.  The validator accepts only a grade
    and a battery type that parsed to integers with [0 <= grade <= 10] and
    [batteryType] one of 1, 2, 3; [parseInt] gives a value exactly when
    [Number] of the trimmed text is an integer, that integer.  Any other
    grade or battery type is answered by the generic failure; the create
    handler then redisplays the form with the generic error without any call
    of the manager, and the edit handler calls nothing but the lookup of the
    record. *)
Theorem validation_bounds (R : Runtime) :
  (forall (m : string) (gr bt : option Z),
      CalculatorController.ok (CalculatorController.validateFields m gr bt)
      = true ->
      within_bounds gr bt)
  /\
  (forall (s : string) (z : Z),
      CalculatorController.parseInt (UString s) = Some z <->
      trim s <> "" /\ Number (trim s) = NInt z)
  /\
  (forall (m : string) (gr bt : option Z),
      ~ within_bounds gr bt ->
      CalculatorController.validateFields m gr bt
      = {| CalculatorController.ok := false;
           CalculatorController.error_text :=
             CalculatorController.genericError |})
  /\
  (forall (body : CalculatorController.Body.t) (ctx : CalculatorController.Ctx),
      ~ within_bounds
          (CalculatorController.parseInt
             (unknown_of (CalculatorController.Body.grade body)))
          (CalculatorController.parseInt
             (unknown_of (CalculatorController.Body.batteryType body))) ->
      exists locals,
        CalculatorController.postCreate body ctx
        = Ok (CalculatorController.Render "calculators/calculatorForm" locals)
             ctx /\
        CalculatorController.Locals.error locals
        = Some CalculatorController.genericError)
  /\
  (forall (oid : string) (o : Z) (body : CalculatorController.Body.t)
          (ctx : CalculatorController.Ctx),
      CalculatorController.parseInt (UString oid) = Some o ->
      ~ within_bounds
          (CalculatorController.parseInt
             (unknown_of (CalculatorController.Body.grade body)))
          (CalculatorController.parseInt
             (unknown_of (CalculatorController.Body.batteryType body))) ->
      CalculatorController.calls
        (final (CalculatorController.postEdit oid body ctx))
      = CalculatorController.calls ctx
        ++ [CalculatorController.GetCalculatorByOid o] /\
      forall resp ctx',
        CalculatorController.postEdit oid body ctx = Ok resp ctx' ->
        exists locals,
          resp = CalculatorController.Render "calculators/calculatorForm"
                   locals /\
          CalculatorController.Locals.error locals
          = Some CalculatorController.genericError).
Proof.
  assert (forall m gr bt, ~ within_bounds gr bt ->
            CalculatorController.ok
              (CalculatorController.validateFields m gr bt) = false) as Hno.
  { intros m gr bt H.
    destruct (CalculatorController.ok _) eqn:E; [|reflexivity].
    apply CalculatorForms.validateFields_ok in E. destruct E as [_ E].
    contradiction. }
  repeat apply conj.
  - intros m gr bt H. apply CalculatorForms.validateFields_ok in H. apply H.
  - apply CalculatorForms.parseInt_string.
  - intros m gr bt H. apply CalculatorForms.validateFields_failure, Hno, H.
  - intros body ctx H. eexists.
    rewrite CalculatorForms.calculator_postCreate_rejected.
    + split; reflexivity.
    + right. apply Hno, H.
  - intros oid o body ctx Ho H.
    rewrite (CalculatorForms.calculator_postEdit_rejected oid o body ctx Ho)
      by (apply Hno, H).
    pose proof (CalculatorForms.call_final
                  (CalculatorController.GetCalculatorByOid o)
                  (CalculatorManager.getCalculatorByOid o) ctx) as Hc.
    destruct (CalculatorController.call _ _ ctx) as [a c1|e c1];
      cbn [final] in *.
    + split; [exact Hc|]. intros resp ctx' [= <- <-]. eexists.
      split; reflexivity.
    + split; [exact Hc|]. intros resp ctx' [=].
Qed.

(** C3, as amended.  A create form of a calculator that fails the
    validation is redisplayed with the raw text of [oid], [grade] and
    [batteryType] (the empty string for a field that was not sent) and with
    the trimmed manufacturer; a create form of a note that fails the
    validation with the trimmed title and the trimmed body.  An edit form
    of a calculator that fails the validation carries the text that [String]
    gives of the parsed route [oid], the trimmed manufacturer and the raw
    grade and battery type; an update form of a note that fails the
    validation carries the stored note when there is one, otherwise the
    route title and an empty body.  A create form that passes the validation
    and is rejected because its key is stored already is redisplayed, for a
    calculator, with the text that [String] gives of the parsed [oid],
    [grade] and [batteryType] and with the trimmed manufacturer, and for a
    note with the trimmed title and the trimmed body. *)
Theorem rejected_form_values (R : Runtime) :
  (forall (body : CalculatorController.Body.t) (ctx : CalculatorController.Ctx),
      calculator_create_rejected body ->
      CalculatorController.postCreate body ctx
      = Ok (calculator_form Add "/calculators/create"
              {| CalculatorController.Values.oid :=
                   or_empty (CalculatorController.Body.oid body);
                 CalculatorController.Values.manufacturer :=
                   trim_or_empty (CalculatorController.Body.manufacturer body);
                 CalculatorController.Values.grade :=
                   or_empty (CalculatorController.Body.grade body);
                 CalculatorController.Values.batteryType :=
                   or_empty (CalculatorController.Body.batteryType body) |}
              (Some CalculatorController.genericError)) ctx)
  /\
  (forall (form : NoteController.Body.t) (ctx : NoteController.Ctx),
      note_create_rejected form ->
      NoteController.postCreate form ctx
      = Ok (note_form Add "/notes/create"
              (JStr (trim_or_empty (NoteController.Body.title form)))
              (JStr (trim_or_empty (NoteController.Body.body form)))
              (Some "Both title and body are required.")) ctx)
  /\
  (forall (oid : string) (o : Z) (body : CalculatorController.Body.t)
          (ctx ctx' : CalculatorController.Ctx)
          (resp : CalculatorController.Response),
      CalculatorController.parseInt (UString oid) = Some o ->
      calculator_edit_rejected body ->
      CalculatorController.postEdit oid body ctx = Ok resp ctx' ->
      resp = calculator_form Edit
               ("/calculators/edit/" ++ encodeURIComponent oid)
               {| CalculatorController.Values.oid := String_of_number o;
                  CalculatorController.Values.manufacturer :=
                    trim_or_empty
                      (CalculatorController.Body.manufacturer body);
                  CalculatorController.Values.grade :=
                    or_empty (CalculatorController.Body.grade body);
                  CalculatorController.Values.batteryType :=
                    or_empty (CalculatorController.Body.batteryType body) |}
               (Some CalculatorController.genericError))
  /\
  (forall (t : string) (form : NoteController.Body.t)
          (ctx : NoteController.Ctx) (ns : list Note),
      note_update_rejected form ->
      lists_notes (NoteController.noteManager ctx) ns ->
      exists ctx',
        NoteController.postUpdate t form ctx
        = Ok (match List.find (fun n => (title n =? t)%string) ns with
              | Some n =>
                  note_form Edit
                    ("/notes/update/" ++ encodeURIComponent t)
                    (JStr (title n)) (JStr (body n))
                    (Some "Body is required.")
              | None =>
                  note_form Edit
                    ("/notes/update/" ++ encodeURIComponent t)
                    (JStr t) (JStr "") (Some "Body is required.")
              end) ctx')
  /\
  (forall (body : CalculatorController.Body.t)
          (ctx : CalculatorController.Ctx) (cs : list Calculator)
          (k g b : Z),
      CalculatorController.parseInt
        (unknown_of (CalculatorController.Body.oid body)) = Some k ->
      calculator_accepted body g b ->
      lists_calculators (CalculatorController.calculatorManager ctx) cs ->
      In k (map oid cs) ->
      exists ctx',
        CalculatorController.postCreate body ctx
        = Ok (calculator_form Add "/calculators/create"
                {| CalculatorController.Values.oid := String_of_number k;
                   CalculatorController.Values.manufacturer :=
                     trim_or_empty
                       (CalculatorController.Body.manufacturer body);
                   CalculatorController.Values.grade := String_of_number g;
                   CalculatorController.Values.batteryType :=
                     String_of_number b |}
                (Some CalculatorController.genericError)) ctx')
  /\
  (forall (form : NoteController.Body.t) (ctx : NoteController.Ctx)
          (ns : list Note),
      ~ note_create_rejected form ->
      lists_notes (NoteController.noteManager ctx) ns ->
      In (trim_or_empty (NoteController.Body.title form)) (map title ns) ->
      exists ctx',
        NoteController.postCreate form ctx
        = Ok (note_form Add "/notes/create"
                (JStr (trim_or_empty (NoteController.Body.title form)))
                (JStr (trim_or_empty (NoteController.Body.body form)))
                (Some "A note with that title already exists.")) ctx').
Proof.
  repeat apply conj.
  - intros body ctx H. apply CalculatorForms.calculator_postCreate_rejected, H.
  - intros form ctx H. apply NoteForms.note_postCreate_rejected, H.
  - intros oid o body ctx ctx' resp Ho H E.
    rewrite (CalculatorForms.calculator_postEdit_rejected oid o body ctx Ho H)
      in E.
    destruct (CalculatorController.call _ _ ctx); [|discriminate].
    injection E as <- _. reflexivity.
  - intros t form ctx ns H Hl.
    destruct (NoteForms.note_postUpdate_rejected t form ctx ns H Hl)
      as (ctx' & E & _).
    exists ctx'. exact E.
  - intros body ctx cs k g b Hk Ha Hl Hdup. apply lists_calculators_iff in Hl.
    eexists.
    apply (CalculatorForms.postCreate_duplicate body ctx cs k g b Hk Ha Hl
             Hdup).
  - intros form ctx ns Hv Hl Hdup. apply lists_notes_iff in Hl.
    eexists.
    apply (NoteForms.note_postCreate_duplicate form ctx ns); auto.
    + intros E. apply Hv. left. exact E.
    + intros E. apply Hv. right. exact E.
Qed.

(** ** The properties on the reference run time *)

(** Five calls on a fresh disk, one of them a duplicate add: the keys of
    the final list are pairwise different. *)
Lemma key_uniqueness_witness :
  exists cs',
    lists_calculators (R := Reference.runtime)
      (final
         (perform_all (R := Reference.runtime)
            [DoAdd 7 "Acme" 5 2; DoAdd 7 "Other" 1 1; DoEdit 7 "Acme" 6 3;
             DoAdd 8 "Bolt" 0 1; DoDelete 7] NoFile)) cs' /\
    NoDup (map oid cs').
Proof.
  apply (proj1 (key_uniqueness Reference.runtime
                  ReferenceFacts.reference_laws) _ NoFile []).
  - exists (File "[]"). reflexivity.
  - constructor.
Defined.

(** After the add of [acme] on a fresh disk, the lookup of 7 returns it. *)
Lemma read_your_writes_witness :
  toJS acme = calculator_object 7 "Acme" 5 2 /\
  CalculatorManager.getCalculatorByOid (R := Reference.runtime) 7
    (file_of (R := Reference.runtime) [toJS acme])
  = Ok (Some (toJS acme)) (file_of (R := Reference.runtime) [toJS acme]).
Proof.
  apply (proj1 (read_your_writes Reference.runtime
                  ReferenceFacts.reference_laws)
           NoFile _ [] 7 "Acme" 5 2).
  - exists (File "[]"). reflexivity.
  - reflexivity.
Defined.


(** The update of [bolt], second of two records. *)
Lemma update_frame_witness :
  CalculatorManager.editCalculator (R := Reference.runtime) 8 "Bolt" 9 3
    two_calculators
  = Ok (Some (toJS (with_fields bolt "Bolt" 9 3)))
       (file_of (R := Reference.runtime)
          (map toJS [acme; with_fields bolt "Bolt" 9 3])) /\
  lists_calculators (R := Reference.runtime)
    (file_of (R := Reference.runtime)
       (map toJS [acme; with_fields bolt "Bolt" 9 3]))
    [acme; with_fields bolt "Bolt" 9 3].
Proof.
  apply (proj1 (proj2 (update_frame Reference.runtime
                         ReferenceFacts.reference_laws))
           two_calculators [acme] [] bolt "Bolt" 9 3).
  - discriminate.
  - exists two_calculators. vm_compute. reflexivity.
  - cbn. intros [H|[]]. discriminate H.
Defined.

(** The delete of key 7 from the two records. *)
Lemma delete_semantics_witness :
  CalculatorManager.deleteCalculator (R := Reference.runtime) 7
    two_calculators
  = Ok true (file_of (R := Reference.runtime) (map toJS [bolt])) /\
  lists_calculators (R := Reference.runtime)
    (file_of (R := Reference.runtime) (map toJS [bolt])) [bolt].
Proof.
  apply (proj1 (delete_semantics Reference.runtime
                  ReferenceFacts.reference_laws)
           two_calculators [acme; bolt] 7).
  - discriminate.
  - exists two_calculators. vm_compute. reflexivity.
  - left. reflexivity.
Defined.

(** The add of a third record goes last. *)
Lemma add_appends_witness :
  CalculatorManager.addCalculator (R := Reference.runtime) 9 "Core" 10 3
    two_calculators
  = Ok (Some (calculator_object 9 "Core" 10 3))
       (file_of (R := Reference.runtime)
          (map toJS
             [acme; bolt;
              {| oid := 9; manufacturer := "Core"; grade := 10;
                 batteryType := 3 |}])) /\
  lists_calculators (R := Reference.runtime)
    (file_of (R := Reference.runtime)
       (map toJS
          [acme; bolt;
           {| oid := 9; manufacturer := "Core"; grade := 10;
              batteryType := 3 |}]))
    [acme; bolt;
     {| oid := 9; manufacturer := "Core"; grade := 10; batteryType := 3 |}].
Proof.
  apply (proj1 (add_appends Reference.runtime ReferenceFacts.reference_laws)
           two_calculators [acme; bolt] 9 "Core" 10 3).
  - discriminate.
  - exists two_calculators. vm_compute. reflexivity.
  - cbn. intros [H|[H|[]]]; discriminate H.
Defined.

(** Writing the two records to a fresh disk and reading them back. *)
Lemma persistence_round_trip_witness :
  exists d',
    CalculatorManager.writeAll (R := Reference.runtime)
      (map toJS [acme; bolt]) NoFile = Ok tt d' /\
    CalculatorManager.readAll (R := Reference.runtime) d'
    = Ok (map toJS [acme; bolt]) d'.
Proof.
  apply (proj1 (persistence_round_trip Reference.runtime
                  ReferenceFacts.reference_laws) NoFile [acme; bolt]).
  - discriminate.
  - reflexivity.
Defined.

(** An empty manufacturer, a grade of 11 and a battery type of 0 are stored
    as they are. *)
Lemma no_field_constraints_witness :
  exists d',
    CalculatorManager.addCalculator (R := Reference.runtime) 1 "" 11 0 NoFile
    = Ok (Some (calculator_object 1 "" 11 0)) d' /\
    CalculatorManager.getCalculatorByOid (R := Reference.runtime) 1 d'
    = Ok (Some (calculator_object 1 "" 11 0)) d'.
Proof.
  apply (proj1 (no_field_constraints Reference.runtime
                  ReferenceFacts.reference_laws) NoFile [] 1 "" 11 0).
  - discriminate.
  - exists (File "[]"). reflexivity.
  - intros [].
Defined.

(** The scenario of the specification: a grade of 11 is rejected and the
    manager is not called. *)
Lemma validation_bounds_witness :
  exists locals,
    CalculatorController.postCreate (R := Reference.runtime) grade_eleven
      fresh_calculators
    = Ok (CalculatorController.Render "calculators/calculatorForm" locals)
         fresh_calculators /\
    CalculatorController.Locals.error locals
    = Some CalculatorController.genericError.
Proof.
  apply (proj1 (proj2 (proj2 (proj2 (validation_bounds Reference.runtime))))
           grade_eleven fresh_calculators).
  intros (g & b & Hg & _ & Hr & _). vm_compute in Hg. injection Hg as <-.
  lia.
Defined.

(** The same form is redisplayed with its raw numbers and its trimmed
    manufacturer. *)
Lemma rejected_form_values_witness :
  CalculatorController.postCreate (R := Reference.runtime) grade_eleven
    fresh_calculators
  = Ok (calculator_form Add "/calculators/create"
          {| CalculatorController.Values.oid := "7";
             CalculatorController.Values.manufacturer := "Acme";
             CalculatorController.Values.grade := "11";
             CalculatorController.Values.batteryType := "2" |}
          (Some CalculatorController.genericError)) fresh_calculators.
Proof.
  apply (proj1 (rejected_form_values Reference.runtime) grade_eleven
           fresh_calculators).
  right. vm_compute. reflexivity.
Defined.


(** C3, as stated, fails: a rejected note form with the title [" a "] is
    redisplayed with the title ["a"], a rejected calculator form with the
    manufacturer [" Acme "] with ["Acme"], and a calculator form rejected
    for its key [" 07"], which is stored already, with the key ["7"]. *)
Lemma raw_values_not_redisplayed :
  (exists locals,
      NoteController.postCreate (R := Reference.runtime) padded_title
        fresh_notes
      = Ok (NoteController.Render "notes/noteForm" locals) fresh_notes /\
      NoteController.Locals.noteTitle locals
      <> JStr (or_empty (NoteController.Body.title padded_title)))
  /\
  (exists locals,
      CalculatorController.postCreate (R := Reference.runtime) grade_eleven
        fresh_calculators
      = Ok (CalculatorController.Render "calculators/calculatorForm" locals)
           fresh_calculators /\
      CalculatorController.Locals.manufacturer locals
      <> Some (JStr (or_empty
                       (CalculatorController.Body.manufacturer
                          grade_eleven))))
  /\
  (exists locals ctx',
      CalculatorController.postCreate (R := Reference.runtime) padded_oid
        listed_calculators
      = Ok (CalculatorController.Render "calculators/calculatorForm" locals)
           ctx' /\
      CalculatorController.Locals.error locals
      = Some CalculatorController.genericError /\
      CalculatorController.Locals.oid locals = Some (JStr "7") /\
      CalculatorController.Locals.oid locals
      <> Some (JStr (or_empty (CalculatorController.Body.oid padded_oid)))).
Proof.
  split; [|split].
  - eexists. split; [vm_compute; reflexivity|]. cbn. discriminate.
  - eexists. split; [vm_compute; reflexivity|]. cbn. discriminate.
  - eexists. eexists. split; [vm_compute; reflexivity|].
    cbn. repeat split. discriminate.
Qed.

(** ** The scenarios of the specification, run *)

(** [add({title: "Shopping", body: "milk, eggs"})] on an empty store: the
    list then holds exactly that record. *)
Example scenario_first_add :
  (_ <- NoteManager.addNote (R := Reference.runtime) "Shopping" "milk, eggs" ;;
   NoteManager.getNotes (R := Reference.runtime))
    {| NoteManager.disk := NoFile; NoteManager.notes := [] |}
  = Ok [toJS shopping]
       (manager (file_of (R := Reference.runtime) [toJS shopping])
          [shopping]).
Proof. vm_compute. reflexivity. Qed.

(** A second add of the title fails and the body stays. *)
Example scenario_duplicate_add :
  (_ <- NoteManager.addNote (R := Reference.runtime) "Shopping" "milk, eggs" ;;
   second <- NoteManager.addNote (R := Reference.runtime) "Shopping" "bread" ;;
   found <- NoteManager.getNoteByTitle (R := Reference.runtime) "Shopping" ;;
   ret (second, found))
    {| NoteManager.disk := NoFile; NoteManager.notes := [] |}
  = Ok (None, Some (toJS shopping))
       (manager (file_of (R := Reference.runtime) [toJS shopping])
          [shopping]).
Proof. vm_compute. reflexivity. Qed.

(** Update, then delete, then lookup: not found. *)
Example scenario_update_delete_get :
  (_ <- NoteManager.updateNote (R := Reference.runtime) "Shopping"
          "eggs only" ;;
   removed <- NoteManager.removeNote (R := Reference.runtime) "Shopping" ;;
   found <- NoteManager.getNoteByTitle (R := Reference.runtime) "Shopping" ;;
   ret (removed, found)) two_notes
  = Ok (true, None)
       (manager (file_of (R := Reference.runtime) [toJS chores]) [chores]).
Proof. vm_compute. reflexivity. Qed.

(** The statements above are about stores of records.  The source casts
    whatever array the file holds to records: on an array with a [null]
    element the list is returned as it is, and a lookup throws. *)
Example null_element :
  CalculatorManager.getCalculators (R := Reference.runtime) (File "[null]")
  = Ok [JNull] (File "[null]") /\
  CalculatorManager.getCalculatorByOid (R := Reference.runtime) 7
    (File "[null]")
  = Throw TypeError (File "[null]").
Proof. split; reflexivity. Qed.

(** * Further properties of the code *)

(** ** The managers *)


Section Frames.
Context {R : Runtime} {L : RuntimeLaws R}.

Lemma returned_get (d : Disk) (cs : list Calculator) (k : Z) :
  stores d (map toJS cs) ->
  returned (CalculatorManager.getCalculatorByOid k d)
  = Some (option_map toJS (List.find (has_oid k) cs)).
Proof. intros H. rewrite (getCalculatorByOid_run d cs k H). reflexivity. Qed.

Lemma returned_get_note (s : NoteManager.State) (ns : list Note)
  (t : string) :
  stores (NoteManager.disk s) (map toJS ns) ->
  returned (NoteManager.getNoteByTitle t s)
  = Some (option_map toJS (List.find (has_title t) ns)).
Proof. intros H. rewrite (getNoteByTitle_run s ns t H). reflexivity. Qed.

Lemma find_snoc_other {A : Type} (q : A -> bool) (l : list A) (a : A) :
  q a = false -> List.find q (l ++ [a]) = List.find q l.
Proof.
  intros H. induction l as [|x l IH]; cbn; [rewrite H; reflexivity|].
  destruct (q x); [reflexivity|exact IH].
Qed.

Lemma find_replace_other {A : Type} (q : A -> bool) (pre post : list A)
  (a b : A) :
  q a = false -> q b = false ->
  List.find q (pre ++ b :: post) = List.find q (pre ++ a :: post).
Proof.
  intros Ha Hb. induction pre as [|x pre IH]; cbn.
  - rewrite Ha, Hb. reflexivity.
  - destruct (q x); [reflexivity|exact IH].
Qed.

Lemma find_filter_other {A : Type} (q p : A -> bool) (l : list A) :
  (forall a, q a = true -> p a = true) ->
  List.find q (List.filter p l) = List.find q l.
Proof.
  intros H. induction l as [|x l IH]; cbn; [reflexivity|].
  destruct (q x) eqn:E.
  - rewrite (H x E). cbn. rewrite E. reflexivity.
  - destruct (p x); cbn; [rewrite E|]; exact IH.
Qed.

Lemma has_oid_other (k k' : Z) (c : Calculator) :
  k' <> k -> oid c = k -> has_oid k' c = false.
Proof. intros H <-. unfold has_oid. apply Z.eqb_neq. auto. Qed.

Lemma has_title_other (t t' : string) (n : Note) :
  t' <> t -> title n = t -> has_title t' n = false.
Proof. intros H <-. unfold has_title. apply String.eqb_neq. auto. Qed.

End Frames.

(** ** What an operation that returned has done *)

Section Outcomes.
Context {R : Runtime} {L : RuntimeLaws R}.

Lemma blocked_lists_nothing (cs : list Calculator) :
  stores Blocked (map toJS cs) -> cs = [].
Proof. intros [_ H]. destruct cs; [reflexivity|discriminate]. Qed.

Lemma blocked_lists_no_note (ns : list Note) :
  stores Blocked (map toJS ns) -> ns = [].
Proof. intros [_ H]. destruct ns; [reflexivity|discriminate]. Qed.

Lemma add_outcome (d d' : Disk) (cs : list Calculator) (k : Z) (m : string)
  (g b : Z) (r : option JValue) :
  stores d (map toJS cs) ->
  CalculatorManager.addCalculator k m g b d = Ok r d' ->
  (In k (map oid cs) /\ r = None /\ d' = ensured d) \/
  (~ In k (map oid cs) /\ d <> Blocked /\
   r = Some (calculator_object k m g b) /\
   d' = file_of (map toJS
          (cs ++ [{| oid := k; manufacturer := m; grade := g;
                     batteryType := b |}]))).
Proof.
  intros Hl E.
  destruct (in_dec Z.eq_dec k (map oid cs)) as [Hin|Hout].
  - rewrite (addCalculator_duplicate d cs k m g b Hl Hin) in E.
    injection E as <- <-. left. auto.
  - destruct (Disk_blocked_dec d) as [->|Hd];
      [rewrite addCalculator_blocked in E; discriminate|].
    rewrite (addCalculator_fresh d cs k m g b Hd Hl Hout) in E.
    injection E as <- <-. right. auto.
Qed.

Lemma edit_outcome (d d' : Disk) (cs : list Calculator) (k : Z) (m : string)
  (g b : Z) (r : option JValue) :
  stores d (map toJS cs) ->
  CalculatorManager.editCalculator k m g b d = Ok r d' ->
  (~ In k (map oid cs) /\ r = None /\ d' = ensured d) \/
  (exists pre c post,
      cs = pre ++ c :: post /\ oid c = k /\ ~ In k (map oid pre) /\
      d <> Blocked /\ r = Some (toJS (with_fields c m g b)) /\
      d' = file_of (map toJS (pre ++ with_fields c m g b :: post))).
Proof.
  intros Hl E.
  destruct (in_dec Z.eq_dec k (map oid cs)) as [Hin|Hout].
  - destruct (Disk_blocked_dec d) as [->|Hd].
    + rewrite (blocked_lists_nothing cs Hl) in Hin. destruct Hin.
    + destruct (first_occurrence oid k cs Z.eq_dec Hin)
        as (pre & c & post & -> & Hk & Hpre). subst k.
      rewrite (editCalculator_present d pre post c m g b Hd Hl Hpre) in E.
      injection E as <- <-. right. exists pre, c, post. auto 10.
  - rewrite (editCalculator_missing d cs k m g b Hl Hout) in E.
    injection E as <- <-. left. auto.
Qed.

Lemma delete_outcome (d d' : Disk) (cs : list Calculator) (k : Z)
  (r : bool) :
  stores d (map toJS cs) ->
  CalculatorManager.deleteCalculator k d = Ok r d' ->
  (~ In k (map oid cs) /\ r = false /\ d' = ensured d) \/
  (In k (map oid cs) /\ d <> Blocked /\ r = true /\
   d' = file_of (map toJS (List.filter (fun c => negb (has_oid k c)) cs))).
Proof.
  intros Hl E.
  destruct (in_dec Z.eq_dec k (map oid cs)) as [Hin|Hout].
  - destruct (Disk_blocked_dec d) as [->|Hd].
    + rewrite (blocked_lists_nothing cs Hl) in Hin. destruct Hin.
    + rewrite (deleteCalculator_present d cs k Hd Hl Hin) in E.
      injection E as <- <-. right. auto.
  - rewrite (deleteCalculator_missing d cs k Hl Hout) in E.
    injection E as <- <-. left. auto.
Qed.

Lemma addNote_outcome (s s' : NoteManager.State) (ns : list Note)
  (t b : string) (r : option JValue) :
  stores (NoteManager.disk s) (map toJS ns) ->
  NoteManager.addNote t b s = Ok r s' ->
  (In t (map title ns) /\ r = None /\
   s' = manager (ensured (NoteManager.disk s)) ns) \/
  (~ In t (map title ns) /\ NoteManager.disk s <> Blocked /\
   r = Some (note_object t b) /\
   s' = manager (file_of (map toJS (ns ++ [{| title := t; body := b |}])))
          (ns ++ [{| title := t; body := b |}])).
Proof.
  intros Hl E.
  destruct (in_dec string_dec t (map title ns)) as [Hin|Hout].
  - rewrite (addNote_duplicate s ns t b Hl Hin) in E.
    injection E as <- <-. left. auto.
  - destruct (Disk_blocked_dec (NoteManager.disk s)) as [Hb|Hd];
      [destruct (addNote_blocked s t b Hb) as (x & F & _); rewrite F in E;
       discriminate|].
    rewrite (addNote_fresh s ns t b Hd Hl Hout) in E.
    injection E as <- <-. right. auto.
Qed.

Lemma updateNote_outcome (s s' : NoteManager.State) (ns : list Note)
  (t b : string) (r : option JValue) :
  stores (NoteManager.disk s) (map toJS ns) ->
  NoteManager.updateNote t b s = Ok r s' ->
  (~ In t (map title ns) /\ r = None /\
   s' = manager (ensured (NoteManager.disk s)) ns) \/
  (exists pre n post,
      ns = pre ++ n :: post /\ title n = t /\ ~ In t (map title pre) /\
      NoteManager.disk s <> Blocked /\ r = Some (toJS (with_body n b)) /\
      s' = manager (file_of (map toJS (pre ++ with_body n b :: post)))
             (pre ++ with_body n b :: post)).
Proof.
  intros Hl E.
  destruct (in_dec string_dec t (map title ns)) as [Hin|Hout].
  - destruct (Disk_blocked_dec (NoteManager.disk s)) as [Hb|Hd].
    + rewrite Hb in Hl. rewrite (blocked_lists_no_note ns Hl) in Hin.
      destruct Hin.
    + destruct (first_occurrence title t ns string_dec Hin)
        as (pre & n & post & -> & Hk & Hpre). subst t.
      rewrite (updateNote_present s pre post n b Hd Hl Hpre) in E.
      injection E as <- <-. right. exists pre, n, post. auto 10.
  - rewrite (updateNote_missing s ns t b Hl Hout) in E.
    injection E as <- <-. left. auto.
Qed.

Lemma removeNote_outcome (s s' : NoteManager.State) (ns : list Note)
  (t : string) (r : bool) :
  stores (NoteManager.disk s) (map toJS ns) ->
  NoteManager.removeNote t s = Ok r s' ->
  (~ In t (map title ns) /\ r = false /\
   s' = manager (ensured (NoteManager.disk s)) ns) \/
  (In t (map title ns) /\ NoteManager.disk s <> Blocked /\ r = true /\
   s' = manager
          (file_of (map toJS (List.filter (fun n => negb (has_title t n)) ns)))
          (List.filter (fun n => negb (has_title t n)) ns)).
Proof.
  intros Hl E.
  destruct (in_dec string_dec t (map title ns)) as [Hin|Hout].
  - destruct (Disk_blocked_dec (NoteManager.disk s)) as [Hb|Hd].
    + rewrite Hb in Hl. rewrite (blocked_lists_no_note ns Hl) in Hin.
      destruct Hin.
    + rewrite (removeNote_present s ns t Hd Hl Hin) in E.
      injection E as <- <-. right. auto.
  - rewrite (removeNote_missing s ns t Hl Hout) in E.
    injection E as <- <-. left. auto.
Qed.

End Outcomes.

(** X2.  Lookup frame.  On a store of records, an add, an update or a
    delete of key [k] that returns does not change what the lookup of any
    other key returns. *)
Theorem lookup_frame (R : Runtime) (L : RuntimeLaws R) :
  (forall (d d' : Disk) (cs : list Calculator) (k k' : Z) (m : string)
          (g b : Z) (r : option JValue),
      lists_calculators d cs -> k' <> k ->
      CalculatorManager.addCalculator k m g b d = Ok r d' ->
      returned (CalculatorManager.getCalculatorByOid k' d')
      = returned (CalculatorManager.getCalculatorByOid k' d))
  /\
  (forall (d d' : Disk) (cs : list Calculator) (k k' : Z) (m : string)
          (g b : Z) (r : option JValue),
      lists_calculators d cs -> k' <> k ->
      CalculatorManager.editCalculator k m g b d = Ok r d' ->
      returned (CalculatorManager.getCalculatorByOid k' d')
      = returned (CalculatorManager.getCalculatorByOid k' d))
  /\
  (forall (d d' : Disk) (cs : list Calculator) (k k' : Z) (r : bool),
      lists_calculators d cs -> k' <> k ->
      CalculatorManager.deleteCalculator k d = Ok r d' ->
      returned (CalculatorManager.getCalculatorByOid k' d')
      = returned (CalculatorManager.getCalculatorByOid k' d))
  /\
  (forall (s s' : NoteManager.State) (ns : list Note) (t t' b : string)
          (r : option JValue),
      lists_notes s ns -> t' <> t ->
      NoteManager.addNote t b s = Ok r s' ->
      returned (NoteManager.getNoteByTitle t' s')
      = returned (NoteManager.getNoteByTitle t' s))
  /\
  (forall (s s' : NoteManager.State) (ns : list Note) (t t' b : string)
          (r : option JValue),
      lists_notes s ns -> t' <> t ->
      NoteManager.updateNote t b s = Ok r s' ->
      returned (NoteManager.getNoteByTitle t' s')
      = returned (NoteManager.getNoteByTitle t' s))
  /\
  (forall (s s' : NoteManager.State) (ns : list Note) (t t' : string)
          (r : bool),
      lists_notes s ns -> t' <> t ->
      NoteManager.removeNote t s = Ok r s' ->
      returned (NoteManager.getNoteByTitle t' s')
      = returned (NoteManager.getNoteByTitle t' s)).
Proof.
  repeat apply conj.
  - intros d d' cs k k' m g b r Hl Hk E. apply lists_calculators_iff in Hl.
    rewrite (returned_get d cs k' Hl).
    destruct (add_outcome d d' cs k m g b r Hl E)
      as [(_ & _ & ->)|(_ & _ & _ & ->)].
    + apply returned_get. apply stores_ensured, Hl.
    + rewrite (returned_get _ _ k' (stores_file_of_calculators _)).
      rewrite find_snoc_other; [reflexivity|].
      apply (has_oid_other k k'); auto.
  - intros d d' cs k k' m g b r Hl Hk E. apply lists_calculators_iff in Hl.
    rewrite (returned_get d cs k' Hl).
    destruct (edit_outcome d d' cs k m g b r Hl E)
      as [(_ & _ & ->)|(pre & c & post & -> & Hc & _ & _ & _ & ->)].
    + apply returned_get. apply stores_ensured, Hl.
    + rewrite (returned_get _ _ k' (stores_file_of_calculators _)).
      rewrite (find_replace_other (has_oid k') pre post c);
        [reflexivity| |]; apply (has_oid_other k k'); auto.
  - intros d d' cs k k' r Hl Hk E. apply lists_calculators_iff in Hl.
    rewrite (returned_get d cs k' Hl).
    destruct (delete_outcome d d' cs k r Hl E)
      as [(_ & _ & ->)|(_ & _ & _ & ->)].
    + apply returned_get. apply stores_ensured, Hl.
    + rewrite (returned_get _ _ k' (stores_file_of_calculators _)).
      rewrite find_filter_other; [reflexivity|].
      intros c Hc. unfold has_oid in *. apply Z.eqb_eq in Hc.
      apply negb_true_iff, Z.eqb_neq. lia.
  - intros s s' ns t t' b r Hl Hk E. apply lists_notes_iff in Hl.
    rewrite (returned_get_note s ns t' Hl).
    destruct (addNote_outcome s s' ns t b r Hl E)
      as [(_ & _ & ->)|(_ & _ & _ & ->)].
    + apply returned_get_note. cbn. apply stores_ensured, Hl.
    + rewrite (returned_get_note (manager _ _) _ t'
                 (stores_file_of_notes _)).
      rewrite find_snoc_other; [reflexivity|].
      apply (has_title_other t t'); auto.
  - intros s s' ns t t' b r Hl Hk E. apply lists_notes_iff in Hl.
    rewrite (returned_get_note s ns t' Hl).
    destruct (updateNote_outcome s s' ns t b r Hl E)
      as [(_ & _ & ->)|(pre & n & post & -> & Hn & _ & _ & _ & ->)].
    + apply returned_get_note. cbn. apply stores_ensured, Hl.
    + rewrite (returned_get_note (manager _ _) _ t'
                 (stores_file_of_notes _)).
      rewrite (find_replace_other (has_title t') pre post n);
        [reflexivity| |]; apply (has_title_other t t'); auto.
  - intros s s' ns t t' r Hl Hk E. apply lists_notes_iff in Hl.
    rewrite (returned_get_note s ns t' Hl).
    destruct (removeNote_outcome s s' ns t r Hl E)
      as [(_ & _ & ->)|(_ & _ & _ & ->)].
    + apply returned_get_note. cbn. apply stores_ensured, Hl.
    + rewrite (returned_get_note (manager _ _) _ t'
                 (stores_file_of_notes _)).
      rewrite find_filter_other; [reflexivity|].
      intros n Hn. unfold has_title in *. apply String.eqb_eq in Hn.
      apply negb_true_iff, String.eqb_neq. congruence.
Qed.

(** X3.  Lookup.  On a store of records the lookup returns [null] ([None])
    when no record has the key and the first record with the key otherwise;
    it leaves the disk as a read leaves it, so that the list is the same
    afterwards. *)
Theorem lookup_first_match (R : Runtime) :
  (forall (d : Disk) (cs : list Calculator) (k : Z),
      lists_calculators d cs -> ~ In k (map oid cs) ->
      CalculatorManager.getCalculatorByOid k d = Ok None (ensured d))
  /\
  (forall (d : Disk) (pre post : list Calculator) (c : Calculator),
      lists_calculators d (pre ++ c :: post) ->
      ~ In (oid c) (map oid pre) ->
      CalculatorManager.getCalculatorByOid (oid c) d
      = Ok (Some (toJS c)) (ensured d))
  /\
  (forall (d : Disk) (cs : list Calculator),
      lists_calculators d cs -> lists_calculators (ensured d) cs)
  /\
  (forall (s : NoteManager.State) (ns : list Note) (t : string),
      lists_notes s ns -> ~ In t (map title ns) ->
      NoteManager.getNoteByTitle t s
      = Ok None (manager (ensured (NoteManager.disk s)) ns))
  /\
  (forall (s : NoteManager.State) (pre post : list Note) (n : Note),
      lists_notes s (pre ++ n :: post) ->
      ~ In (title n) (map title pre) ->
      NoteManager.getNoteByTitle (title n) s
      = Ok (Some (toJS n))
           (manager (ensured (NoteManager.disk s)) (pre ++ n :: post)))
  /\
  (forall (s : NoteManager.State) (ns : list Note),
      lists_notes s ns ->
      lists_notes (manager (ensured (NoteManager.disk s)) ns) ns).
Proof.
  repeat apply conj.
  - intros d cs k Hl Hk. apply lists_calculators_iff in Hl.
    rewrite (getCalculatorByOid_run d cs k Hl).
    rewrite find_absent by (apply has_oid_absent, Hk). reflexivity.
  - intros d pre post c Hl Hpre. apply lists_calculators_iff in Hl.
    rewrite (getCalculatorByOid_run d _ (oid c) Hl).
    rewrite (find_first (has_oid (oid c)) pre post c);
      [reflexivity|apply has_oid_absent, Hpre|apply Z.eqb_refl].
  - intros d cs Hl. apply lists_calculators_iff.
    apply lists_calculators_iff in Hl. apply stores_ensured, Hl.
  - intros s ns t Hl Ht. apply lists_notes_iff in Hl.
    rewrite (getNoteByTitle_run s ns t Hl).
    rewrite find_absent by (apply has_title_absent, Ht). reflexivity.
  - intros s pre post n Hl Hpre. apply lists_notes_iff in Hl.
    rewrite (getNoteByTitle_run s _ (title n) Hl).
    rewrite (find_first (has_title (title n)) pre post n);
      [reflexivity|apply has_title_absent, Hpre|apply String.eqb_refl].
  - intros s ns Hl. apply lists_notes_iff. cbn.
    apply lists_notes_iff in Hl. apply stores_ensured, Hl.
Qed.

(** ** Arrays that hold [null] *)

Lemma JNull_dec (v : JValue) : {v = JNull} + {v <> JNull}.
Proof. destruct v; (left; reflexivity) || (right; discriminate). Qed.

Lemma get_reads (k : string) (f : Any -> bool) :
  reads_a_property (fun v => p <- get v k ;; ret (f p)).
Proof.
  split; [reflexivity|]. intros v Hv.
  destruct v; try contradiction; eexists; reflexivity.
Qed.

Lemma filter_null (p : JValue -> Res bool) (l : list JValue) :
  reads_a_property p -> In JNull l -> filter p l = Raise TypeError.
Proof.
  intros [Hnull Hother]. induction l as [|x l IH]; intros Hin; [destruct Hin|].
  cbn. destruct (JNull_dec x) as [->|Hx].
  - rewrite Hnull. reflexivity.
  - destruct (Hother x Hx) as [b ->]. destruct Hin as [E|Hin];
      [contradiction|].
    cbn in IH. rewrite (IH Hin). reflexivity.
Qed.

Lemma filter_no_null (p : JValue -> Res bool) (l : list JValue) :
  reads_a_property p -> ~ In JNull l -> exists r, filter p l = Val r.
Proof.
  intros [Hnull Hother]. induction l as [|x l IH]; intros Hin.
  - exists []. reflexivity.
  - cbn. destruct (Hother x) as [b ->]; [intros ->; apply Hin; left; auto|].
    destruct IH as [r Hr]; [intros H; apply Hin; right; exact H|].
    cbn in Hr. rewrite Hr. eexists. reflexivity.
Qed.

Lemma find_null (p : JValue -> Res bool) (pre post : list JValue) :
  reads_a_property p -> (forall v, In v pre -> p v = Val false) ->
  find p (pre ++ JNull :: post) = Raise TypeError.
Proof.
  intros [Hnull _] Hpre. induction pre as [|x pre IH]; cbn.
  - rewrite Hnull. reflexivity.
  - rewrite (Hpre x) by (left; reflexivity).
    cbn in IH. rewrite IH; [reflexivity|].
    intros v Hv. apply Hpre. right. exact Hv.
Qed.

Lemma find_no_null (p : JValue -> Res bool) (l : list JValue) :
  reads_a_property p -> ~ In JNull l -> exists r, find p l = Val r.
Proof.
  intros [Hnull Hother]. induction l as [|x l IH]; intros Hin.
  - exists None. reflexivity.
  - cbn. destruct (Hother x) as [b ->]; [intros ->; apply Hin; left; auto|].
    destruct b; [eexists; reflexivity|].
    destruct IH as [r Hr]; [intros H; apply Hin; right; exact H|].
    cbn in Hr. rewrite Hr. eexists. reflexivity.
Qed.

Section Nulls.
Context {R : Runtime}.

Lemma oid_is_reads (k : Z) : reads_a_property (CalculatorManager.oid_is k).
Proof. apply get_reads. Qed.

Lemma oid_is_not_reads (k : Z) :
  reads_a_property (CalculatorManager.oid_is_not k).
Proof. apply get_reads. Qed.

Lemma title_is_reads (t : string) :
  reads_a_property (NoteManager.title_is t).
Proof. apply get_reads. Qed.

Lemma title_is_not_reads (t : string) :
  reads_a_property (NoteManager.title_is_not t).
Proof. apply get_reads. Qed.

Lemma holds_creatable (d : Disk) (v : JValue) :
  In v (contents d) -> creatable d = true.
Proof. destruct d as [| |raw| |[| |]]; try reflexivity; intros []. Qed.

Lemma deleteCalculator_null (d : Disk) (k : Z) :
  In JNull (contents d) ->
  CalculatorManager.deleteCalculator k d = Throw TypeError (ensured d).
Proof.
  intros H. unfold CalculatorManager.deleteCalculator.
  rewrite (bind_ok _ (readAll_run d (holds_creatable d _ H))).
  rewrite (filter_null _ _ (oid_is_not_reads k) H). reflexivity.
Qed.

Lemma In_JNull_dec (l : list JValue) : {In JNull l} + {~ In JNull l}.
Proof.
  induction l as [|x l [IH|IH]].
  - right. intros [].
  - left. right. exact IH.
  - destruct (JNull_dec x) as [->|Hx].
    + left. left. reflexivity.
    + right. intros [E|H]; [apply Hx, E|apply IH, H].
Qed.

Lemma writeAll_cases (l : list JValue) (d : Disk) :
  CalculatorManager.writeAll l d = Ok tt (file_of l) \/
  CalculatorManager.writeAll l d = Throw IOError (ensured d).
Proof. destruct d as [| |raw| |[| |]]; auto. Qed.

Lemma saveNotes_cases (s : NoteManager.State) :
  (exists s', NoteManager.saveNotes s = Ok tt s') \/
  (exists s', NoteManager.saveNotes s = Throw IOError s').
Proof. destruct s as [[| |raw| |[| |]] cache]; cbn; eauto. Qed.

Lemma deleteCalculator_type_error (d d' : Disk) (k : Z) :
  CalculatorManager.deleteCalculator k d = Throw TypeError d' ->
  In JNull (contents d).
Proof.
  intros E. destruct (In_JNull_dec (contents d)) as [H|H];
    [exact H|exfalso].
  unfold CalculatorManager.deleteCalculator in E.
  destruct (creatable d) eqn:C;
    [|rewrite (bind_throw _ (readAll_refused d C)) in E; discriminate].
  rewrite (bind_ok _ (readAll_run d C)) in E.
  destruct (filter_no_null _ _ (oid_is_not_reads k) H) as [r Hr].
  rewrite Hr, bind_eval in E.
  destruct (List.length r =? List.length (contents d))%nat;
    [discriminate|].
  destruct (writeAll_cases r (ensured d)) as [W|W].
  - rewrite (bind_ok _ W) in E. discriminate.
  - rewrite (bind_throw _ W) in E. discriminate.
Qed.

Lemma getCalculatorByOid_null (d : Disk) (k : Z) (pre post : list JValue) :
  contents d = pre ++ JNull :: post ->
  (forall v, In v pre -> CalculatorManager.oid_is k v = Val false) ->
  CalculatorManager.getCalculatorByOid k d = Throw TypeError (ensured d).
Proof.
  intros H Hpre. unfold CalculatorManager.getCalculatorByOid.
  assert (creatable d = true) as C
    by (apply (holds_creatable d JNull); rewrite H; apply in_elt).
  rewrite (bind_ok _ (readAll_run d C)), H.
  rewrite (find_null _ pre post (oid_is_reads k) Hpre). reflexivity.
Qed.

Lemma getCalculatorByOid_no_null (d : Disk) (k : Z) :
  creatable d = true -> ~ In JNull (contents d) ->
  exists r, CalculatorManager.getCalculatorByOid k d = Ok r (ensured d).
Proof.
  intros C H. unfold CalculatorManager.getCalculatorByOid.
  rewrite (bind_ok _ (readAll_run d C)).
  destruct (find_no_null _ _ (oid_is_reads k) H) as [r ->].
  eexists. reflexivity.
Qed.

Lemma removeNote_null (s : NoteManager.State) (t : string) :
  In JNull (contents (NoteManager.disk s)) ->
  NoteManager.removeNote t s
  = Throw TypeError
      {| NoteManager.disk := ensured (NoteManager.disk s);
         NoteManager.notes := contents (NoteManager.disk s) |}.
Proof.
  intros H. unfold NoteManager.removeNote.
  rewrite (bind_ok _ (loadNotes_run s (holds_creatable _ _ H))).
  rewrite (filter_null _ _ (title_is_not_reads t) H). reflexivity.
Qed.

Lemma removeNote_type_error (s s' : NoteManager.State) (t : string) :
  NoteManager.removeNote t s = Throw TypeError s' ->
  In JNull (contents (NoteManager.disk s)).
Proof.
  intros E. destruct (In_JNull_dec (contents (NoteManager.disk s))) as [H|H];
    [exact H|exfalso].
  unfold NoteManager.removeNote in E.
  destruct (creatable (NoteManager.disk s)) eqn:C;
    [|rewrite (bind_throw _ (loadNotes_refused s C)) in E; discriminate].
  rewrite (bind_ok _ (loadNotes_run s C)) in E.
  destruct (filter_no_null _ _ (title_is_not_reads t) H) as [r Hr].
  rewrite Hr, bind_eval in E.
  destruct (List.length r =? List.length (contents (NoteManager.disk s)))%nat;
    [discriminate|].
  match type of E with
  | bind (NoteManager.set_notes ?l) _ ?s0 = _ =>
      assert (NoteManager.set_notes l s0
              = Ok tt {| NoteManager.disk := NoteManager.disk s0;
                         NoteManager.notes := l |}) as N by reflexivity;
      rewrite (bind_ok _ N) in E
  end.
  match type of E with
  | bind NoteManager.saveNotes _ ?s1 = _ =>
      destruct (saveNotes_cases s1) as [[s2 W]|[s2 W]]
  end.
  - rewrite (bind_ok _ W) in E. discriminate.
  - rewrite (bind_throw _ W) in E. discriminate.
Qed.

Lemma getNoteByTitle_null (s : NoteManager.State) (t : string)
  (pre post : list JValue) :
  contents (NoteManager.disk s) = pre ++ JNull :: post ->
  (forall v, In v pre -> NoteManager.title_is t v = Val false) ->
  NoteManager.getNoteByTitle t s
  = Throw TypeError
      {| NoteManager.disk := ensured (NoteManager.disk s);
         NoteManager.notes := contents (NoteManager.disk s) |}.
Proof.
  intros H Hpre. unfold NoteManager.getNoteByTitle.
  assert (creatable (NoteManager.disk s) = true) as C
    by (apply (holds_creatable _ JNull); rewrite H; apply in_elt).
  rewrite (bind_ok _ (loadNotes_run s C)), H.
  rewrite (find_null _ pre post (title_is_reads t) Hpre). reflexivity.
Qed.

Lemma getNoteByTitle_no_null (s : NoteManager.State) (t : string) :
  creatable (NoteManager.disk s) = true ->
  ~ In JNull (contents (NoteManager.disk s)) ->
  exists r s', NoteManager.getNoteByTitle t s = Ok r s'.
Proof.
  intros C H. unfold NoteManager.getNoteByTitle.
  rewrite (bind_ok _ (loadNotes_run s C)).
  destruct (find_no_null _ _ (title_is_reads t) H) as [r ->].
  eexists. eexists. reflexivity.
Qed.

Lemma getCalculatorByOid_type_error (d d' : Disk) (k : Z) :
  CalculatorManager.getCalculatorByOid k d = Throw TypeError d' ->
  In JNull (contents d).
Proof.
  intros E. destruct (In_JNull_dec (contents d)) as [H|H];
    [exact H|exfalso].
  destruct (creatable d) eqn:C.
  - destruct (getCalculatorByOid_no_null d k C H) as [r F].
    rewrite F in E. discriminate.
  - unfold CalculatorManager.getCalculatorByOid in E.
    rewrite (bind_throw _ (readAll_refused d C)) in E. discriminate.
Qed.

Lemma getNoteByTitle_type_error (s s' : NoteManager.State) (t : string) :
  NoteManager.getNoteByTitle t s = Throw TypeError s' ->
  In JNull (contents (NoteManager.disk s)).
Proof.
  intros E. destruct (In_JNull_dec (contents (NoteManager.disk s))) as [H|H];
    [exact H|exfalso].
  destruct (creatable (NoteManager.disk s)) eqn:C.
  - destruct (getNoteByTitle_no_null s t C H) as (r & s1 & F).
    rewrite F in E. discriminate.
  - unfold NoteManager.getNoteByTitle in E.
    rewrite (bind_throw _ (loadNotes_refused s C)) in E. discriminate.
Qed.

End Nulls.

(** X4.  A [null] in the stored array.  The list is returned as it is,
    but a delete throws a [TypeError], and throws one only then; nothing
    is written.  A lookup throws when a [null] comes before the first
    element with the key, and returns when the file is there or can be
    created and the array holds no [null], whatever else it holds; on no
    disk does it throw a [TypeError] without a [null] in the array. *)
Theorem null_element_throws (R : Runtime) :
  (forall (d : Disk) (k : Z),
      In JNull (contents d) ->
      CalculatorManager.getCalculators d = Ok (contents d) (ensured d) /\
      CalculatorManager.deleteCalculator k d = Throw TypeError (ensured d))
  /\
  (forall (d d' : Disk) (k : Z),
      CalculatorManager.deleteCalculator k d = Throw TypeError d' ->
      In JNull (contents d))
  /\
  (forall (d : Disk) (k : Z) (pre post : list JValue),
      contents d = pre ++ JNull :: post ->
      (forall v, In v pre -> CalculatorManager.oid_is k v = Val false) ->
      CalculatorManager.getCalculatorByOid k d = Throw TypeError (ensured d))
  /\
  (forall (d : Disk) (k : Z),
      creatable d = true -> ~ In JNull (contents d) ->
      exists r, CalculatorManager.getCalculatorByOid k d = Ok r (ensured d))
  /\
  (forall (s : NoteManager.State) (t : string),
      In JNull (contents (NoteManager.disk s)) ->
      (exists s',
          NoteManager.getNotes s = Ok (contents (NoteManager.disk s)) s') /\
      exists s',
        NoteManager.removeNote t s = Throw TypeError s' /\
        NoteManager.disk s' = ensured (NoteManager.disk s))
  /\
  (forall (s s' : NoteManager.State) (t : string),
      NoteManager.removeNote t s = Throw TypeError s' ->
      In JNull (contents (NoteManager.disk s)))
  /\
  (forall (s : NoteManager.State) (t : string) (pre post : list JValue),
      contents (NoteManager.disk s) = pre ++ JNull :: post ->
      (forall v, In v pre -> NoteManager.title_is t v = Val false) ->
      exists s',
        NoteManager.getNoteByTitle t s = Throw TypeError s' /\
        NoteManager.disk s' = ensured (NoteManager.disk s))
  /\
  (forall (s : NoteManager.State) (t : string),
      creatable (NoteManager.disk s) = true ->
      ~ In JNull (contents (NoteManager.disk s)) ->
      exists r s', NoteManager.getNoteByTitle t s = Ok r s')
  /\
  (forall (d d' : Disk) (k : Z),
      CalculatorManager.getCalculatorByOid k d = Throw TypeError d' ->
      In JNull (contents d))
  /\
  (forall (s s' : NoteManager.State) (t : string),
      NoteManager.getNoteByTitle t s = Throw TypeError s' ->
      In JNull (contents (NoteManager.disk s))).
Proof.
  repeat apply conj.
  - intros d k H. split; [|apply deleteCalculator_null, H].
    apply readAll_run, (holds_creatable d _ H).
  - intros d d' k. apply deleteCalculator_type_error.
  - intros d k pre post. apply getCalculatorByOid_null.
  - intros d k. apply getCalculatorByOid_no_null.
  - intros s t H. split.
    + eexists. apply loadNotes_run, (holds_creatable _ _ H).
    + eexists. split; [apply removeNote_null, H|reflexivity].
  - intros s s' t. apply removeNote_type_error.
  - intros s t pre post H Hpre. eexists.
    split; [apply (getNoteByTitle_null s t pre post H Hpre)|reflexivity].
  - intros s t. apply getNoteByTitle_no_null.
  - intros d d' k. apply getCalculatorByOid_type_error.
  - intros s s' t. apply getNoteByTitle_type_error.
Qed.

Lemma degraded_writable {R : Runtime} (d : Disk) : degraded d -> d <> Blocked.
Proof. intros H. destruct H; discriminate. Qed.

(** X5.  A damaged file is replaced by the first add.  When the backing
    file is missing, blank, not JSON or not an array, an add succeeds and
    the file then holds the new record alone: what the file held is gone.
    An update, a delete and a lookup find nothing and leave the text of the
    file as it is. *)
Theorem damaged_file_replaced (R : Runtime) (L : RuntimeLaws R) :
  (forall (d : Disk) (k : Z) (m : string) (g b : Z),
      degraded d ->
      CalculatorManager.addCalculator k m g b d
      = Ok (Some (calculator_object k m g b))
           (file_of [calculator_object k m g b]))
  /\
  (forall (raw : string) (k : Z) (m : string) (g b : Z),
      degraded (File raw) ->
      CalculatorManager.editCalculator k m g b (File raw)
      = Ok None (File raw) /\
      CalculatorManager.deleteCalculator k (File raw)
      = Ok false (File raw) /\
      CalculatorManager.getCalculatorByOid k (File raw)
      = Ok None (File raw))
  /\
  (forall (s : NoteManager.State) (t b : string),
      degraded (NoteManager.disk s) ->
      NoteManager.addNote t b s
      = Ok (Some (note_object t b))
           {| NoteManager.disk := file_of [note_object t b];
              NoteManager.notes := [note_object t b] |})
  /\
  (forall (raw : string) (cache : list JValue) (t b : string),
      let s := {| NoteManager.disk := File raw;
                  NoteManager.notes := cache |} in
      let s' := {| NoteManager.disk := File raw; NoteManager.notes := [] |} in
      degraded (File raw) ->
      NoteManager.updateNote t b s = Ok None s' /\
      NoteManager.removeNote t s = Ok false s' /\
      NoteManager.getNoteByTitle t s = Ok None s').
Proof.
  repeat apply conj.
  - intros d k m g b H.
    apply (addCalculator_fresh d [] k m g b (degraded_writable d H)
             (degraded_stores d H)). intros [].
  - intros raw k m g b H. pose proof (degraded_stores _ H) as E.
    repeat split.
    + apply (editCalculator_missing (File raw) [] k m g b E). intros [].
    + apply (deleteCalculator_missing (File raw) [] k E). intros [].
    + apply (getCalculatorByOid_run (File raw) [] k E).
  - intros s t b H.
    apply (addNote_fresh s [] t b (degraded_writable _ H)
             (degraded_stores _ H)). intros [].
  - intros raw cache t b s s' H. pose proof (degraded_stores _ H) as E.
    repeat split.
    + apply (updateNote_missing s [] t b E). intros [].
    + apply (removeNote_missing s [] t E). intros [].
    + apply (getNoteByTitle_run s [] t E).
Qed.

Lemma filter_snoc_out {A : Type} (q : A -> bool) (l : list A) (a : A) :
  (forall x, In x l -> q x = true) -> q a = false ->
  List.filter q (l ++ [a]) = l.
Proof.
  intros Hl Ha. rewrite filter_app, (filter_all q l Hl). cbn.
  rewrite Ha. apply List.app_nil_r.
Qed.

(** X6.  Add, then delete.  After an add of a new key that returned, the
    delete of that key returns [true] and the store lists the records it
    listed before the add, in their order. *)
Theorem add_then_delete (R : Runtime) (L : RuntimeLaws R) :
  (forall (d d1 : Disk) (cs : list Calculator) (k : Z) (m : string)
          (g b : Z) (r : option JValue),
      lists_calculators d cs -> ~ In k (map oid cs) ->
      CalculatorManager.addCalculator k m g b d = Ok r d1 ->
      CalculatorManager.deleteCalculator k d1
      = Ok true (file_of (map toJS cs)) /\
      lists_calculators (file_of (map toJS cs)) cs)
  /\
  (forall (s s1 : NoteManager.State) (ns : list Note) (t b : string)
          (r : option JValue),
      lists_notes s ns -> ~ In t (map title ns) ->
      NoteManager.addNote t b s = Ok r s1 ->
      NoteManager.removeNote t s1
      = Ok true (manager (file_of (map toJS ns)) ns) /\
      lists_notes (manager (file_of (map toJS ns)) ns) ns).
Proof.
  split.
  - intros d d1 cs k m g b r Hl Hk E. apply lists_calculators_iff in Hl.
    destruct (add_outcome d d1 cs k m g b r Hl E)
      as [(Hin & _)|(_ & _ & _ & ->)]; [contradiction|].
    split; [|apply lists_calculators_iff, stores_file_of_calculators].
    rewrite (deleteCalculator_present _ _ k (file_of_writable _)
               (stores_file_of_calculators _)).
    + rewrite filter_snoc_out; [reflexivity| |].
      * intros c Hc. rewrite (has_oid_absent k cs Hk c Hc). reflexivity.
      * unfold has_oid. cbn. rewrite Z.eqb_refl. reflexivity.
    + rewrite map_app. apply in_or_app. right. left. reflexivity.
  - intros s s1 ns t b r Hl Ht E. apply lists_notes_iff in Hl.
    destruct (addNote_outcome s s1 ns t b r Hl E)
      as [(Hin & _)|(_ & _ & _ & ->)]; [contradiction|].
    split; [|apply lists_notes_iff, stores_file_of_notes].
    rewrite (removeNote_present (manager _ _) _ t (file_of_writable _)
               (stores_file_of_notes _)).
    + rewrite filter_snoc_out; [reflexivity| |].
      * intros n Hn. rewrite (has_title_absent t ns Ht n Hn). reflexivity.
      * unfold has_title. cbn. rewrite String.eqb_refl. reflexivity.
    + rewrite map_app. apply in_or_app. right. left. reflexivity.
Qed.

Lemma key_filtered_out {A K : Type} (key : A -> K) (q : A -> bool) (k : K)
  (l : list A) :
  (forall a, key a = k -> q a = false) ->
  ~ In k (map key (List.filter q l)).
Proof.
  intros H Hin. apply in_map_iff in Hin. destruct Hin as (a & Ha & Hin).
  apply filter_In in Hin. destruct Hin as [_ Hq].
  rewrite (H a Ha) in Hq. discriminate.
Qed.

(** X7.  Delete is idempotent.  After a delete that returned, a second
    delete of the same key returns [false] and changes nothing. *)
Theorem delete_twice (R : Runtime) (L : RuntimeLaws R) :
  (forall (d d1 : Disk) (cs : list Calculator) (k : Z) (r : bool),
      lists_calculators d cs ->
      CalculatorManager.deleteCalculator k d = Ok r d1 ->
      CalculatorManager.deleteCalculator k d1 = Ok false d1)
  /\
  (forall (s s1 : NoteManager.State) (ns : list Note) (t : string)
          (r : bool),
      lists_notes s ns ->
      NoteManager.removeNote t s = Ok r s1 ->
      NoteManager.removeNote t s1 = Ok false s1).
Proof.
  split.
  - intros d d1 cs k r Hl E. apply lists_calculators_iff in Hl.
    destruct (delete_outcome d d1 cs k r Hl E)
      as [(Hk & _ & ->)|(_ & _ & _ & ->)].
    + rewrite (deleteCalculator_missing (ensured d) cs k); auto.
      * rewrite ensured_idempotent. reflexivity.
      * apply stores_ensured, Hl.
    + rewrite (deleteCalculator_missing _ _ k
                 (stores_file_of_calculators _)); [reflexivity|].
      apply key_filtered_out. intros c Hc. unfold has_oid.
      rewrite Hc, Z.eqb_refl. reflexivity.
  - intros s s1 ns t r Hl E. apply lists_notes_iff in Hl.
    destruct (removeNote_outcome s s1 ns t r Hl E)
      as [(Ht & _ & ->)|(_ & _ & _ & ->)].
    + rewrite (removeNote_missing (manager _ _) ns t); auto.
      * cbn. rewrite ensured_idempotent. reflexivity.
      * cbn. apply stores_ensured, Hl.
    + rewrite (removeNote_missing (manager _ _) _ t
                 (stores_file_of_notes _)); [reflexivity|].
      apply key_filtered_out. intros n Hn. unfold has_title.
      rewrite Hn, String.eqb_refl. reflexivity.
Qed.

(** X8.  The last update wins.  An update that follows an update of the
    same key that returned gives the result and the disk it gives without
    the first one. *)
Theorem last_update_wins (R : Runtime) (L : RuntimeLaws R) :
  (forall (d d1 : Disk) (cs : list Calculator) (k : Z) (m1 m2 : string)
          (g1 b1 g2 b2 : Z) (r : option JValue),
      lists_calculators d cs ->
      CalculatorManager.editCalculator k m1 g1 b1 d = Ok r d1 ->
      CalculatorManager.editCalculator k m2 g2 b2 d1
      = CalculatorManager.editCalculator k m2 g2 b2 d)
  /\
  (forall (s s1 : NoteManager.State) (ns : list Note) (t b1 b2 : string)
          (r : option JValue),
      lists_notes s ns ->
      NoteManager.updateNote t b1 s = Ok r s1 ->
      NoteManager.updateNote t b2 s1 = NoteManager.updateNote t b2 s).
Proof.
  split.
  - intros d d1 cs k m1 m2 g1 b1 g2 b2 r Hl E.
    apply lists_calculators_iff in Hl.
    destruct (edit_outcome d d1 cs k m1 g1 b1 r Hl E)
      as [(Hk & _ & ->)|(pre & c & post & -> & <- & Hpre & Hd & _ & ->)].
    + rewrite (editCalculator_missing d cs k m2 g2 b2 Hl Hk).
      rewrite (editCalculator_missing (ensured d) cs k m2 g2 b2); auto.
      * rewrite ensured_idempotent. reflexivity.
      * apply stores_ensured, Hl.
    + rewrite (editCalculator_present d pre post c m2 g2 b2 Hd Hl Hpre).
      apply (editCalculator_present _ pre post (with_fields c m1 g1 b1)
               m2 g2 b2 (file_of_writable _)
               (stores_file_of_calculators _) Hpre).
  - intros s s1 ns t b1 b2 r Hl E. apply lists_notes_iff in Hl.
    destruct (updateNote_outcome s s1 ns t b1 r Hl E)
      as [(Ht & _ & ->)|(pre & n & post & -> & <- & Hpre & Hd & _ & ->)].
    + rewrite (updateNote_missing s ns t b2 Hl Ht).
      rewrite (updateNote_missing (manager _ _) ns t b2); auto.
      * cbn. rewrite ensured_idempotent. reflexivity.
      * cbn. apply stores_ensured, Hl.
    + rewrite (updateNote_present s pre post n b2 Hd Hl Hpre).
      apply (updateNote_present (manager _ _) pre post (with_body n b1) b2
               (file_of_writable _) (stores_file_of_notes _) Hpre).
Qed.

(** ** The cache of the note manager *)

Section Cache.
Context {R : Runtime}.

(** What follows a [loadNotes] does not see the cache it replaced. *)
Lemma after_loadNotes {A : Type} (k : list JValue -> M NoteManager.State A)
  (d : Disk) (c1 c2 : list JValue) :
  creatable d = true ->
  bind NoteManager.loadNotes k
    {| NoteManager.disk := d; NoteManager.notes := c1 |}
  = bind NoteManager.loadNotes k
      {| NoteManager.disk := d; NoteManager.notes := c2 |}.
Proof.
  intros C.
  rewrite (bind_ok _ (loadNotes_run {| NoteManager.disk := d;
                                       NoteManager.notes := c1 |} C)).
  rewrite (bind_ok _ (loadNotes_run {| NoteManager.disk := d;
                                       NoteManager.notes := c2 |} C)).
  reflexivity.
Qed.

(** Nothing follows a [loadNotes] that could not create the file. *)
Lemma after_loadNotes_refused {A : Type}
  (k : list JValue -> M NoteManager.State A) (d : Disk) (c : list JValue) :
  creatable d = false ->
  bind NoteManager.loadNotes k
    {| NoteManager.disk := d; NoteManager.notes := c |}
  = Throw IOError {| NoteManager.disk := ensured d; NoteManager.notes := c |}.
Proof.
  intros C.
  rewrite (bind_throw _ (loadNotes_refused {| NoteManager.disk := d;
                                              NoteManager.notes := c |} C)).
  reflexivity.
Qed.

End Cache.

(** X9.  The cache is never served stale.  When the file is there or can be
    created, what a method of the note manager returns, and the state it
    leaves, do not depend on the cache it starts with: every method reads
    the file again; a new manager then starts with the list of the file as
    its cache.  When the file is missing and cannot be created, every
    method throws the error of the creation before it reads the cache, which
    it leaves as it was, and so does the construction of a manager. *)
Theorem cache_never_stale (R : Runtime) :
  (forall (d : Disk) (c1 c2 : list JValue),
      creatable d = true ->
      let s1 := {| NoteManager.disk := d; NoteManager.notes := c1 |} in
      let s2 := {| NoteManager.disk := d; NoteManager.notes := c2 |} in
      NoteManager.getNotes s1 = NoteManager.getNotes s2 /\
      (forall t : string,
          NoteManager.getNoteByTitle t s1 = NoteManager.getNoteByTitle t s2) /\
      (forall t b : string,
          NoteManager.addNote t b s1 = NoteManager.addNote t b s2) /\
      (forall t b : string,
          NoteManager.updateNote t b s1 = NoteManager.updateNote t b s2) /\
      (forall t : string,
          NoteManager.removeNote t s1 = NoteManager.removeNote t s2))
  /\
  (forall (d : Disk) (c : list JValue),
      creatable d = false ->
      let s := {| NoteManager.disk := d; NoteManager.notes := c |} in
      let s' := {| NoteManager.disk := ensured d; NoteManager.notes := c |} in
      NoteManager.getNotes s = Throw IOError s' /\
      (forall t : string,
          NoteManager.getNoteByTitle t s = Throw IOError s') /\
      (forall t b : string, NoteManager.addNote t b s = Throw IOError s') /\
      (forall t b : string,
          NoteManager.updateNote t b s = Throw IOError s') /\
      (forall t : string, NoteManager.removeNote t s = Throw IOError s'))
  /\
  (forall d : Disk,
      creatable d = true ->
      NoteManager.constructor d
      = Ok tt {| NoteManager.disk := ensured d;
                 NoteManager.notes := contents d |})
  /\
  (forall d : Disk,
      creatable d = false ->
      NoteManager.constructor d
      = Throw IOError {| NoteManager.disk := ensured d;
                         NoteManager.notes := [] |}).
Proof.
  repeat apply conj.
  - intros d c1 c2 C s1 s2. repeat apply conj.
    + unfold NoteManager.getNotes.
      rewrite (loadNotes_run s1 C), (loadNotes_run s2 C). reflexivity.
    + intros t. apply after_loadNotes, C.
    + intros t b. apply after_loadNotes, C.
    + intros t b. apply after_loadNotes, C.
    + intros t. apply after_loadNotes, C.
  - intros d c C s s'. repeat apply conj.
    + apply (loadNotes_refused s C).
    + intros t. apply after_loadNotes_refused, C.
    + intros t b. apply after_loadNotes_refused, C.
    + intros t b. apply after_loadNotes_refused, C.
    + intros t. apply after_loadNotes_refused, C.
  - intros d C. unfold NoteManager.constructor.
    rewrite (bind_ok _ (loadNotes_run {| NoteManager.disk := d;
                                         NoteManager.notes := [] |} C)).
    reflexivity.
  - intros d C. unfold NoteManager.constructor.
    apply after_loadNotes_refused, C.
Qed.

(** X10.  The cache follows the file.  After a read of the note manager
    that returned, and on a store of records after an add, an update or a
    delete that returned, the cache holds the list the file holds. *)
Theorem cache_follows_file (R : Runtime) (L : RuntimeLaws R) :
  (forall (s s' : NoteManager.State) (l : list JValue),
      NoteManager.getNotes s = Ok l s' ->
      NoteManager.notes s' = contents (NoteManager.disk s'))
  /\
  (forall (s s' : NoteManager.State) (t : string) (r : option JValue),
      NoteManager.getNoteByTitle t s = Ok r s' ->
      NoteManager.notes s' = contents (NoteManager.disk s'))
  /\
  (forall (s s' : NoteManager.State) (ns : list Note) (t b : string)
          (r : option JValue),
      lists_notes s ns ->
      NoteManager.addNote t b s = Ok r s' ->
      NoteManager.notes s' = contents (NoteManager.disk s'))
  /\
  (forall (s s' : NoteManager.State) (ns : list Note) (t b : string)
          (r : option JValue),
      lists_notes s ns ->
      NoteManager.updateNote t b s = Ok r s' ->
      NoteManager.notes s' = contents (NoteManager.disk s'))
  /\
  (forall (s s' : NoteManager.State) (ns : list Note) (t : string)
          (r : bool),
      lists_notes s ns ->
      NoteManager.removeNote t s = Ok r s' ->
      NoteManager.notes s' = contents (NoteManager.disk s')).
Proof.
  assert (forall (s : NoteManager.State) (ns : list Note),
             stores (NoteManager.disk s) (map toJS ns) ->
             NoteManager.notes (manager (ensured (NoteManager.disk s)) ns)
             = contents
                 (NoteManager.disk
                    (manager (ensured (NoteManager.disk s)) ns))) as Kept.
  { intros s ns H. cbn. rewrite contents_ensured. symmetry. exact (proj2 H). }
  assert (forall ns : list Note,
             NoteManager.notes (manager (file_of (map toJS ns)) ns)
             = contents
                 (NoteManager.disk (manager (file_of (map toJS ns)) ns)))
    as Written.
  { intros ns. cbn [manager NoteManager.notes NoteManager.disk].
    symmetry. apply contents_file_of_notes. }
  repeat apply conj.
  - intros s s' l E. unfold NoteManager.getNotes in E.
    destruct (creatable (NoteManager.disk s)) eqn:C;
      [|rewrite (loadNotes_refused s C) in E; discriminate].
    rewrite (loadNotes_run s C) in E. injection E as _ <-. cbn.
    rewrite contents_ensured. reflexivity.
  - intros s s' t r E. unfold NoteManager.getNoteByTitle in E.
    destruct (creatable (NoteManager.disk s)) eqn:C;
      [|rewrite (bind_throw _ (loadNotes_refused s C)) in E; discriminate].
    rewrite (bind_ok _ (loadNotes_run s C)) in E.
    destruct (find (NoteManager.title_is t) (contents (NoteManager.disk s)))
      as [i|e]; [|discriminate].
    rewrite bind_eval in E. injection E as _ <-. cbn.
    rewrite contents_ensured. reflexivity.
  - intros s s' ns t b r Hl E. apply lists_notes_iff in Hl.
    destruct (addNote_outcome s s' ns t b r Hl E)
      as [(_ & _ & ->)|(_ & _ & _ & ->)]; [apply Kept, Hl|apply Written].
  - intros s s' ns t b r Hl E. apply lists_notes_iff in Hl.
    destruct (updateNote_outcome s s' ns t b r Hl E)
      as [(_ & _ & ->)|(pre & n & post & -> & _ & _ & _ & _ & ->)];
      [apply Kept, Hl|apply Written].
  - intros s s' ns t r Hl E. apply lists_notes_iff in Hl.
    destruct (removeNote_outcome s s' ns t r Hl E)
      as [(_ & _ & ->)|(_ & _ & _ & ->)]; [apply Kept, Hl|apply Written].
Qed.

(** ** Trimming *)

Lemma trim_end_idempotent (s : string) : trim_end (trim_end s) = trim_end s.
Proof.
  induction s as [|c s IH]; [reflexivity|]. cbn [trim_end].
  destruct (trim_end s) as [|c' t] eqn:E.
  - destruct (is_space c) eqn:Ec; [reflexivity|]. cbn. rewrite Ec. reflexivity.
  - cbn [trim_end]. cbn [trim_end] in IH. rewrite IH. reflexivity.
Qed.

Lemma trim_start_idempotent (s : string) :
  trim_start (trim_start s) = trim_start s.
Proof.
  induction s as [|c s IH]; [reflexivity|]. cbn [trim_start].
  destruct (is_space c) eqn:Ec; [exact IH|]. cbn. rewrite Ec. reflexivity.
Qed.

Lemma trim_end_tail (c : ascii) (s : string) :
  trim_end (String c s) = String c s -> s <> "" -> trim_end s = s.
Proof.
  cbn [trim_end]. intros H Hs. destruct (trim_end s) as [|c' t].
  - destruct (is_space c); [discriminate|]. injection H as <-. contradiction.
  - injection H as <-. reflexivity.
Qed.

Lemma trim_end_trim_start (s : string) :
  trim_end s = s -> trim_end (trim_start s) = trim_start s.
Proof.
  induction s as [|c s IH]; [reflexivity|]. intros H. cbn [trim_start].
  destruct (is_space c) eqn:Ec; [|exact H].
  destruct s as [|c' s']; [reflexivity|].
  apply IH. apply (trim_end_tail c); [exact H|discriminate].
Qed.

Lemma trim_idempotent (s : string) : trim (trim s) = trim s.
Proof.
  unfold trim.
  rewrite (trim_end_trim_start (trim_end s) (trim_end_idempotent s)).
  apply trim_start_idempotent.
Qed.

Lemma trim_or_empty_trimmed (f : option string) :
  trim (trim_or_empty f) = trim_or_empty f.
Proof. destruct f; [apply trim_idempotent|reflexivity]. Qed.

(** ** The text of a number in a link *)

Lemma encode_unreserved (c : ascii) (s : string) :
  unreserved c = true ->
  encodeURIComponent (String c s) = String c (encodeURIComponent s).
Proof. intros H. cbn [encodeURIComponent]. rewrite H. reflexivity. Qed.

Lemma encode_digits (u : Decimal.uint) :
  encodeURIComponent (NilEmpty.string_of_uint u) = NilEmpty.string_of_uint u.
Proof.
  induction u; cbn [NilEmpty.string_of_uint]; [reflexivity|..];
    rewrite encode_unreserved by reflexivity; rewrite IHu; reflexivity.
Qed.

Lemma encode_number (n : Z) :
  encodeURIComponent (decimal n) = decimal n.
Proof.
  unfold decimal, NilZero.string_of_int.
  destruct (Z.to_int n) as [u|u]; unfold NilZero.string_of_uint.
  - destruct u; try apply encode_digits. reflexivity.
  - rewrite encode_unreserved by reflexivity. f_equal.
    destruct u; try apply encode_digits. reflexivity.
Qed.

(** ** The index pages on a store of records *)

Lemma map_res_map {A : Type} (f : A -> JValue) (g : JValue -> Res JValue)
  (h : A -> JValue) (l : list A) :
  (forall a, g (f a) = Val (h a)) ->
  Pages.map_res g (map f l) = Val (map h l).
Proof.
  intros H. induction l as [|a l IH]; [reflexivity|].
  cbn [map Pages.map_res]. rewrite H. cbn in *. rewrite IH. reflexivity.
Qed.

Lemma with_encodedTitle_calculator {R : Runtime} (c : Calculator) :
  Pages.with_encodedTitle "oid" (toJS c) = Val (listed_calculator c).
Proof. reflexivity. Qed.


Lemma encodedTitle_safe {R : Runtime} {N : NumberLaws R} (n : Z) :
  safe_integer n -> encodeURIComponent (String_of_number n) = decimal n.
Proof. intros H. rewrite (String_safe_integer H). apply encode_number. Qed.

Lemma positive_length {A : Type} (l : list A) :
  (0 <? List.length l)%nat = negb (match l with [] => true | _ => false end).
Proof. destruct l; reflexivity. Qed.

(** ** The calculator handlers on a store of records *)

Module CalculatorHandlers.
Import CalculatorController.
Import CalculatorForms.

Section WithRuntime.
Context {R : Runtime}.

Lemma ok_accepted (body : Body.t) :
  ok (validateFields (Parsed.manufacturer (parseFormBody body))
        (Parsed.grade (parseFormBody body))
        (Parsed.batteryType (parseFormBody body))) = true ->
  exists g b, calculator_accepted body g b.
Proof.
  intros H. apply CalculatorForms.validateFields_ok in H.
  destruct H as (Hm & g & b & Hg & Hb & Bg & Bb).
  exists g, b. unfold calculator_accepted. repeat split; auto; lia.
Qed.

Lemma postCreate_fresh (body : Body.t) (ctx : Ctx) (cs : list Calculator)
  (k g b : Z) :
  parseInt (unknown_of (Body.oid body)) = Some k ->
  calculator_accepted body g b ->
  calculatorManager ctx <> Blocked ->
  stores (calculatorManager ctx) (map toJS cs) -> ~ In k (map oid cs) ->
  let m := trim_or_empty (Body.manufacturer body) in
  postCreate body ctx
  = Ok (Redirect "/calculators")
       (calculator_called ctx (AddCalculator k m g b)
          (file_of (map toJS
                      (cs ++ [{| oid := k; manufacturer := m; grade := g;
                                 batteryType := b |}])))).
Proof.
  intros Hk Ha Hd Hl Hfresh m. rewrite (postCreate_run body ctx k g b Hk Ha).
  cbn zeta.
  rewrite (bind_ok _ (call_run _ _ ctx _ _
                        (addCalculator_fresh _ cs k m g b Hd Hl Hfresh))).
  reflexivity.
Qed.

Lemma postEdit_invalid (param : string) (body : Body.t) (ctx : Ctx) :
  parseInt (UString param) = None ->
  postEdit param body ctx = Ok (Redirect "/calculators") ctx.
Proof. intros H. unfold postEdit. rewrite H. reflexivity. Qed.

Lemma postEdit_run (param : string) (body : Body.t) (ctx : Ctx) (k g b : Z) :
  parseInt (UString param) = Some k ->
  calculator_accepted body g b ->
  let m := trim_or_empty (Body.manufacturer body) in
  postEdit param body ctx
  = (_ <- call (EditCalculator k m g b)
            (CalculatorManager.editCalculator k m g b) ;;
     ret (Redirect "/calculators")) ctx.
Proof.
  intros Hk Ha m. pose proof (accepted_ok body g b Ha) as Hok.
  destruct Ha as (Hg & Hb & _).
  unfold postEdit. rewrite Hk. cbn zeta. rewrite Hok.
  change (Parsed.grade (parseFormBody body))
    with (parseInt (unknown_of (Body.grade body))).
  change (Parsed.batteryType (parseFormBody body))
    with (parseInt (unknown_of (Body.batteryType body))).
  change (Parsed.manufacturer (parseFormBody body)) with m.
  rewrite Hg, Hb. cbn [negb bind M_monad].
  destruct (call _ _ ctx) as [u ctx'|e ctx']; [|reflexivity].
  destruct (negb (truthy_any u)); reflexivity.
Qed.

Lemma postEdit_present (param : string) (body : Body.t) (ctx : Ctx)
  (pre post : list Calculator) (c : Calculator) (g b : Z) :
  parseInt (UString param) = Some (oid c) ->
  calculator_accepted body g b ->
  calculatorManager ctx <> Blocked ->
  stores (calculatorManager ctx) (map toJS (pre ++ c :: post)) ->
  ~ In (oid c) (map oid pre) ->
  let m := trim_or_empty (Body.manufacturer body) in
  postEdit param body ctx
  = Ok (Redirect "/calculators")
       (calculator_called ctx (EditCalculator (oid c) m g b)
          (file_of (map toJS (pre ++ with_fields c m g b :: post)))).
Proof.
  intros Hk Ha Hd Hl Hpre m. rewrite (postEdit_run param body ctx _ g b Hk Ha).
  cbn zeta.
  rewrite (bind_ok _ (call_run _ _ ctx _ _
                        (editCalculator_present _ pre post c m g b Hd Hl
                           Hpre))).
  reflexivity.
Qed.

Lemma postEdit_missing (param : string) (body : Body.t) (ctx : Ctx)
  (cs : list Calculator) (k g b : Z) :
  parseInt (UString param) = Some k ->
  calculator_accepted body g b ->
  stores (calculatorManager ctx) (map toJS cs) -> ~ In k (map oid cs) ->
  let m := trim_or_empty (Body.manufacturer body) in
  postEdit param body ctx
  = Ok (Redirect "/calculators")
       (calculator_called ctx (EditCalculator k m g b)
          (ensured (calculatorManager ctx))).
Proof.
  intros Hk Ha Hl Hout m. rewrite (postEdit_run param body ctx k g b Hk Ha).
  cbn zeta.
  rewrite (bind_ok _ (call_run _ _ ctx _ _
                        (editCalculator_missing _ cs k m g b Hl Hout))).
  reflexivity.
Qed.

Lemma renderForm_stored (mode : Mode) (action : string) (c : Calculator) :
  renderForm {| CalculatorController.mode := mode;
                CalculatorController.action := action;
                calculator := Some (toJS c);
                values := None;
                CalculatorController.error := None |}
  = calculator_form mode action
      {| Values.oid := String_of_number (oid c);
         Values.manufacturer := manufacturer c;
         Values.grade := String_of_number (grade c);
         Values.batteryType := String_of_number (batteryType c) |}
      None.
Proof. reflexivity. Qed.

Lemma getEdit_invalid (param : string) (ctx : Ctx) :
  parseInt (UString param) = None ->
  CalculatorPages.getEdit param ctx = Ok (Redirect "/calculators") ctx.
Proof. intros H. unfold CalculatorPages.getEdit. rewrite H. reflexivity. Qed.

Lemma getEdit_missing (param : string) (ctx : Ctx) (cs : list Calculator)
  (k : Z) :
  parseInt (UString param) = Some k ->
  stores (calculatorManager ctx) (map toJS cs) -> ~ In k (map oid cs) ->
  CalculatorPages.getEdit param ctx
  = Ok (Redirect "/calculators")
       (calculator_called ctx (GetCalculatorByOid k)
          (ensured (calculatorManager ctx))).
Proof.
  intros Hk Hl Hout. unfold CalculatorPages.getEdit. rewrite Hk.
  rewrite (bind_ok _ (call_run _ _ ctx _ _
                        (getCalculatorByOid_run _ cs k Hl))).
  rewrite find_absent by (apply has_oid_absent, Hout). reflexivity.
Qed.

Lemma getEdit_present (param : string) (ctx : Ctx)
  (pre post : list Calculator) (c : Calculator) :
  parseInt (UString param) = Some (oid c) ->
  stores (calculatorManager ctx) (map toJS (pre ++ c :: post)) ->
  ~ In (oid c) (map oid pre) ->
  CalculatorPages.getEdit param ctx
  = Ok (calculator_form Edit
          ("/calculators/edit/" ++ encodeURIComponent param)
          {| Values.oid := String_of_number (oid c);
             Values.manufacturer := manufacturer c;
             Values.grade := String_of_number (grade c);
             Values.batteryType := String_of_number (batteryType c) |}
          None)
       (calculator_called ctx (GetCalculatorByOid (oid c))
          (ensured (calculatorManager ctx))).
Proof.
  intros Hk Hl Hpre. unfold CalculatorPages.getEdit. rewrite Hk.
  rewrite (bind_ok _ (call_run _ _ ctx _ _
                        (getCalculatorByOid_run _ _ (oid c) Hl))).
  rewrite (find_first (has_oid (oid c)) pre post c);
    [|apply has_oid_absent, Hpre|apply Z.eqb_refl].
  cbn [option_map]. rewrite <- renderForm_stored. reflexivity.
Qed.

Lemma postDelete_invalid (param : string) (ctx : Ctx) :
  parseInt (UString param) = None ->
  CalculatorPages.postDelete param ctx = Ok (Redirect "/calculators") ctx.
Proof.
  intros H. unfold CalculatorPages.postDelete. rewrite H. reflexivity.
Qed.

Lemma postDelete_present (param : string) (ctx : Ctx) (cs : list Calculator)
  (k : Z) :
  parseInt (UString param) = Some k ->
  calculatorManager ctx <> Blocked ->
  stores (calculatorManager ctx) (map toJS cs) -> In k (map oid cs) ->
  CalculatorPages.postDelete param ctx
  = Ok (Redirect "/calculators")
       (calculator_called ctx (DeleteCalculator k)
          (file_of
             (map toJS (List.filter (fun c => negb (has_oid k c)) cs)))).
Proof.
  intros Hk Hd Hl Hin. unfold CalculatorPages.postDelete. rewrite Hk.
  rewrite (bind_ok _ (call_run _ _ ctx _ _
                        (deleteCalculator_present _ cs k Hd Hl Hin))).
  reflexivity.
Qed.

Lemma postDelete_missing (param : string) (ctx : Ctx) (cs : list Calculator)
  (k : Z) :
  parseInt (UString param) = Some k ->
  stores (calculatorManager ctx) (map toJS cs) -> ~ In k (map oid cs) ->
  CalculatorPages.postDelete param ctx
  = Ok (Redirect "/calculators")
       (calculator_called ctx (DeleteCalculator k)
          (ensured (calculatorManager ctx))).
Proof.
  intros Hk Hl Hout. unfold CalculatorPages.postDelete. rewrite Hk.
  rewrite (bind_ok _ (call_run _ _ ctx _ _
                        (deleteCalculator_missing _ cs k Hl Hout))).
  reflexivity.
Qed.

Lemma getIndex_run (ctx : Ctx) (cs : list Calculator) :
  stores (calculatorManager ctx) (map toJS cs) ->
  CalculatorPages.getIndex ctx
  = Ok (CalculatorPages.RenderIndex "calculators/calculatorIndex"
          {| CalculatorPages.Index.title := "Calculators";
             CalculatorPages.Index.calculators := map listed_calculator cs;
             CalculatorPages.Index.hasCalculators :=
               negb (match cs with [] => true | _ => false end) |})
       (calculator_called ctx GetCalculators
          (ensured (calculatorManager ctx))).
Proof.
  intros Hl. unfold CalculatorPages.getIndex, CalculatorManager.getCalculators.
  rewrite (bind_ok _ (call_run _ _ ctx _ _ (readAll_stores _ _ Hl))).
  rewrite (map_res_map toJS _ listed_calculator cs
             with_encodedTitle_calculator).
  rewrite bind_eval. cbn [ret M_monad].
  rewrite positive_length. destruct cs; reflexivity.
Qed.

Lemma call_final_state {A : Type} (which : Call) (method : M Disk A)
  (ctx : Ctx) :
  final (call which method ctx)
  = calculator_called ctx which (final (method (calculatorManager ctx))).
Proof.
  unfold call, zoom. cbn. destruct (method (calculatorManager ctx));
    reflexivity.
Qed.

Lemma getCalculatorByOid_final (k : Z) (d : Disk) :
  final (CalculatorManager.getCalculatorByOid k d) = ensured d.
Proof.
  unfold CalculatorManager.getCalculatorByOid.
  destruct (creatable d) eqn:C;
    [|rewrite (bind_throw _ (readAll_refused d C)); reflexivity].
  rewrite (bind_ok _ (readAll_run d C)).
  destruct (find (CalculatorManager.oid_is k) (contents d)); reflexivity.
Qed.

Lemma getIndex_final (ctx : Ctx) :
  calculatorManager (final (CalculatorPages.getIndex ctx))
  = ensured (calculatorManager ctx).
Proof.
  unfold CalculatorPages.getIndex, CalculatorManager.getCalculators.
  destruct (creatable (calculatorManager ctx)) eqn:C;
    [|rewrite (bind_throw _ (call_throw _ _ ctx _ _ (readAll_refused _ C)));
      reflexivity].
  rewrite (bind_ok _ (call_run _ _ ctx _ _ (readAll_run _ C))).
  destruct (Pages.map_res _ _); reflexivity.
Qed.

Lemma getEdit_final (param : string) (ctx : Ctx) :
  calculatorManager (final (CalculatorPages.getEdit param ctx))
  = calculatorManager ctx \/
  calculatorManager (final (CalculatorPages.getEdit param ctx))
  = ensured (calculatorManager ctx).
Proof.
  unfold CalculatorPages.getEdit.
  destruct (parseInt (UString param)) as [k|]; [right|left; reflexivity].
  pose proof (call_final_state (GetCalculatorByOid k)
                (CalculatorManager.getCalculatorByOid k) ctx) as F.
  rewrite getCalculatorByOid_final in F.
  cbn [bind M_monad].
  destruct (call _ _ ctx) as [r ctx'|e ctx']; cbn [final] in *.
  - destruct (negb (truthy_any r)); cbn; rewrite F; reflexivity.
  - rewrite F. reflexivity.
Qed.

Context {L : RuntimeLaws R}.

Lemma kept_ensured (d : Disk) (cs : list Calculator) :
  calculators_ok d cs -> calculators_ok (ensured d) cs.
Proof.
  intros (Hd & Hl & Hnd). split; [|split; [|exact Hnd]].
  - apply ensured_writable, Hd.
  - apply stores_ensured, Hl.
Qed.

Lemma kept_written (cs : list Calculator) :
  NoDup (map oid cs) -> calculators_ok (file_of (map toJS cs)) cs.
Proof.
  intros H. split; [|split; [|exact H]].
  - apply file_of_writable.
  - apply stores_file_of_calculators.
Qed.

Lemma accepted_valid (body : Body.t) (k g b : Z) :
  calculator_accepted body g b ->
  valid_calculator
    {| oid := k; manufacturer := trim_or_empty (Body.manufacturer body);
       grade := g; batteryType := b |}.
Proof.
  intros (_ & _ & Hm & Bg & Bb). repeat split; cbn; auto; try lia.
  apply trim_or_empty_trimmed.
Qed.

Lemma postCreate_keeps (body : Body.t) (ctx : Ctx) (cs : list Calculator) :
  calculators_ok (calculatorManager ctx) cs -> Forall valid_calculator cs ->
  exists r ctx' cs',
    postCreate body ctx = Ok r ctx' /\
    calculators_ok (calculatorManager ctx') cs' /\
    Forall valid_calculator cs'.
Proof.
  intros Hok Hv. pose proof Hok as (Hd & Hl & Hnd).
  destruct (Parsed.oid (parseFormBody body)) as [k|] eqn:Ek.
  - destruct (ok (validateFields (Parsed.manufacturer (parseFormBody body))
                    (Parsed.grade (parseFormBody body))
                    (Parsed.batteryType (parseFormBody body)))) eqn:Eo.
    + destruct (ok_accepted body Eo) as (g & b & Ha).
      destruct (in_dec Z.eq_dec k (map oid cs)) as [Hin|Hout].
      * eexists. eexists. exists cs.
        rewrite (postCreate_duplicate body ctx cs k g b Ek Ha Hl Hin).
        split; [reflexivity|]. split; [apply kept_ensured, Hok|exact Hv].
      * eexists. eexists. eexists.
        rewrite (postCreate_fresh body ctx cs k g b Ek Ha Hd Hl Hout).
        split; [reflexivity|]. split.
        -- apply kept_written. rewrite map_app. apply NoDup_snoc; assumption.
        -- apply Forall_app. split; [exact Hv|].
           constructor; [apply (accepted_valid body k g b Ha)|constructor].
    + eexists. exists ctx, cs.
      rewrite CalculatorForms.calculator_postCreate_rejected
        by (right; exact Eo).
      auto.
  - eexists. exists ctx, cs.
    rewrite CalculatorForms.calculator_postCreate_rejected
      by (left; exact Ek).
    auto.
Qed.

Lemma postEdit_keeps (param : string) (body : Body.t) (ctx : Ctx)
  (cs : list Calculator) :
  calculators_ok (calculatorManager ctx) cs -> Forall valid_calculator cs ->
  exists r ctx' cs',
    postEdit param body ctx = Ok r ctx' /\
    calculators_ok (calculatorManager ctx') cs' /\
    Forall valid_calculator cs'.
Proof.
  intros Hok Hv. pose proof Hok as (Hd & Hl & Hnd).
  destruct (parseInt (UString param)) as [k|] eqn:Ek.
  - destruct (ok (validateFields (Parsed.manufacturer (parseFormBody body))
                    (Parsed.grade (parseFormBody body))
                    (Parsed.batteryType (parseFormBody body)))) eqn:Eo.
    + destruct (ok_accepted body Eo) as (g & b & Ha).
      destruct (in_dec Z.eq_dec k (map oid cs)) as [Hin|Hout].
      * destruct (first_occurrence oid k cs Z.eq_dec Hin)
          as (pre & c & post & -> & Hc & Hpre). subst k.
        eexists. eexists. eexists.
        rewrite (postEdit_present param body ctx pre post c g b Ek Ha Hd Hl
                   Hpre).
        split; [reflexivity|]. split.
        -- apply kept_written. rewrite map_app in *. exact Hnd.
        -- apply Forall_app in Hv. destruct Hv as [Hv1 Hv2].
           inversion Hv2 as [|? ? Hc Hv3]; subst.
           apply Forall_app. split; [exact Hv1|]. constructor; [|exact Hv3].
           apply (accepted_valid body (oid c) g b Ha).
      * eexists. eexists. exists cs.
        rewrite (postEdit_missing param body ctx cs k g b Ek Ha Hl Hout).
        split; [reflexivity|]. split; [apply kept_ensured, Hok|exact Hv].
    + eexists. eexists. exists cs.
      rewrite (CalculatorForms.calculator_postEdit_rejected param k body ctx
                 Ek Eo).
      rewrite (call_run _ _ ctx _ _ (getCalculatorByOid_run _ cs k Hl)).
      split; [reflexivity|]. split; [apply kept_ensured, Hok|exact Hv].
  - eexists. exists ctx, cs. rewrite (postEdit_invalid param body ctx Ek).
    auto.
Qed.

Lemma postDelete_keeps (param : string) (ctx : Ctx) (cs : list Calculator) :
  calculators_ok (calculatorManager ctx) cs -> Forall valid_calculator cs ->
  exists r ctx' cs',
    CalculatorPages.postDelete param ctx = Ok r ctx' /\
    calculators_ok (calculatorManager ctx') cs' /\
    Forall valid_calculator cs'.
Proof.
  intros Hok Hv. pose proof Hok as (Hd & Hl & Hnd).
  destruct (parseInt (UString param)) as [k|] eqn:Ek.
  - destruct (in_dec Z.eq_dec k (map oid cs)) as [Hin|Hout].
    + eexists. eexists. eexists.
      rewrite (postDelete_present param ctx cs k Ek Hd Hl Hin).
      split; [reflexivity|]. split.
      * apply kept_written, NoDup_map_filter, Hnd.
      * apply Forall_forall. intros c Hc. apply filter_In in Hc.
        rewrite Forall_forall in Hv. apply Hv, Hc.
    + eexists. eexists. exists cs.
      rewrite (postDelete_missing param ctx cs k Ek Hl Hout).
      split; [reflexivity|]. split; [apply kept_ensured, Hok|exact Hv].
  - eexists. exists ctx, cs. rewrite (postDelete_invalid param ctx Ek). auto.
Qed.

Lemma getEdit_keeps (param : string) (ctx : Ctx) (cs : list Calculator) :
  calculators_ok (calculatorManager ctx) cs -> Forall valid_calculator cs ->
  exists r ctx' cs',
    CalculatorPages.getEdit param ctx = Ok r ctx' /\
    calculators_ok (calculatorManager ctx') cs' /\
    Forall valid_calculator cs'.
Proof.
  intros Hok Hv. pose proof Hok as (Hd & Hl & Hnd).
  destruct (parseInt (UString param)) as [k|] eqn:Ek.
  - destruct (in_dec Z.eq_dec k (map oid cs)) as [Hin|Hout].
    + destruct (first_occurrence oid k cs Z.eq_dec Hin)
        as (pre & c & post & -> & Hc & Hpre). subst k.
      eexists. eexists. eexists.
      rewrite (getEdit_present param ctx pre post c Ek Hl Hpre).
      split; [reflexivity|]. split; [apply kept_ensured, Hok|exact Hv].
    + eexists. eexists. exists cs.
      rewrite (getEdit_missing param ctx cs k Ek Hl Hout).
      split; [reflexivity|]. split; [apply kept_ensured, Hok|exact Hv].
  - eexists. exists ctx, cs. rewrite (getEdit_invalid param ctx Ek). auto.
Qed.

Lemma route_keeps (rq : CalculatorsRouter.Request) (ctx : Ctx)
  (cs : list Calculator) :
  calculators_ok (calculatorManager ctx) cs -> Forall valid_calculator cs ->
  exists reply ctx' cs',
    CalculatorsRouter.route rq ctx = Ok reply ctx' /\
    calculators_ok (calculatorManager ctx') cs' /\
    Forall valid_calculator cs'.
Proof.
  intros Hok Hv. destruct rq as [| |param|body|param body|param];
    cbn [CalculatorsRouter.route].
  - eexists. eexists. exists cs.
    rewrite (bind_ok _ (getIndex_run ctx cs (proj1 (proj2 Hok)))).
    split; [reflexivity|]. split; [apply kept_ensured, Hok|exact Hv].
  - eexists. exists ctx, cs. split; [reflexivity|]. auto.
  - destruct (getEdit_keeps param ctx cs Hok Hv) as (r & ctx' & cs' & E & H).
    eexists. exists ctx', cs'. rewrite (bind_ok _ E).
    split; [reflexivity|exact H].
  - destruct (postCreate_keeps body ctx cs Hok Hv)
      as (r & ctx' & cs' & E & H).
    eexists. exists ctx', cs'. rewrite (bind_ok _ E).
    split; [reflexivity|exact H].
  - destruct (postEdit_keeps param body ctx cs Hok Hv)
      as (r & ctx' & cs' & E & H).
    eexists. exists ctx', cs'. rewrite (bind_ok _ E).
    split; [reflexivity|exact H].
  - destruct (postDelete_keeps param ctx cs Hok Hv)
      as (r & ctx' & cs' & E & H).
    eexists. exists ctx', cs'. rewrite (bind_ok _ E).
    split; [reflexivity|exact H].
Qed.

Lemma serve_keeps (rqs : list CalculatorsRouter.Request) :
  forall (ctx : Ctx) (cs : list Calculator),
    calculators_ok (calculatorManager ctx) cs -> Forall valid_calculator cs ->
    exists replies ctx' cs',
      serve_calculators rqs ctx = Ok replies ctx' /\
      calculators_ok (calculatorManager ctx') cs' /\
      Forall valid_calculator cs'.
Proof.
  induction rqs as [|rq rqs IH]; intros ctx cs Hok Hv;
    cbn [serve_calculators].
  - exists [], ctx, cs. auto.
  - destruct (route_keeps rq ctx cs Hok Hv) as (r & c1 & cs1 & E & H1 & V1).
    destruct (IH c1 cs1 H1 V1) as (rs & c2 & cs2 & E2 & H2).
    eexists. exists c2, cs2. rewrite (bind_ok _ E), (bind_ok _ E2).
    split; [reflexivity|exact H2].
Qed.

End WithRuntime.

End CalculatorHandlers.

Lemma accepted_safe {R : Runtime} (body : CalculatorController.Body.t)
  (g b : Z) :
  calculator_accepted body g b -> safe_integer g /\ safe_integer b.
Proof.
  intros (_ & _ & _ & Bg & Bb). unfold safe_integer.
  change (2 ^ 53 - 1) with 9007199254740991. lia.
Qed.

(** X11.  An accepted create form.  When the oid parses and the other
    fields are accepted, [postCreate] calls the add once, with the parsed
    numbers and the trimmed manufacturer.  With a new key on a path that
    can be written the record goes last in the file and the answer is the
    redirection to the list; with a key that is there nothing is written
    and the form comes back with the generic error and the text that
    [String] gives of the parsed numbers: the decimal numeral of the grade
    and of the battery type, and of the oid when it is a safe integer. *)
Theorem postCreate_accepted (R : Runtime) (L : RuntimeLaws R)
  (N : NumberLaws R) :
  forall (body : CalculatorController.Body.t)
         (ctx : CalculatorController.Ctx) (cs : list Calculator)
         (k g b : Z),
    let m := trim_or_empty (CalculatorController.Body.manufacturer body) in
    let added := CalculatorController.AddCalculator k m g b in
    CalculatorController.parseInt
      (unknown_of (CalculatorController.Body.oid body)) = Some k ->
    calculator_accepted body g b ->
    lists_calculators (CalculatorController.calculatorManager ctx) cs ->
    (~ In k (map oid cs) ->
     CalculatorController.calculatorManager ctx <> Blocked ->
     CalculatorController.postCreate body ctx
     = Ok (CalculatorController.Redirect "/calculators")
          (calculator_called ctx added
             (file_of
                (map toJS
                   (cs ++ [{| oid := k; manufacturer := m; grade := g;
                              batteryType := b |}])))))
    /\
    (In k (map oid cs) ->
     CalculatorController.postCreate body ctx
     = Ok (calculator_form Add "/calculators/create"
             {| CalculatorController.Values.oid := String_of_number k;
                CalculatorController.Values.manufacturer := m;
                CalculatorController.Values.grade := String_of_number g;
                CalculatorController.Values.batteryType :=
                  String_of_number b |}
             (Some CalculatorController.genericError))
          (calculator_called ctx added
             (ensured (CalculatorController.calculatorManager ctx))))
    /\
    String_of_number g = decimal g /\ String_of_number b = decimal b /\
    (safe_integer k -> String_of_number k = decimal k).
Proof.
  intros body ctx cs k g b m added Hk Ha Hl.
  apply lists_calculators_iff in Hl. repeat apply conj.
  - intros Hfresh Hd.
    apply (CalculatorHandlers.postCreate_fresh body ctx cs k g b Hk Ha Hd Hl
             Hfresh).
  - intros Hdup.
    apply (CalculatorForms.postCreate_duplicate body ctx cs k g b Hk Ha Hl
             Hdup).
  - apply String_safe_integer, (accepted_safe body g b Ha).
  - apply String_safe_integer, (accepted_safe body g b Ha).
  - apply String_safe_integer.
Qed.

(** X12.  An edit form.  With a route parameter that is no integer
    [postEdit] redirects to the list and calls nothing.  With an accepted
    form it calls the update once and redirects to the list whether or not
    a record has the key: the first record with the key gets the trimmed
    manufacturer and the parsed numbers and keeps its key and its place;
    when no record has the key nothing is written. *)
Theorem postEdit_accepted (R : Runtime) (L : RuntimeLaws R) :
  (forall (param : string) (body : CalculatorController.Body.t)
          (ctx : CalculatorController.Ctx),
      CalculatorController.parseInt (UString param) = None ->
      CalculatorController.postEdit param body ctx
      = Ok (CalculatorController.Redirect "/calculators") ctx)
  /\
  (forall (param : string) (body : CalculatorController.Body.t)
          (ctx : CalculatorController.Ctx) (pre post : list Calculator)
          (c : Calculator) (g b : Z),
      let m := trim_or_empty (CalculatorController.Body.manufacturer body) in
      CalculatorController.parseInt (UString param) = Some (oid c) ->
      calculator_accepted body g b ->
      CalculatorController.calculatorManager ctx <> Blocked ->
      lists_calculators (CalculatorController.calculatorManager ctx)
        (pre ++ c :: post) ->
      ~ In (oid c) (map oid pre) ->
      CalculatorController.postEdit param body ctx
      = Ok (CalculatorController.Redirect "/calculators")
           (calculator_called ctx
              (CalculatorController.EditCalculator (oid c) m g b)
              (file_of
                 (map toJS
                    (pre ++ {| oid := oid c; manufacturer := m; grade := g;
                               batteryType := b |} :: post)))))
  /\
  (forall (param : string) (body : CalculatorController.Body.t)
          (ctx : CalculatorController.Ctx) (cs : list Calculator)
          (k g b : Z),
      let m := trim_or_empty (CalculatorController.Body.manufacturer body) in
      CalculatorController.parseInt (UString param) = Some k ->
      calculator_accepted body g b ->
      lists_calculators (CalculatorController.calculatorManager ctx) cs ->
      ~ In k (map oid cs) ->
      CalculatorController.postEdit param body ctx
      = Ok (CalculatorController.Redirect "/calculators")
           (calculator_called ctx
              (CalculatorController.EditCalculator k m g b)
              (ensured (CalculatorController.calculatorManager ctx)))).
Proof.
  repeat apply conj.
  - intros param body ctx. apply CalculatorHandlers.postEdit_invalid.
  - intros param body ctx pre post c g b m Hk Ha Hd Hl Hpre.
    apply lists_calculators_iff in Hl.
    apply (CalculatorHandlers.postEdit_present param body ctx pre post c g b
             Hk Ha Hd Hl Hpre).
  - intros param body ctx cs k g b m Hk Ha Hl Hout.
    apply lists_calculators_iff in Hl.
    apply (CalculatorHandlers.postEdit_missing param body ctx cs k g b Hk Ha
             Hl Hout).
Qed.

(** X13.  The edit page.  With a route parameter that is no integer
    [getEdit] redirects to the list and calls nothing; when no record has
    the key it redirects to the list; otherwise it shows the edit form of
    the first record with the key: the text that [String] gives of its
    numbers, its manufacturer, no error, and the route parameter, encoded,
    in the action. *)
Theorem getEdit_shows_record (R : Runtime) :
  (forall (param : string) (ctx : CalculatorController.Ctx),
      CalculatorController.parseInt (UString param) = None ->
      CalculatorPages.getEdit param ctx
      = Ok (CalculatorController.Redirect "/calculators") ctx)
  /\
  (forall (param : string) (ctx : CalculatorController.Ctx)
          (cs : list Calculator) (k : Z),
      CalculatorController.parseInt (UString param) = Some k ->
      lists_calculators (CalculatorController.calculatorManager ctx) cs ->
      ~ In k (map oid cs) ->
      CalculatorPages.getEdit param ctx
      = Ok (CalculatorController.Redirect "/calculators")
           (calculator_called ctx (CalculatorController.GetCalculatorByOid k)
              (ensured (CalculatorController.calculatorManager ctx))))
  /\
  (forall (param : string) (ctx : CalculatorController.Ctx)
          (pre post : list Calculator) (c : Calculator),
      CalculatorController.parseInt (UString param) = Some (oid c) ->
      lists_calculators (CalculatorController.calculatorManager ctx)
        (pre ++ c :: post) ->
      ~ In (oid c) (map oid pre) ->
      CalculatorPages.getEdit param ctx
      = Ok (calculator_form Edit
              ("/calculators/edit/" ++ encodeURIComponent param)
              {| CalculatorController.Values.oid := String_of_number (oid c);
                 CalculatorController.Values.manufacturer := manufacturer c;
                 CalculatorController.Values.grade :=
                   String_of_number (grade c);
                 CalculatorController.Values.batteryType :=
                   String_of_number (batteryType c) |}
              None)
           (calculator_called ctx
              (CalculatorController.GetCalculatorByOid (oid c))
              (ensured (CalculatorController.calculatorManager ctx)))).
Proof.
  repeat apply conj.
  - intros param ctx. apply CalculatorHandlers.getEdit_invalid.
  - intros param ctx cs k Hk Hl Hout. apply lists_calculators_iff in Hl.
    apply (CalculatorHandlers.getEdit_missing param ctx cs k Hk Hl Hout).
  - intros param ctx pre post c Hk Hl Hpre. apply lists_calculators_iff in Hl.
    apply (CalculatorHandlers.getEdit_present param ctx pre post c Hk Hl
             Hpre).
Qed.

(** X14.  The delete request.  Whenever [postDelete] returns, its answer
    is the redirection to the list.  With a route parameter that is no
    integer it calls nothing; otherwise it calls the delete once: the
    records with the key leave the file, and when there is none nothing is
    written. *)
Theorem postDelete_redirects (R : Runtime) :
  (forall (param : string) (ctx ctx' : CalculatorController.Ctx)
          (r : CalculatorController.Response),
      CalculatorPages.postDelete param ctx = Ok r ctx' ->
      r = CalculatorController.Redirect "/calculators")
  /\
  (forall (param : string) (ctx : CalculatorController.Ctx),
      CalculatorController.parseInt (UString param) = None ->
      CalculatorPages.postDelete param ctx
      = Ok (CalculatorController.Redirect "/calculators") ctx)
  /\
  (forall (param : string) (ctx : CalculatorController.Ctx)
          (cs : list Calculator) (k : Z),
      CalculatorController.parseInt (UString param) = Some k ->
      CalculatorController.calculatorManager ctx <> Blocked ->
      lists_calculators (CalculatorController.calculatorManager ctx) cs ->
      In k (map oid cs) ->
      CalculatorPages.postDelete param ctx
      = Ok (CalculatorController.Redirect "/calculators")
           (calculator_called ctx (CalculatorController.DeleteCalculator k)
              (file_of
                 (map toJS
                    (List.filter (fun c => negb (oid c =? k)) cs)))))
  /\
  (forall (param : string) (ctx : CalculatorController.Ctx)
          (cs : list Calculator) (k : Z),
      CalculatorController.parseInt (UString param) = Some k ->
      lists_calculators (CalculatorController.calculatorManager ctx) cs ->
      ~ In k (map oid cs) ->
      CalculatorPages.postDelete param ctx
      = Ok (CalculatorController.Redirect "/calculators")
           (calculator_called ctx (CalculatorController.DeleteCalculator k)
              (ensured (CalculatorController.calculatorManager ctx)))).
Proof.
  repeat apply conj.
  - intros param ctx ctx' r. unfold CalculatorPages.postDelete.
    destruct (CalculatorController.parseInt (UString param)) as [k|].
    + cbn [bind M_monad].
      destruct (CalculatorController.call _ _ ctx); [|discriminate].
      intros [= <- _]. reflexivity.
    + intros [= <- _]. reflexivity.
  - intros param ctx. apply CalculatorHandlers.postDelete_invalid.
  - intros param ctx cs k Hk Hd Hl Hin. apply lists_calculators_iff in Hl.
    apply (CalculatorHandlers.postDelete_present param ctx cs k Hk Hd Hl Hin).
  - intros param ctx cs k Hk Hl Hout. apply lists_calculators_iff in Hl.
    apply (CalculatorHandlers.postDelete_missing param ctx cs k Hk Hl Hout).
Qed.

(** X15.  The list page.  On a store of records [getIndex] renders the
    index view with every record in its order, each with its four fields
    and, as [encodedTitle], the encoded text that [String] gives of its
    key; [hasCalculators] tells whether there is a record.  Nothing is
    written.  For a key that is a safe integer [encodedTitle] is its decimal
    numeral, which the encoding leaves as it is. *)
Theorem getIndex_lists_records (R : Runtime) (N : NumberLaws R) :
  (forall (ctx : CalculatorController.Ctx) (cs : list Calculator),
      lists_calculators (CalculatorController.calculatorManager ctx) cs ->
      CalculatorPages.getIndex ctx
      = Ok (CalculatorPages.RenderIndex "calculators/calculatorIndex"
              {| CalculatorPages.Index.title := "Calculators";
                 CalculatorPages.Index.calculators :=
                   map listed_calculator cs;
                 CalculatorPages.Index.hasCalculators :=
                   negb (match cs with [] => true | _ => false end) |})
           (calculator_called ctx CalculatorController.GetCalculators
              (ensured (CalculatorController.calculatorManager ctx))))
  /\
  (forall c : Calculator,
      safe_integer (oid c) ->
      listed_calculator c
      = JObj [("oid", JNum (oid c)); ("manufacturer", JStr (manufacturer c));
              ("grade", JNum (grade c));
              ("batteryType", JNum (batteryType c));
              ("encodedTitle", JStr (decimal (oid c)))]).
Proof.
  split.
  - intros ctx cs Hl. apply lists_calculators_iff in Hl.
    apply CalculatorHandlers.getIndex_run, Hl.
  - intros c H. unfold listed_calculator.
    rewrite (encodedTitle_safe (oid c) H). reflexivity.
Qed.

(** X16.  The pages do not write.  Whatever the backing file holds, and
    whether they return or throw, [getIndex], [getCreate] and [getEdit]
    leave it as a read leaves it ([ensured]): an existing file keeps its
    text, a missing one is at most created holding the empty array. *)
Theorem pages_do_not_write (R : Runtime) :
  forall ctx : CalculatorController.Ctx,
    let d := CalculatorController.calculatorManager ctx in
    CalculatorController.calculatorManager
      (final (CalculatorPages.getIndex ctx)) = ensured d
    /\
    CalculatorController.calculatorManager
      (final (CalculatorPages.getCreate ctx)) = d
    /\
    (forall param : string,
        CalculatorController.calculatorManager
          (final (CalculatorPages.getEdit param ctx)) = d \/
        CalculatorController.calculatorManager
          (final (CalculatorPages.getEdit param ctx)) = ensured d)
    /\
    (forall raw : string, ensured (File raw) = File raw).
Proof.
  intros ctx d. repeat apply conj.
  - apply CalculatorHandlers.getIndex_final.
  - reflexivity.
  - intros param. apply CalculatorHandlers.getEdit_final.
  - reflexivity.
Qed.

(** X17.  The requests keep the data model.  From a store on a path that
    can be written whose records have pairwise different keys, a
    manufacturer that is trimmed and not empty, a grade from 0 to 10 and a
    battery type from 1 to 3, every sequence of requests of the calculators
    router whose form fields are strings or absent, as an HTML form sends
    them, is served without an exception and leaves such a store.  (A
    request with a field of another type is no [Request]: nothing is said
    of it.) *)
Theorem calculator_requests_keep_model (R : Runtime) (L : RuntimeLaws R) :
  forall (rqs : list CalculatorsRouter.Request)
         (ctx : CalculatorController.Ctx) (cs : list Calculator),
    CalculatorController.calculatorManager ctx <> Blocked ->
    lists_calculators (CalculatorController.calculatorManager ctx) cs ->
    NoDup (map oid cs) -> Forall valid_calculator cs ->
    exists replies ctx' cs',
      serve_calculators rqs ctx = Ok replies ctx' /\
      List.length replies = List.length rqs /\
      lists_calculators (CalculatorController.calculatorManager ctx') cs' /\
      NoDup (map oid cs') /\ Forall valid_calculator cs'.
Proof.
  intros rqs ctx cs Hd Hl Hnd Hv. apply lists_calculators_iff in Hl.
  destruct (CalculatorHandlers.serve_keeps rqs ctx cs (conj Hd (conj Hl Hnd))
              Hv) as (rs & ctx' & cs' & E & (_ & Hl' & Hnd') & Hv').
  exists rs, ctx', cs'. repeat split; auto.
  - clear - E. revert ctx ctx' rs E.
    induction rqs as [|rq rqs IH]; intros ctx ctx' rs E; cbn in E.
    + injection E as <- _. reflexivity.
    + destruct (CalculatorsRouter.route rq ctx) as [r c1|]; [|discriminate].
      destruct (serve_calculators rqs c1) as [rs1 c2|] eqn:E1;
        [|discriminate].
      injection E as <- <-. cbn. f_equal. apply (IH c1 c2 rs1 E1).
  - apply lists_calculators_iff, Hl'.
Qed.

(** ** The note handlers on a store of records *)

Module NoteHandlers.
Import NoteController.
Import NoteForms.

Section WithRuntime.
Context {R : Runtime}.


Lemma note_postCreate_fresh (form : Body.t) (ctx : Ctx) (ns : list Note) :
  let t := trim_or_empty (Body.title form) in
  let b := trim_or_empty (Body.body form) in
  t <> "" -> b <> "" ->
  NoteManager.disk (noteManager ctx) <> Blocked ->
  stores (NoteManager.disk (noteManager ctx)) (map toJS ns) ->
  ~ In t (map title ns) ->
  postCreate form ctx
  = Ok (Redirect "/notes/index")
       (note_called ctx (AddNote t b)
          (manager (file_of (map toJS (ns ++ [{| title := t; body := b |}])))
             (ns ++ [{| title := t; body := b |}]))).
Proof.
  intros t b Ht Hb Hd Hl Hfresh. rewrite (note_postCreate_run form ctx Ht Hb).
  rewrite (bind_ok _ (note_call_run _ _ ctx _ _
                        (addNote_fresh _ ns t b Hd Hl Hfresh))).
  reflexivity.
Qed.

Lemma note_postUpdate_run (param : string) (form : Body.t) (ctx : Ctx) :
  let b := trim_or_empty (Body.body form) in
  b <> "" ->
  postUpdate param form ctx
  = (_ <- call (UpdateNote param b) (NoteManager.updateNote param b) ;;
     ret (Redirect "/notes/index")) ctx.
Proof.
  intros b Hb. unfold postUpdate. fold b. rewrite (nonempty_true b Hb).
  cbn [negb bind M_monad].
  destruct (call _ _ ctx) as [u ctx'|e ctx']; [|reflexivity].
  destruct (negb (truthy_any u)); reflexivity.
Qed.

Lemma note_postUpdate_present (form : Body.t) (ctx : Ctx) (pre post : list Note)
  (n : Note) :
  let b := trim_or_empty (Body.body form) in
  b <> "" ->
  NoteManager.disk (noteManager ctx) <> Blocked ->
  stores (NoteManager.disk (noteManager ctx)) (map toJS (pre ++ n :: post)) ->
  ~ In (title n) (map title pre) ->
  postUpdate (title n) form ctx
  = Ok (Redirect "/notes/index")
       (note_called ctx (UpdateNote (title n) b)
          (manager (file_of (map toJS (pre ++ with_body n b :: post)))
             (pre ++ with_body n b :: post))).
Proof.
  intros b Hb Hd Hl Hpre. rewrite (note_postUpdate_run (title n) form ctx Hb).
  rewrite (bind_ok _ (note_call_run _ _ ctx _ _
                        (updateNote_present _ pre post n b Hd Hl Hpre))).
  reflexivity.
Qed.

Lemma note_postUpdate_missing (param : string) (form : Body.t) (ctx : Ctx)
  (ns : list Note) :
  let b := trim_or_empty (Body.body form) in
  b <> "" ->
  stores (NoteManager.disk (noteManager ctx)) (map toJS ns) ->
  ~ In param (map title ns) ->
  postUpdate param form ctx
  = Ok (Redirect "/notes/index")
       (note_called ctx (UpdateNote param b)
          (manager (ensured (NoteManager.disk (noteManager ctx))) ns)).
Proof.
  intros b Hb Hl Hout. rewrite (note_postUpdate_run param form ctx Hb).
  rewrite (bind_ok _ (note_call_run _ _ ctx _ _
                        (updateNote_missing _ ns param b Hl Hout))).
  reflexivity.
Qed.

Lemma getUpdate_missing (param : string) (ctx : Ctx) (ns : list Note) :
  stores (NoteManager.disk (noteManager ctx)) (map toJS ns) ->
  ~ In param (map title ns) ->
  NotePages.getUpdate param ctx
  = Ok (Redirect "/notes/index")
       (note_called ctx (GetNoteByTitle param)
          (manager (ensured (NoteManager.disk (noteManager ctx))) ns)).
Proof.
  intros Hl Hout. unfold NotePages.getUpdate.
  rewrite (bind_ok _ (note_call_run _ _ ctx _ _
                        (getNoteByTitle_run _ ns param Hl))).
  rewrite find_absent by (apply has_title_absent, Hout). reflexivity.
Qed.

Lemma getUpdate_present (ctx : Ctx) (pre post : list Note) (n : Note) :
  stores (NoteManager.disk (noteManager ctx)) (map toJS (pre ++ n :: post)) ->
  ~ In (title n) (map title pre) ->
  NotePages.getUpdate (title n) ctx
  = Ok (note_form Edit ("/notes/update/" ++ encodeURIComponent (title n))
          (JStr (title n)) (JStr (body n)) None)
       (note_called ctx (GetNoteByTitle (title n))
          (manager (ensured (NoteManager.disk (noteManager ctx)))
             (pre ++ n :: post))).
Proof.
  intros Hl Hpre. unfold NotePages.getUpdate.
  rewrite (bind_ok _ (note_call_run _ _ ctx _ _
                        (getNoteByTitle_run _ _ (title n) Hl))).
  rewrite (find_first (has_title (title n)) pre post n);
    [|apply has_title_absent, Hpre|apply String.eqb_refl].
  reflexivity.
Qed.

Lemma getDelete_present (param : string) (ctx : Ctx) (ns : list Note) :
  NoteManager.disk (noteManager ctx) <> Blocked ->
  stores (NoteManager.disk (noteManager ctx)) (map toJS ns) ->
  In param (map title ns) ->
  NotePages.getDelete param ctx
  = Ok (Redirect "/notes/index")
       (note_called ctx (RemoveNote param)
          (manager
             (file_of
                (map toJS
                   (List.filter (fun n => negb (has_title param n)) ns)))
             (List.filter (fun n => negb (has_title param n)) ns))).
Proof.
  intros Hd Hl Hin. unfold NotePages.getDelete.
  rewrite (bind_ok _ (note_call_run _ _ ctx _ _
                        (removeNote_present _ ns param Hd Hl Hin))).
  reflexivity.
Qed.

Lemma getDelete_missing (param : string) (ctx : Ctx) (ns : list Note) :
  stores (NoteManager.disk (noteManager ctx)) (map toJS ns) ->
  ~ In param (map title ns) ->
  NotePages.getDelete param ctx
  = Ok (Redirect "/notes/index")
       (note_called ctx (RemoveNote param)
          (manager (ensured (NoteManager.disk (noteManager ctx))) ns)).
Proof.
  intros Hl Hout. unfold NotePages.getDelete.
  rewrite (bind_ok _ (note_call_run _ _ ctx _ _
                        (removeNote_missing _ ns param Hl Hout))).
  reflexivity.
Qed.





Context {L : RuntimeLaws R}.









End WithRuntime.

End NoteHandlers.

(** X18.  An accepted create form of a note.  When the trimmed title and
    the trimmed body are not empty, [postCreate] calls the add once with
    them.  With a new title on a path that can be written the note goes
    last in the file and the answer is the redirection to the list; with a
    title that is there nothing is written and the form comes back with
    the trimmed values and the message that the title exists. *)
Theorem note_postCreate_accepted (R : Runtime) (L : RuntimeLaws R) :
  forall (form : NoteController.Body.t) (ctx : NoteController.Ctx)
         (ns : list Note),
    let t := trim_or_empty (NoteController.Body.title form) in
    let b := trim_or_empty (NoteController.Body.body form) in
    t <> "" -> b <> "" ->
    lists_notes (NoteController.noteManager ctx) ns ->
    (~ In t (map title ns) ->
     NoteManager.disk (NoteController.noteManager ctx) <> Blocked ->
     NoteController.postCreate form ctx
     = Ok (NoteController.Redirect "/notes/index")
          (note_called ctx (NoteController.AddNote t b)
             (manager
                (file_of (map toJS (ns ++ [{| title := t; body := b |}])))
                (ns ++ [{| title := t; body := b |}]))))
    /\
    (In t (map title ns) ->
     NoteController.postCreate form ctx
     = Ok (note_form Add "/notes/create" (JStr t) (JStr b)
             (Some "A note with that title already exists."))
          (note_called ctx (NoteController.AddNote t b)
             (manager
                (ensured (NoteManager.disk (NoteController.noteManager ctx)))
                ns))).
Proof.
  intros form ctx ns t b Ht Hb Hl. apply lists_notes_iff in Hl. split.
  - intros Hfresh Hd.
    apply (NoteHandlers.note_postCreate_fresh form ctx ns Ht Hb Hd Hl Hfresh).
  - intros Hdup.
    apply (NoteForms.note_postCreate_duplicate form ctx ns Ht Hb Hl Hdup).
Qed.

(** X19.  An accepted update form of a note.  When the trimmed body is not
    empty, [postUpdate] calls the update once, with the route title as it
    is and the trimmed body, and redirects to the list whether or not a
    note has the title: the first note with the title gets the body and
    keeps its title and its place; when no note has the title nothing is
    written. *)
Theorem note_postUpdate_accepted (R : Runtime) (L : RuntimeLaws R) :
  (forall (form : NoteController.Body.t) (ctx : NoteController.Ctx)
          (pre post : list Note) (n : Note),
      let b := trim_or_empty (NoteController.Body.body form) in
      b <> "" ->
      NoteManager.disk (NoteController.noteManager ctx) <> Blocked ->
      lists_notes (NoteController.noteManager ctx) (pre ++ n :: post) ->
      ~ In (title n) (map title pre) ->
      NoteController.postUpdate (title n) form ctx
      = Ok (NoteController.Redirect "/notes/index")
           (note_called ctx (NoteController.UpdateNote (title n) b)
              (manager
                 (file_of
                    (map toJS
                       (pre ++ {| title := title n; body := b |} :: post)))
                 (pre ++ {| title := title n; body := b |} :: post))))
  /\
  (forall (param : string) (form : NoteController.Body.t)
          (ctx : NoteController.Ctx) (ns : list Note),
      let b := trim_or_empty (NoteController.Body.body form) in
      b <> "" ->
      lists_notes (NoteController.noteManager ctx) ns ->
      ~ In param (map title ns) ->
      NoteController.postUpdate param form ctx
      = Ok (NoteController.Redirect "/notes/index")
           (note_called ctx (NoteController.UpdateNote param b)
              (manager
                 (ensured (NoteManager.disk (NoteController.noteManager ctx)))
                 ns))).
Proof.
  split.
  - intros form ctx pre post n b Hb Hd Hl Hpre. apply lists_notes_iff in Hl.
    apply (NoteHandlers.note_postUpdate_present form ctx pre post n Hb Hd Hl
             Hpre).
  - intros param form ctx ns b Hb Hl Hout. apply lists_notes_iff in Hl.
    apply (NoteHandlers.note_postUpdate_missing param form ctx ns Hb Hl Hout).
Qed.

(** X20.  The update page of a note.  When no note has the route title
    [getUpdate] redirects to the list; otherwise it shows the edit form of
    the first note with the title: its title and body, no error, and the
    title, encoded, in the action. *)
Theorem getUpdate_shows_note (R : Runtime) :
  (forall (param : string) (ctx : NoteController.Ctx) (ns : list Note),
      lists_notes (NoteController.noteManager ctx) ns ->
      ~ In param (map title ns) ->
      NotePages.getUpdate param ctx
      = Ok (NoteController.Redirect "/notes/index")
           (note_called ctx (NoteController.GetNoteByTitle param)
              (manager
                 (ensured (NoteManager.disk (NoteController.noteManager ctx)))
                 ns)))
  /\
  (forall (ctx : NoteController.Ctx) (pre post : list Note) (n : Note),
      lists_notes (NoteController.noteManager ctx) (pre ++ n :: post) ->
      ~ In (title n) (map title pre) ->
      NotePages.getUpdate (title n) ctx
      = Ok (note_form Edit
              ("/notes/update/" ++ encodeURIComponent (title n))
              (JStr (title n)) (JStr (body n)) None)
           (note_called ctx (NoteController.GetNoteByTitle (title n))
              (manager
                 (ensured (NoteManager.disk (NoteController.noteManager ctx)))
                 (pre ++ n :: post)))).
Proof.
  split.
  - intros param ctx ns Hl Hout. apply lists_notes_iff in Hl.
    apply (NoteHandlers.getUpdate_missing param ctx ns Hl Hout).
  - intros ctx pre post n Hl Hpre. apply lists_notes_iff in Hl.
    apply (NoteHandlers.getUpdate_present ctx pre post n Hl Hpre).
Qed.

(** X21.  The delete link of a note.  [getDelete], a GET request, removes:
    whenever it returns its answer is the redirection to the list; the
    notes with the route title leave the file, and when there is none
    nothing is written. *)
Theorem getDelete_removes (R : Runtime) :
  (forall (param : string) (ctx ctx' : NoteController.Ctx)
          (r : NoteController.Response),
      NotePages.getDelete param ctx = Ok r ctx' ->
      r = NoteController.Redirect "/notes/index")
  /\
  (forall (param : string) (ctx : NoteController.Ctx) (ns : list Note),
      NoteManager.disk (NoteController.noteManager ctx) <> Blocked ->
      lists_notes (NoteController.noteManager ctx) ns ->
      In param (map title ns) ->
      let rest := List.filter (fun n => negb (title n =? param)%string) ns in
      NotePages.getDelete param ctx
      = Ok (NoteController.Redirect "/notes/index")
           (note_called ctx (NoteController.RemoveNote param)
              (manager (file_of (map toJS rest)) rest)))
  /\
  (forall (param : string) (ctx : NoteController.Ctx) (ns : list Note),
      lists_notes (NoteController.noteManager ctx) ns ->
      ~ In param (map title ns) ->
      NotePages.getDelete param ctx
      = Ok (NoteController.Redirect "/notes/index")
           (note_called ctx (NoteController.RemoveNote param)
              (manager
                 (ensured (NoteManager.disk (NoteController.noteManager ctx)))
                 ns))).
Proof.
  repeat apply conj.
  - intros param ctx ctx' r. unfold NotePages.getDelete. cbn [bind M_monad].
    destruct (NoteController.call _ _ ctx); [|discriminate].
    intros [= <- _]. reflexivity.
  - intros param ctx ns Hd Hl Hin rest. apply lists_notes_iff in Hl.
    apply (NoteHandlers.getDelete_present param ctx ns Hd Hl Hin).
  - intros param ctx ns Hl Hout. apply lists_notes_iff in Hl.
    apply (NoteHandlers.getDelete_missing param ctx ns Hl Hout).
Qed.



(** ** Logging in *)

Module Login.

Lemma postLogin_cases (e p : option string) (s : Auth.State) :
  (exists u,
      Auth.users s = Some u /\ e = Some (Auth.email u) /\
      p = Some (Auth.password u) /\
      Auth.email u <> "" /\ Auth.password u <> "" /\
      HomeController.postLogin e p s
      = Ok (HomeController.Redirect "/notes/index")
           {| Auth.users := Auth.users s; Auth.loggedIn := true |}) \/
  HomeController.postLogin e p s
  = Ok (HomeController.Render 401 "login" "Login"
          (Some "Invalid email or password.")) s.
Proof.
  destruct e as [e|], p as [p|]; try (right; reflexivity).
  unfold HomeController.postLogin, nonempty.
  destruct (String.eqb_spec e "") as [He|He]; [right; reflexivity|].
  destruct (String.eqb_spec p "") as [Hp|Hp]; [right; reflexivity|].
  cbn [negb andb]. unfold Auth.isValidUser. cbn [bind M_monad].
  destruct (Auth.users s) as [u|] eqn:Eu; [|right; reflexivity].
  destruct (String.eqb_spec (Auth.email u) e) as [E1|E1];
    [|right; reflexivity].
  destruct (String.eqb_spec (Auth.password u) p) as [E2|E2];
    [|right; reflexivity].
  left. exists u. subst e p. cbn. rewrite Eu. auto 10.
Qed.

Lemma route_step (rq : HomeRouter.Request) (s : Auth.State) :
  exists r s',
    HomeRouter.route rq s = Ok r s' /\
    Auth.users s' = Auth.users s /\
    (Auth.loggedIn s' = true ->
     Auth.loggedIn s = true \/
     exists u,
       Auth.users s = Some u /\
       rq = HomeRouter.PostLogin (Some (Auth.email u))
              (Some (Auth.password u))).
Proof.
  destruct rq as [| | | | |e p|]; cbn [HomeRouter.route];
    try (eexists; exists s; split; [reflexivity|]; split; auto; fail).
  - exists (if Auth.loggedIn s then HomeController.Redirect "/notes/index"
            else HomeController.Render 200 "login" "Login" None), s.
    split; [|split; auto].
    unfold HomeController.getLogin. cbn. destruct (Auth.loggedIn s);
      reflexivity.
  - destruct (postLogin_cases e p s)
      as [(u & Eu & -> & -> & _ & _ & E)|E]; rewrite E.
    + eexists. eexists. split; [reflexivity|]. split; [reflexivity|].
      intros _. right. exists u. auto.
    + eexists. exists s. split; [reflexivity|]. split; auto.
  - eexists. eexists. split; [reflexivity|]. split; [reflexivity|].
    cbn. discriminate.
Qed.

Lemma serve_steps (rqs : list HomeRouter.Request) :
  forall s : Auth.State,
    exists rs s',
      serve_home rqs s = Ok rs s' /\
      Auth.users s' = Auth.users s /\
      (Auth.loggedIn s' = true ->
       Auth.loggedIn s = true \/
       exists u,
         Auth.users s = Some u /\
         In (HomeRouter.PostLogin (Some (Auth.email u))
               (Some (Auth.password u))) rqs).
Proof.
  induction rqs as [|rq rqs IH]; intros s; cbn [serve_home].
  - exists [], s. split; [reflexivity|]. split; auto.
  - destruct (route_step rq s) as (r & s1 & E & Hu & Hl).
    destruct (IH s1) as (rs & s2 & E2 & Hu2 & Hl2).
    eexists. exists s2. rewrite (bind_ok _ E), (bind_ok _ E2).
    split; [reflexivity|]. split; [congruence|].
    intros H. destruct (Hl2 H) as [H1|(u & Eu & Hin)].
    + destruct (Hl H1) as [H0|(u & Eu & ->)]; [left; exact H0|].
      right. exists u. split; [exact Eu|left; reflexivity].
    + right. exists u. split; [congruence|right; exact Hin].
Qed.

End Login.

(** X24.  Logging in needs the registered credentials.  After [setUsers],
    [postLogin] answers a form that carries the registered email and
    password, both not empty, by the redirection to the notes and sets the
    login flag;
    every other form is answered by status 401 and leaves the state as it
    was.  Served from a state that is not logged in, a sequence of requests
    of the home router ends logged in only if a user is registered and one
    of the requests is a login with exactly its email and password; no
    request changes the registered user.  [getLogout] clears the flag.
    The middleware stops no request: it reports the flag as it is and hands
    the request on. *)
Theorem login_needs_credentials :
  (forall (s : Auth.State) (u : Auth.UserRecord),
      Auth.email u <> "" -> Auth.password u <> "" ->
      (Auth.setUsers u ;;
       HomeController.postLogin (Some (Auth.email u))
         (Some (Auth.password u))) s
      = Ok (HomeController.Redirect "/notes/index")
           {| Auth.users := Some u; Auth.loggedIn := true |})
  /\
  (forall (s : Auth.State) (e p : option string),
      ~ (exists u,
            Auth.users s = Some u /\ e = Some (Auth.email u) /\
            p = Some (Auth.password u) /\
            Auth.email u <> "" /\ Auth.password u <> "") ->
      HomeController.postLogin e p s
      = Ok (HomeController.Render 401 "login" "Login"
              (Some "Invalid email or password.")) s)
  /\
  (forall (rqs : list HomeRouter.Request) (s : Auth.State),
      Auth.loggedIn s = false ->
      exists rs s',
        serve_home rqs s = Ok rs s' /\
        Auth.users s' = Auth.users s /\
        (Auth.loggedIn s' = true ->
         exists u,
           Auth.users s = Some u /\
           In (HomeRouter.PostLogin (Some (Auth.email u))
                 (Some (Auth.password u))) rqs))
  /\
  (forall s : Auth.State,
      HomeController.getLogout s
      = Ok (HomeController.Redirect "/")
           {| Auth.users := Auth.users s; Auth.loggedIn := false |})
  /\
  (forall (rq : HomeRouter.Request) (s : Auth.State),
      exists r s',
        HomeRouter.route rq s = Ok r s' /\
        Auth.authMiddleware (HomeRouter.route rq) s
        = Ok (Auth.loggedIn s, r) s').
Proof.
  repeat apply conj.
  - intros s u He Hp.
    assert (Auth.setUsers u s
            = Ok tt {| Auth.users := Some u;
                       Auth.loggedIn := Auth.loggedIn s |}) as E0
      by reflexivity.
    rewrite (bind_ok _ E0).
    unfold HomeController.postLogin.
    rewrite (nonempty_true _ He), (nonempty_true _ Hp).
    unfold Auth.isValidUser. cbn [andb bind M_monad Auth.users].
    rewrite !String.eqb_refl. reflexivity.
  - intros s e p H.
    destruct (Login.postLogin_cases e p s)
      as [(u & Eu & Ee & Ep & He & Hp & _)|E]; [|exact E].
    exfalso. apply H. exists u. auto.
  - intros rqs s Hs.
    destruct (Login.serve_steps rqs s) as (rs & s' & E & Hu & Hl).
    exists rs, s'. split; [exact E|]. split; [exact Hu|].
    intros H. destruct (Hl H) as [H0|H1]; [congruence|exact H1].
  - reflexivity.
  - intros rq s. destruct (Login.route_step rq s) as (r & s' & E & _).
    exists r, s'. split; [exact E|].
    unfold Auth.authMiddleware.
    assert (Auth.isLoggedIn s = Ok (Auth.loggedIn s) s) as E0 by reflexivity.
    rewrite (bind_ok _ E0), (bind_ok _ E). reflexivity.
Qed.

(** ** Forms that come back *)

Section Resubmission.
Context {R : Runtime}.

Lemma parseInt_trimmed (s : string) :
  CalculatorController.parseInt (UString (trim s))
  = CalculatorController.parseInt (UString s).
Proof.
  cbn [CalculatorController.parseInt]. rewrite trim_idempotent. reflexivity.
Qed.

Lemma parseInt_or_empty (f : option string) :
  CalculatorController.parseInt (UString (or_empty f))
  = CalculatorController.parseInt (unknown_of f).
Proof. destruct f; reflexivity. Qed.

Lemma parseFormBody_resubmitted (body : CalculatorController.Body.t) :
  CalculatorController.parseFormBody (resubmitted (create_values body))
  = CalculatorController.parseFormBody body.
Proof.
  unfold CalculatorController.parseFormBody, resubmitted, create_values.
  cbn [CalculatorController.Body.oid CalculatorController.Body.manufacturer
       CalculatorController.Body.grade CalculatorController.Body.batteryType
       CalculatorController.Values.oid
       CalculatorController.Values.manufacturer
       CalculatorController.Values.grade
       CalculatorController.Values.batteryType unknown_of or_empty
       trim_or_empty].
  rewrite !parseInt_or_empty, trim_or_empty_trimmed.
  destruct body as [[o|] m [g|] [b|]]; reflexivity.
Qed.

End Resubmission.

(** X25.  A form that comes back parses as before.  [parseInt] does not
    see the white space around its text.  The values a rejected create
    form is redisplayed with, submitted as they are, parse to what the
    first submission parsed to, so that [postCreate] answers them as it
    answered the first; the same holds of the trimmed title and body of a
    note form. *)
Theorem redisplayed_form_parses_alike (R : Runtime) :
  (forall s : string,
      CalculatorController.parseInt (UString (trim s))
      = CalculatorController.parseInt (UString s))
  /\
  (forall body : CalculatorController.Body.t,
      CalculatorController.parseFormBody (resubmitted (create_values body))
      = CalculatorController.parseFormBody body)
  /\
  (forall (body : CalculatorController.Body.t)
          (ctx : CalculatorController.Ctx),
      CalculatorController.postCreate (resubmitted (create_values body)) ctx
      = CalculatorController.postCreate body ctx)
  /\
  (forall (form : NoteController.Body.t) (ctx : NoteController.Ctx),
      NoteController.postCreate
        {| NoteController.Body.title :=
             Some (trim_or_empty (NoteController.Body.title form));
           NoteController.Body.body :=
             Some (trim_or_empty (NoteController.Body.body form)) |} ctx
      = NoteController.postCreate form ctx).
Proof.
  repeat apply conj.
  - apply parseInt_trimmed.
  - apply parseFormBody_resubmitted.
  - intros body ctx. unfold CalculatorController.postCreate.
    rewrite parseFormBody_resubmitted. reflexivity.
  - intros form ctx. unfold NoteController.postCreate.
    cbn [NoteController.Body.title NoteController.Body.body].
    change (trim_or_empty (Some ?x)) with (trim x).
    rewrite !trim_or_empty_trimmed. reflexivity.
Qed.

(** ** The further properties on the reference run time *)


(** The delete of key 7 leaves the lookup of key 8 as it was. *)
Lemma lookup_frame_witness :
  returned
    (CalculatorManager.getCalculatorByOid (R := Reference.runtime) 8
       (file_of (R := Reference.runtime) (map toJS [bolt])))
  = returned
      (CalculatorManager.getCalculatorByOid (R := Reference.runtime) 8
         two_calculators).
Proof.
  apply (proj1 (proj2 (proj2 (lookup_frame Reference.runtime
                                ReferenceFacts.reference_laws)))
           two_calculators _ [acme; bolt] 7 8 true).
  - exists two_calculators. vm_compute. reflexivity.
  - discriminate.
  - vm_compute. reflexivity.
Defined.

(** The lookup of [bolt], second of two records. *)
Lemma lookup_first_match_witness :
  CalculatorManager.getCalculatorByOid (R := Reference.runtime) (oid bolt)
    two_calculators
  = Ok (Some (toJS bolt)) (ensured two_calculators).
Proof.
  apply (proj1 (proj2 (lookup_first_match Reference.runtime))
           two_calculators [acme] [] bolt).
  - exists two_calculators. vm_compute. reflexivity.
  - cbn. intros [H|[]]. discriminate H.
Defined.

(** A file that holds [[null]]. *)
Lemma null_element_throws_witness :
  CalculatorManager.getCalculators (R := Reference.runtime) (File "[null]")
  = Ok (contents (R := Reference.runtime) (File "[null]"))
       (ensured (File "[null]")) /\
  CalculatorManager.deleteCalculator (R := Reference.runtime) 7
    (File "[null]")
  = Throw TypeError (ensured (File "[null]")).
Proof.
  apply (proj1 (null_element_throws Reference.runtime) (File "[null]") 7).
  left. reflexivity.
Defined.

(** The first add on a file that does not hold JSON. *)
Lemma damaged_file_replaced_witness :
  CalculatorManager.addCalculator (R := Reference.runtime) 7 "Acme" 5 2
    (File "not json")
  = Ok (Some (calculator_object 7 "Acme" 5 2))
       (file_of (R := Reference.runtime) [calculator_object 7 "Acme" 5 2]).
Proof.
  apply (proj1 (damaged_file_replaced Reference.runtime
                  ReferenceFacts.reference_laws)).
  apply degraded_invalid. reflexivity.
Defined.

(** The add of [acme] on a fresh disk, then its delete. *)
Lemma add_then_delete_witness :
  CalculatorManager.deleteCalculator (R := Reference.runtime) 7
    (file_of (R := Reference.runtime) [toJS acme])
  = Ok true (file_of (R := Reference.runtime) (map toJS [])) /\
  lists_calculators (R := Reference.runtime)
    (file_of (R := Reference.runtime) (map toJS [])) [].
Proof.
  apply (proj1 (add_then_delete Reference.runtime
                  ReferenceFacts.reference_laws)
           NoFile _ [] 7 "Acme" 5 2 (Some (toJS acme))).
  - exists (File "[]"). reflexivity.
  - intros [].
  - vm_compute. reflexivity.
Defined.

(** The delete of key 7 from the two records, twice. *)
Lemma delete_twice_witness :
  CalculatorManager.deleteCalculator (R := Reference.runtime) 7
    (file_of (R := Reference.runtime) (map toJS [bolt]))
  = Ok false (file_of (R := Reference.runtime) (map toJS [bolt])).
Proof.
  apply (proj1 (delete_twice Reference.runtime ReferenceFacts.reference_laws)
           two_calculators _ [acme; bolt] 7 true).
  - exists two_calculators. vm_compute. reflexivity.
  - vm_compute. reflexivity.
Defined.

(** Two updates of [bolt]. *)
Lemma last_update_wins_witness :
  CalculatorManager.editCalculator (R := Reference.runtime) 8 "Volt" 1 1
    (file_of (R := Reference.runtime)
       (map toJS [acme; with_fields bolt "Bolt" 9 3]))
  = CalculatorManager.editCalculator (R := Reference.runtime) 8 "Volt" 1 1
      two_calculators.
Proof.
  apply (proj1 (last_update_wins Reference.runtime
                  ReferenceFacts.reference_laws)
           two_calculators _ [acme; bolt] 8 "Bolt" "Volt" 9 3 1 1
           (Some (toJS (with_fields bolt "Bolt" 9 3)))).
  - exists two_calculators. vm_compute. reflexivity.
  - vm_compute. reflexivity.
Defined.

(** A manager on the file of the two notes, whatever its cache. *)
Lemma cache_never_stale_witness :
  NoteManager.getNotes (R := Reference.runtime)
    {| NoteManager.disk := NoteManager.disk two_notes;
       NoteManager.notes := [] |}
  = NoteManager.getNotes (R := Reference.runtime)
      {| NoteManager.disk := NoteManager.disk two_notes;
         NoteManager.notes := [JNull] |}.
Proof.
  apply (proj1 (proj1 (cache_never_stale Reference.runtime)
                  (NoteManager.disk two_notes) [] [JNull] eq_refl)).
Defined.

(** The list of the two notes, read with an empty cache. *)
Lemma cache_follows_file_witness :
  NoteManager.notes (manager (NoteManager.disk two_notes) [shopping; chores])
  = contents (R := Reference.runtime)
      (NoteManager.disk
         (manager (NoteManager.disk two_notes) [shopping; chores])).
Proof.
  apply (proj1 (cache_follows_file Reference.runtime
                  ReferenceFacts.reference_laws)
           two_notes _ (map toJS [shopping; chores])).
  vm_compute. reflexivity.
Defined.

(** The form of [acme] on a fresh disk. *)
Lemma postCreate_accepted_witness :
  CalculatorController.postCreate (R := Reference.runtime) acme_form
    fresh_calculators
  = Ok (CalculatorController.Redirect "/calculators")
       (calculator_called fresh_calculators
          (CalculatorController.AddCalculator 7 "Acme" 5 2)
          (file_of (R := Reference.runtime) (map toJS [acme]))).
Proof.
  refine (proj1 (postCreate_accepted Reference.runtime
                   ReferenceFacts.reference_laws
                   ReferenceFacts.reference_numbers acme_form
                   fresh_calculators [] 7 5 2 _ _ _) _ _).
  - reflexivity.
  - unfold calculator_accepted. repeat split; try reflexivity; try lia.
    discriminate.
  - exists (File "[]"). reflexivity.
  - intros [].
  - discriminate.
Defined.

(** The form of [acme] sent to the record of key 8. *)
Lemma postEdit_accepted_witness :
  CalculatorController.postEdit (R := Reference.runtime) "8" acme_form
    listed_calculators
  = Ok (CalculatorController.Redirect "/calculators")
       (calculator_called listed_calculators
          (CalculatorController.EditCalculator 8 "Acme" 5 2)
          (file_of (R := Reference.runtime)
             (map toJS [acme; with_fields bolt "Acme" 5 2]))).
Proof.
  refine (proj1 (proj2 (postEdit_accepted Reference.runtime
                          ReferenceFacts.reference_laws))
            "8" acme_form listed_calculators [acme] [] bolt 5 2 _ _ _ _ _).
  - reflexivity.
  - unfold calculator_accepted. repeat split; try reflexivity; try lia.
    discriminate.
  - discriminate.
  - exists two_calculators. vm_compute. reflexivity.
  - cbn. intros [H|[]]. discriminate H.
Defined.

(** The edit page of [bolt]. *)
Lemma getEdit_shows_record_witness :
  CalculatorPages.getEdit (R := Reference.runtime) "8" listed_calculators
  = Ok (calculator_form Edit "/calculators/edit/8"
          {| CalculatorController.Values.oid := "8";
             CalculatorController.Values.manufacturer := "Bolt";
             CalculatorController.Values.grade := "0";
             CalculatorController.Values.batteryType := "1" |}
          None)
       (calculator_called listed_calculators
          (CalculatorController.GetCalculatorByOid 8) two_calculators).
Proof.
  refine (proj2 (proj2 (getEdit_shows_record Reference.runtime))
            "8" listed_calculators [acme] [] bolt _ _ _).
  - reflexivity.
  - exists two_calculators. vm_compute. reflexivity.
  - cbn. intros [H|[]]. discriminate H.
Defined.

(** The delete request of key 7. *)
Lemma postDelete_redirects_witness :
  CalculatorPages.postDelete (R := Reference.runtime) "7" listed_calculators
  = Ok (CalculatorController.Redirect "/calculators")
       (calculator_called listed_calculators
          (CalculatorController.DeleteCalculator 7)
          (file_of (R := Reference.runtime) (map toJS [bolt]))).
Proof.
  refine (proj1 (proj2 (proj2 (postDelete_redirects Reference.runtime)))
            "7" listed_calculators [acme; bolt] 7 _ _ _ _).
  - reflexivity.
  - discriminate.
  - exists two_calculators. vm_compute. reflexivity.
  - left. reflexivity.
Defined.

(** The list page of the two calculators. *)
Lemma getIndex_lists_records_witness :
  CalculatorPages.getIndex (R := Reference.runtime) listed_calculators
  = Ok (CalculatorPages.RenderIndex "calculators/calculatorIndex"
          {| CalculatorPages.Index.title := "Calculators";
             CalculatorPages.Index.calculators :=
               [listed_calculator (R := Reference.runtime) acme;
                listed_calculator (R := Reference.runtime) bolt];
             CalculatorPages.Index.hasCalculators := true |})
       (calculator_called listed_calculators
          CalculatorController.GetCalculators two_calculators)
  /\
  listed_calculator (R := Reference.runtime) acme
  = JObj [("oid", JNum 7); ("manufacturer", JStr "Acme");
          ("grade", JNum 5); ("batteryType", JNum 2);
          ("encodedTitle", JStr "7")].
Proof.
  split.
  - apply (proj1 (getIndex_lists_records Reference.runtime
                    ReferenceFacts.reference_numbers) listed_calculators
             [acme; bolt]).
    exists two_calculators. vm_compute. reflexivity.
  - apply (proj2 (getIndex_lists_records Reference.runtime
                    ReferenceFacts.reference_numbers) acme).
    unfold safe_integer. cbn. lia.
Defined.

(** A create, an edit, the list and a delete on a fresh disk. *)
Lemma calculator_requests_keep_model_witness :
  exists replies ctx' cs',
    serve_calculators (R := Reference.runtime)
      [CalculatorsRouter.PostCreate acme_form;
       CalculatorsRouter.PostEdit "7" grade_eleven;
       CalculatorsRouter.GetIndex;
       CalculatorsRouter.PostDelete "7"] fresh_calculators
    = Ok replies ctx' /\
    List.length replies = 4%nat /\
    lists_calculators (R := Reference.runtime)
      (CalculatorController.calculatorManager ctx') cs' /\
    NoDup (map oid cs') /\ Forall valid_calculator cs'.
Proof.
  apply (calculator_requests_keep_model Reference.runtime
           ReferenceFacts.reference_laws
           [CalculatorsRouter.PostCreate acme_form;
            CalculatorsRouter.PostEdit "7" grade_eleven;
            CalculatorsRouter.GetIndex;
            CalculatorsRouter.PostDelete "7"] fresh_calculators []).
  - discriminate.
  - exists (File "[]"). reflexivity.
  - constructor.
  - constructor.
Defined.

(** A new note beside the two notes. *)
Lemma note_postCreate_accepted_witness :
  NoteController.postCreate (R := Reference.runtime) plan_form fresh_notes
  = Ok (NoteController.Redirect "/notes/index")
       (note_called fresh_notes
          (NoteController.AddNote "Plan" "write it down")
          (manager
             (file_of (R := Reference.runtime)
                (map toJS
                   [shopping; chores;
                    {| title := "Plan"; body := "write it down" |}]))
             [shopping; chores;
              {| title := "Plan"; body := "write it down" |}])).
Proof.
  refine (proj1 (note_postCreate_accepted Reference.runtime
                   ReferenceFacts.reference_laws plan_form fresh_notes
                   [shopping; chores] _ _ _) _ _).
  - discriminate.
  - discriminate.
  - eexists. vm_compute. reflexivity.
  - cbn. intros [H|[H|[]]]; discriminate H.
  - discriminate.
Defined.

(** The body of [chores] replaced by the body of the form. *)
Lemma note_postUpdate_accepted_witness :
  NoteController.postUpdate (R := Reference.runtime) "Chores" plan_form
    fresh_notes
  = Ok (NoteController.Redirect "/notes/index")
       (note_called fresh_notes
          (NoteController.UpdateNote "Chores" "write it down")
          (manager
             (file_of (R := Reference.runtime)
                (map toJS [shopping; with_body chores "write it down"]))
             [shopping; with_body chores "write it down"])).
Proof.
  refine (proj1 (note_postUpdate_accepted Reference.runtime
                   ReferenceFacts.reference_laws)
            plan_form fresh_notes [shopping] [] chores _ _ _ _).
  - discriminate.
  - discriminate.
  - eexists. vm_compute. reflexivity.
  - cbn. intros [H|[]]. discriminate H.
Defined.

(** The update page of [shopping]. *)
Lemma getUpdate_shows_note_witness :
  NotePages.getUpdate (R := Reference.runtime) "Shopping" fresh_notes
  = Ok (note_form Edit "/notes/update/Shopping" (JStr "Shopping")
          (JStr "milk, eggs") None)
       (note_called fresh_notes (NoteController.GetNoteByTitle "Shopping")
          (manager (NoteManager.disk two_notes) [shopping; chores])).
Proof.
  refine (proj2 (getUpdate_shows_note Reference.runtime)
            fresh_notes [] [chores] shopping _ _).
  - eexists. vm_compute. reflexivity.
  - intros [].
Defined.

(** The delete link of [shopping]. *)
Lemma getDelete_removes_witness :
  NotePages.getDelete (R := Reference.runtime) "Shopping" fresh_notes
  = Ok (NoteController.Redirect "/notes/index")
       (note_called fresh_notes (NoteController.RemoveNote "Shopping")
          (manager (file_of (R := Reference.runtime) (map toJS [chores]))
             [chores])).
Proof.
  refine (proj1 (proj2 (getDelete_removes Reference.runtime))
            "Shopping" fresh_notes [shopping; chores] _ _ _).
  - discriminate.
  - eexists. vm_compute. reflexivity.
  - left. reflexivity.
Defined.



(** The user of [main], registered and logging in. *)
Lemma login_needs_credentials_witness :
  (Auth.setUsers dev_user ;;
   HomeController.postLogin (Some "dev@dev") (Some "devdev")) Auth.initial
  = Ok (HomeController.Redirect "/notes/index")
       {| Auth.users := Some dev_user; Auth.loggedIn := true |}.
Proof.
  apply (proj1 login_needs_credentials Auth.initial dev_user); discriminate.
Defined.

